(** * goworks.api: the fabric command/event pipeline

    A shallow embedding of the Go sources of the fabric service:

    - [domain]       the Fabric aggregate (NewFabric, UpdateFabric, Delete,
                     Reactivate, validateCode, validateName);
    - [command]      the call-context provenance flag (context.go);
    - [messaging]    the event envelope;
    - [eventstore]   PostgresStore.Save over the [events] table;
    - [persistence]  FabricPostgresRepository over the [fabrics] table;
    - [application]  FabricService (CreateFabric, UpdateFabric, DeleteFabric);
    - [handler]      FabricEventHandler, the inbound ERP adapter.

    Go strings are byte strings ([string], one [ascii] per byte, [len] is
    [String.length]); Go [int] is a 64-bit two's complement integer, carried
    as a [Z] with its wrap-around written out in [GoInt]. *)

From Stdlib Require Import ZArith List String Ascii Bool Lia.
Import ListNotations.

Local Open Scope Z_scope.
Local Open Scope string_scope.

(* ================================================================== *)
(** ** Go's [int] *)

Module GoInt.

Definition min_int : Z := - 2 ^ 63.
Definition max_int : Z := 2 ^ 63 - 1.

(** Two's complement reduction of a mathematical integer to 64 bits. *)
Definition wrap (z : Z) : Z := (z + 2 ^ 63) mod 2 ^ 64 - 2 ^ 63.

Definition add (a b : Z) : Z := wrap (a + b).
Definition sub (a b : Z) : Z := wrap (a - b).

Definition in_range (z : Z) : Prop := min_int <= z <= max_int.

End GoInt.

(* ================================================================== *)
(** ** Errors

    The sentinel errors of package [domain] and of package [eventstore],
    the errors a database driver hands back, and [fmt.Errorf("...: %w", err)]
    wrapping.  [errors_Is] and [errors_As_PgError] walk the [%w] chain as
    [errors.Is] and [errors.As] do. *)

Inductive error : Type :=
  (* package domain *)
  | ErrInvalidFabricCodeLength
  | ErrInvalidFabricCodePattern
  | ErrInvalidFabricNameLength
  | ErrRecordNotFound
  | ErrDuplicateFabricCode
  | ErrConcurrencyConflict
  | ErrFabricDeleted
  (* package eventstore: a different value from domain.ErrConcurrencyConflict *)
  | EventStoreErrConcurrencyConflict
  (* database/sql and the pgx driver *)
  | SqlErrNoRows
  | PgError (code : string)
  | DriverError (msg : string)
  (* errors.New inside messaging *)
  | EnvelopeError (msg : string)
  (* fmt.Errorf(msg + ": %w", cause) *)
  | Errorf (msg : string) (cause : error).

Definition error_eqb (a b : error) : bool :=
  match a, b with
  | ErrInvalidFabricCodeLength, ErrInvalidFabricCodeLength => true
  | ErrInvalidFabricCodePattern, ErrInvalidFabricCodePattern => true
  | ErrInvalidFabricNameLength, ErrInvalidFabricNameLength => true
  | ErrRecordNotFound, ErrRecordNotFound => true
  | ErrDuplicateFabricCode, ErrDuplicateFabricCode => true
  | ErrConcurrencyConflict, ErrConcurrencyConflict => true
  | ErrFabricDeleted, ErrFabricDeleted => true
  | EventStoreErrConcurrencyConflict, EventStoreErrConcurrencyConflict => true
  | SqlErrNoRows, SqlErrNoRows => true
  | _, _ => false
  end.

(** [errors.Is(err, target)] for a sentinel [target]. *)
Fixpoint errors_Is (err target : error) : bool :=
  error_eqb err target ||
  match err with
  | Errorf _ cause => errors_Is cause target
  | _ => false
  end.

(** [errors.As(err, &pgErr)]: the SQLSTATE of the first *pgconn.PgError in
    the chain. *)
Fixpoint errors_As_PgError (err : error) : option string :=
  match err with
  | PgError code => Some code
  | Errorf _ cause => errors_As_PgError cause
  | _ => None
  end.

(** The innermost error of a [%w] chain. *)
Fixpoint root_cause (err : error) : error :=
  match err with
  | Errorf _ cause => root_cause cause
  | e => e
  end.

Inductive result (A : Type) : Type :=
  | Ok (a : A)
  | Err (e : error).
Arguments Ok {A} a.
Arguments Err {A} e.

(* ================================================================== *)
(** ** Package domain: the Fabric aggregate *)

Definition StatusActive : string := "ACTIVE".
Definition StatusDeleted : string := "DELETED".

(** The four event structs; [type Event any] only ever holds these. *)
Inductive Event : Type :=
  | FabricCreated (code name measureUnit offerStatus : string) (version : Z)
  | FabricUpdated (code name measureUnit offerStatus : string) (version : Z)
  | FabricDeleted (code : string) (version : Z)
  | FabricReactivated (code name measureUnit offerStatus : string) (version : Z).

Record Fabric : Type := mkFabric {
  Code : string;
  Name : string;
  MeasureUnit : string;
  OfferStatus : string;
  Status : string;
  Version : Z;
  events : list Event
}.

(** The character class [[A-Z0-9]]. *)
Definition upper_alnum (c : ascii) : bool :=
  let n := nat_of_ascii c in
  ((65 <=? n) && (n <=? 90) || (48 <=? n) && (n <=? 57))%nat.

(** The tail [[A-Z0-9]*$] of the pattern. *)
Fixpoint match_class_star (s : string) : bool :=
  match s with
  | EmptyString => true
  | String c rest => upper_alnum c && match_class_star rest
  end.

(** [regexp.MustCompile(`^[A-Z0-9]+$`).MatchString]. *)
Definition pattern_MatchString (s : string) : bool :=
  match s with
  | EmptyString => false
  | String c rest => upper_alnum c && match_class_star rest
  end.

Definition validateCode (code : string) : option error :=
  if ((String.length code <? 2) || (30 <? String.length code))%nat
  then Some ErrInvalidFabricCodeLength
  else if negb (pattern_MatchString code)
       then Some ErrInvalidFabricCodePattern
       else None.

Definition validateName (name : string) : option error :=
  if ((String.length name <? 1) || (250 <? String.length name))%nat
  then Some ErrInvalidFabricNameLength
  else None.

Definition NewFabric (code name measureUnit offerStatus : string)
  : result Fabric :=
  match validateCode code with
  | Some err => Err err
  | None =>
    match validateName name with
    | Some err => Err err
    | None =>
      let fabric := mkFabric code name measureUnit offerStatus
                             StatusActive 1 [] in
      let event := FabricCreated (Code fabric) (Name fabric)
                     (MeasureUnit fabric) (OfferStatus fabric)
                     (Version fabric) in
      Ok (mkFabric (Code fabric) (Name fabric) (MeasureUnit fabric)
                   (OfferStatus fabric) (Status fabric) (Version fabric)
                   (events fabric ++ [event]))
    end
  end.

(** The methods take the receiver and hand back the receiver as the call
    leaves it, next to the returned error ([None] is [nil]). *)

Definition UpdateFabric (name measureUnit offerStatus : string) (version : Z)
                        (f : Fabric) : Fabric * option error :=
  if Status f =? StatusDeleted then (f, Some ErrFabricDeleted)
  else if negb (Version f =? version)%Z then (f, Some ErrConcurrencyConflict)
  else match validateName name with
       | Some err => (f, Some err)
       | None =>
         let v := GoInt.add (Version f) 1 in
         let event := FabricUpdated (Code f) name measureUnit offerStatus v in
         (mkFabric (Code f) name measureUnit offerStatus (Status f) v
                   (events f ++ [event]), None)
       end.

Definition Delete (version : Z) (f : Fabric) : Fabric * option error :=
  if Status f =? StatusDeleted then (f, Some ErrFabricDeleted)
  else if negb (Version f =? version)%Z then (f, Some ErrConcurrencyConflict)
  else
    let v := GoInt.add (Version f) 1 in
    let event := FabricDeleted (Code f) v in
    (mkFabric (Code f) (Name f) (MeasureUnit f) (OfferStatus f)
              StatusDeleted v (events f ++ [event]), None).

Definition Reactivate (name measureUnit offerStatus : string) (version : Z)
                      (f : Fabric) : Fabric * option error :=
  if Status f =? StatusActive
  then UpdateFabric name measureUnit offerStatus version f
  else if negb (Version f =? version)%Z then (f, Some ErrConcurrencyConflict)
  else match validateName name with
       | Some err => (f, Some err)
       | None =>
         let v := GoInt.add (Version f) 1 in
         let event :=
           FabricReactivated (Code f) name measureUnit offerStatus v in
         (mkFabric (Code f) name measureUnit offerStatus StatusActive v
                   (events f ++ [event]), None)
       end.

Definition Events (f : Fabric) : list Event := events f.

(** One call on an aggregate, and a run of calls on the same aggregate. *)
Inductive Mutation : Type :=
  | CallUpdateFabric (name measureUnit offerStatus : string) (version : Z)
  | CallDelete (version : Z)
  | CallReactivate (name measureUnit offerStatus : string) (version : Z).

Definition call (m : Mutation) (f : Fabric) : Fabric * option error :=
  match m with
  | CallUpdateFabric n mu os v => UpdateFabric n mu os v f
  | CallDelete v => Delete v f
  | CallReactivate n mu os v => Reactivate n mu os v f
  end.

(** Runs the calls in order; the second component counts the calls that
    returned [nil]. *)
Fixpoint run (ms : list Mutation) (f : Fabric) : Fabric * nat :=
  match ms with
  | [] => (f, 0%nat)
  | m :: rest =>
    match call m f with
    | (f', None) => let (f'', n) := run rest f' in (f'', S n)
    | (f', Some _) => run rest f'
    end
  end.

(* ================================================================== *)
(** ** Package command: provenance carried by the call context *)

Module command.

Definition CommandSource : Type := string.
Definition CommandSourceREST : CommandSource := "rest".
Definition CommandSourceEvent : CommandSource := "event".

(** Keys and values of [context.WithValue].  [commandSourceKey] has an
    unexported type, so only [WithCommandSource] stores under it. *)
Inductive Key : Type :=
  | commandSourceKey
  | otherKey (name : string).

Inductive Val : Type :=
  | CommandSourceVal (source : CommandSource)
  | OtherVal (v : string).

Inductive Context : Type :=
  | Background
  | WithValue (parent : Context) (key : Key) (val : Val).

Definition Key_eqb (a b : Key) : bool :=
  match a, b with
  | commandSourceKey, commandSourceKey => true
  | otherKey x, otherKey y => x =? y
  | _, _ => false
  end.

(** [ctx.Value(key)]: the innermost binding of [key]. *)
Fixpoint Value (ctx : Context) (key : Key) : option Val :=
  match ctx with
  | Background => None
  | WithValue parent k v => if Key_eqb k key then Some v else Value parent key
  end.

Definition WithCommandSource (ctx : Context) (source : CommandSource)
  : Context :=
  WithValue ctx commandSourceKey (CommandSourceVal source).

Definition GetCommandSource (ctx : Context) : CommandSource :=
  match Value ctx commandSourceKey with
  | Some (CommandSourceVal source) => source
  | _ => CommandSourceREST
  end.

Definition IsFromREST (ctx : Context) : bool :=
  GetCommandSource ctx =? CommandSourceREST.

Definition IsFromEvent (ctx : Context) : bool :=
  GetCommandSource ctx =? CommandSourceEvent.

(** [otel.Tracer(..).Start(ctx, name)] derives a context that carries the
    new span under a key of the tracing library. *)
Definition tracer_Start (ctx : Context) (name : string) : Context :=
  WithValue ctx (otherKey "otel.span") (OtherVal name).

End command.

(* ================================================================== *)
(** ** Package messaging: the event envelope *)

Module messaging.

(** The payload of the ERP feed, as [erpFabricEvent] receives it. *)
Record erpFabricEvent : Type := mkErp {
  erp_Code : string;
  erp_Name : string;
  erp_MeasureUnit : string;
  erp_OfferStatus : string
}.

(** [Payload interface{}].  An inbound JSON payload is given by what
    [json.Unmarshal] into [erpFabricEvent] makes of it. *)
Inductive Payload : Type :=
  | PayloadNil
  | PayloadEvent (e : Event)
  | PayloadErp (e : erpFabricEvent)
  | PayloadMalformed.

Record EventEnvelope : Type := mkEnvelope {
  EventID : string;
  EventType : string;
  AggregateID : string;
  AggregateType : string;
  AggregateVersion : Z;
  EventVersion : Z;
  Timestamp : nat;
  CorrelationID : string;
  CausationID : string;
  UserID : string;
  Payload_ : Payload
}.

Definition Validate (e : EventEnvelope) : option error :=
  if EventType e =? "" then Some (EnvelopeError "event type is required")
  else if AggregateID e =? "" then
    Some (EnvelopeError "aggregate ID is required")
  else if AggregateType e =? "" then
    Some (EnvelopeError "aggregate type is required")
  else match Payload_ e with
       | PayloadNil => Some (EnvelopeError "payload is required")
       | _ => None
       end.

End messaging.

(* ================================================================== *)
(** ** The world the service runs in

    The two Postgres tables, the outcomes the database driver will hand to
    the calls still to come, the source of event identifiers and time, the
    calls the publisher has received, and the log. *)

Record FabricRow : Type := mkFabricRow {
  row_version : Z;
  row_code : string;
  row_name : string;
  row_measure_unit : string;
  row_offer_status : string;
  row_status : string
}.

Record EventRow : Type := mkEventRow {
  col_event_id : string;
  col_aggregate_id : string;
  col_aggregate_type : string;
  col_event_type : string;
  col_aggregate_version : Z;
  col_payload : messaging.Payload;
  col_timestamp : nat;
  col_correlation_id : string;
  col_user_id : string
}.

(** What a driver call can fail with, other than a constraint the tables
    themselves decide: a server error with its SQLSTATE, or a connection
    level failure. *)
Inductive DriverFault : Type :=
  | FaultPg (code : string)
  | FaultConn (msg : string).

Definition fault_error (f : DriverFault) : error :=
  match f with
  | FaultPg code => PgError code
  | FaultConn msg => DriverError msg
  end.

Inductive LogLine : Type :=
  | Log (level msg : string) (err : option error).

Record World : Type := mkWorld {
  fabrics : list FabricRow;
  events_table : list EventRow;
  driver : list (option DriverFault);
  ticks : nat;
  published : list (string * messaging.EventEnvelope);
  logs : list LogLine
}.

Definition with_fabrics (t : list FabricRow) (w : World) : World :=
  mkWorld t (events_table w) (driver w) (ticks w) (published w) (logs w).
Definition with_events_table (t : list EventRow) (w : World) : World :=
  mkWorld (fabrics w) t (driver w) (ticks w) (published w) (logs w).
Definition with_driver (d : list (option DriverFault)) (w : World) : World :=
  mkWorld (fabrics w) (events_table w) d (ticks w) (published w) (logs w).
Definition with_ticks (n : nat) (w : World) : World :=
  mkWorld (fabrics w) (events_table w) (driver w) n (published w) (logs w).
Definition with_published (p : list (string * messaging.EventEnvelope))
                          (w : World) : World :=
  mkWorld (fabrics w) (events_table w) (driver w) (ticks w) p (logs w).
Definition with_logs (l : list LogLine) (w : World) : World :=
  mkWorld (fabrics w) (events_table w) (driver w) (ticks w) (published w) l.

(** Computations over the world. *)
Definition M (A : Type) : Type := World -> A * World.

Definition ret {A} (a : A) : M A := fun w => (a, w).
Definition bind {A B} (c : M A) (k : A -> M B) : M B :=
  fun w => let (a, w') := c w in k a w'.

Notation "x <- c ;; k" := (bind c (fun x => k))
  (at level 61, c at next level, right associativity).

(** One round trip to the database: the next scripted outcome, success once
    the script is used up. *)
Definition driver_call : M (option error) := fun w =>
  match driver w with
  | [] => (None, w)
  | o :: rest => (option_map fault_error o, with_driver rest w)
  end.

Definition logger (level msg : string) (err : option error) : M unit :=
  fun w => (tt, with_logs (logs w ++ [Log level msg err]) w).

(** [uuid.New().String()] and [time.Now()]: a fresh tick each. *)
Definition tick : M nat := fun w => (ticks w, with_ticks (S (ticks w)) w).

Fixpoint digits (fuel n : nat) (acc : string) : string :=
  match fuel with
  | O => acc
  | S fuel' =>
    let acc' := String (ascii_of_nat (48 + n mod 10)) acc in
    match (n / 10)%nat with
    | O => acc'
    | q => digits fuel' q acc'
    end
  end.

Definition uuid_String (n : nat) : string := "uuid-" ++ digits (S n) n "".

(* ================================================================== *)
(** ** Package messaging, continued: NewEventEnvelope and the Publisher *)

Module envelope.
Import messaging.

(** [NewEventEnvelope] without options: the identifier and the timestamp
    are drawn from the world. *)
Definition NewEventEnvelope (eventType aggregateID aggregateType : string)
    (aggregateVersion : Z) (payload : Payload) : M EventEnvelope :=
  id <- tick ;;
  now <- tick ;;
  ret (mkEnvelope (uuid_String id) eventType aggregateID aggregateType
                  aggregateVersion 1 now "" "" "" payload).

(** [type Publisher interface]. *)
Record Publisher : Type := mkPublisher {
  Publish : command.Context -> string -> EventEnvelope -> M (option error)
}.

(** A publisher that keeps every call it receives, as [mockEventPublisher]
    keeps the last one, and answers what [outcome] says. *)
Definition RecordingPublisher
    (outcome : string -> EventEnvelope -> option error) : Publisher :=
  mkPublisher (fun _ subject e w =>
    (outcome subject e,
     with_published (published w ++ [(subject, e)]) w)).

End envelope.

(* ================================================================== *)
(** ** Package eventstore *)

Module eventstore.
Import messaging.

Definition ErrConcurrencyConflict : error := EventStoreErrConcurrencyConflict.

(** [type Store interface]. *)
Record Store : Type := mkStore {
  Save : command.Context -> list EventEnvelope -> M (option error)
}.

Definition row_of (e : EventEnvelope) : EventRow :=
  mkEventRow (EventID e) (AggregateID e) (AggregateType e) (EventType e)
             (AggregateVersion e) (Payload_ e) (Timestamp e)
             (CorrelationID e) (UserID e).

(** The server's verdict on one INSERT into [events]: the primary key on
    [event_id] and [unique_aggregate_version] raise SQLSTATE 23505, the
    NOT NULL on [payload] raises 23502. *)
Definition insert_row (r : EventRow) (t : list EventRow)
  : result (list EventRow) :=
  match col_payload r with
  | PayloadNil => Err (PgError "23502")
  | _ =>
    if existsb (fun x => col_event_id x =? col_event_id r) t
    then Err (PgError "23505")
    else if existsb (fun x => (col_aggregate_id x =? col_aggregate_id r)
                     && (col_aggregate_version x =? col_aggregate_version r)%Z)
                    t
    then Err (PgError "23505")
    else Ok (t ++ [r])%list
  end.

(** [stmt.ExecContext] inside the transaction whose view of the table is
    [t]. *)
Definition stmt_Exec (e : EventEnvelope) (t : list EventRow)
  : M (result (list EventRow)) :=
  o <- driver_call ;;
  match o with
  | Some err => ret (Err err)
  | None => ret (insert_row (row_of e) t)
  end.

(** The [for _, envelope := range envelopes] loop; [Err] is the value the
    method returns from inside the loop. *)
Fixpoint save_loop (envelopes : list EventEnvelope) (t : list EventRow)
  : M (result (list EventRow)) :=
  match envelopes with
  | [] => ret (Ok t)
  | e :: rest =>
    r <- stmt_Exec e t ;;
    match r with
    | Err err =>
      match errors_As_PgError err with
      | Some code =>
        if code =? "23505" then ret (Err ErrConcurrencyConflict)
        else ret (Err (Errorf ("could not execute statement for event "
                                 ++ EventID e) err))
      | None => ret (Err (Errorf ("could not execute statement for event "
                                    ++ EventID e) err))
      end
    | Ok t' => save_loop rest t'
    end
  end.

(** [PostgresStore.Save].  The transaction works on its own view of the
    table; only a successful [tx.Commit] installs it, every other way out
    goes through the deferred [tx.Rollback]. *)
Definition PostgresStore_Save (ctx : command.Context)
    (envelopes : list EventEnvelope) : M (option error) :=
  begin <- driver_call ;;
  match begin with
  | Some err => ret (Some (Errorf "could not begin transaction" err))
  | None =>
    prepare <- driver_call ;;
    match prepare with
    | Some err => ret (Some (Errorf "could not prepare statement" err))
    | None =>
      fun w =>
        match save_loop envelopes (events_table w) w with
        | (Err err, w1) => (Some err, w1)
        | (Ok t', w1) =>
          match driver_call w1 with
          | (Some err, w2) => (Some err, w2)
          | (None, w2) => (None, with_events_table t' w2)
          end
        end
    end
  end.

Definition PostgresStore : Store := mkStore PostgresStore_Save.

End eventstore.

(* ================================================================== *)
(** ** Package persistence: FabricPostgresRepository *)

(** [type FabricCommandRepository interface] of package domain. *)
Record FabricCommandRepository : Type := mkRepository {
  repo_Save : command.Context -> Fabric -> M (result Fabric);
  repo_GetByCode : command.Context -> string -> M (result Fabric);
  repo_GetByCodeIncludingDeleted : command.Context -> string -> M (result Fabric);
  repo_Update : command.Context -> Fabric -> M (option error);
  repo_Delete : command.Context -> Fabric -> M (option error)
}.

Module persistence.

(** [Scan] into a fresh [&domain.Fabric{}]: no pending events. *)
Definition scan (r : FabricRow) : Fabric :=
  mkFabric (row_code r) (row_name r) (row_measure_unit r)
           (row_offer_status r) (row_status r) (row_version r) [].

(** The partial unique index [fabrics_active_code_idx]: among the rows
    whose status is 'ACTIVE' a code occurs once. *)
Definition active_with_code (code : string) (t : list FabricRow) : nat :=
  List.length (filter (fun r => (row_code r =? code) && (row_status r =? "ACTIVE"))
                 t).

Definition fabrics_active_code_idx (t : list FabricRow) : bool :=
  forallb (fun r => negb (row_status r =? "ACTIVE")
                    || (active_with_code (row_code r) t <=? 1)%nat) t.

(** [UPDATE fabrics SET .. WHERE ..]: the table after the statement and
    the number of rows affected. *)
Definition sql_update (where_ : FabricRow -> bool)
    (set : FabricRow -> FabricRow) (t : list FabricRow)
  : list FabricRow * Z :=
  (map (fun r => if where_ r then set r else r) t,
   Z.of_nat (List.length (filter where_ t))).

(** [QueryRowContext(..).Scan(..)] on the view [t]: the first row the
    WHERE clause selects, [sql.ErrNoRows] when there is none. *)
Definition QueryRow_Scan (where_ : FabricRow -> bool) (t : list FabricRow)
  : M (result Fabric) :=
  o <- driver_call ;;
  match o with
  | Some err => ret (Err err)
  | None =>
    match find where_ t with
    | Some r => ret (Ok (scan r))
    | None => ret (Err SqlErrNoRows)
    end
  end.

(** [ExecContext] of a statement that turns the view [t] into [t'],
    affecting [n] rows; the server refuses a [t'] that breaks the index. *)
Definition Exec (stmt : list FabricRow * Z) : M (result (list FabricRow * Z)) :=
  o <- driver_call ;;
  match o with
  | Some err => ret (Err err)
  | None =>
    if fabrics_active_code_idx (fst stmt) then ret (Ok stmt)
    else ret (Err (PgError "23505"))
  end.

(** [tx.Commit]: installs the transaction's view, or fails and leaves
    the table as it was. *)
Definition Commit (t' : list FabricRow) : M (option error) :=
  o <- driver_call ;;
  match o with
  | Some err => ret (Some err)
  | None => fun w => (None, with_fabrics t' w)
  end.

Definition Save_reactivate (fabric existingFabric : Fabric)
    (t : list FabricRow) : M (result Fabric) :=
  match Reactivate (Name fabric) (MeasureUnit fabric) (OfferStatus fabric)
                   (Version existingFabric) existingFabric with
  | (_, Some err) => ret (Err err)
  | (existingFabric, None) =>
    r <- Exec (sql_update
                 (fun r => row_code r =? Code existingFabric)
                 (fun r => mkFabricRow (Version existingFabric) (row_code r)
                             (Name existingFabric)
                             (MeasureUnit existingFabric)
                             (OfferStatus existingFabric)
                             (Status existingFabric))
                 t) ;;
    match r with
    | Err err => ret (Err (Errorf "failed to reactivate fabric" err))
    | Ok (t', _) =>
      c <- Commit t' ;;
      match c with
      | Some err => ret (Err err)
      | None => ret (Ok existingFabric)
      end
    end
  end.

Definition Save_insert (fabric : Fabric) (t : list FabricRow)
  : M (result Fabric) :=
  r <- Exec ((t ++ [mkFabricRow (Version fabric) (Code fabric) (Name fabric)
                      (MeasureUnit fabric) (OfferStatus fabric)
                      (Status fabric)])%list, 1) ;;
  match r with
  | Err err =>
    match errors_As_PgError err with
    | Some code =>
      if code =? "23505" then ret (Err ErrDuplicateFabricCode)
      else ret (Err (Errorf "failed to insert new fabric" err))
    | None => ret (Err (Errorf "failed to insert new fabric" err))
    end
  | Ok (t', _) =>
    c <- Commit t' ;;
    match c with
    | Some err => ret (Err err)
    | None => ret (Ok fabric)
    end
  end.

(** [FabricPostgresRepository.Save]; [t] is the view of the transaction
    that [BeginTx] opens. *)
Definition Save (ctx : command.Context) (fabric : Fabric) : M (result Fabric) :=
  begin <- driver_call ;;
  match begin with
  | Some err => ret (Err (Errorf "could not begin transaction" err))
  | None =>
    fun w =>
      let t := fabrics w in
      (found <- QueryRow_Scan (fun r => row_code r =? Code fabric) t ;;
       match found with
       | Err err =>
         if negb (errors_Is err SqlErrNoRows)
         then ret (Err (Errorf "failed during select for update" err))
         else Save_insert fabric t
       | Ok existingFabric =>
         if Status existingFabric =? StatusActive
         then ret (Err ErrDuplicateFabricCode)
         else if Status existingFabric =? StatusDeleted
         then Save_reactivate fabric existingFabric t
         else Save_insert fabric t
       end) w
  end.

Definition get_by (where_ : FabricRow -> bool) (code : string)
  : M (result Fabric) :=
  fun w =>
    (found <- QueryRow_Scan where_ (fabrics w) ;;
     match found with
     | Err err =>
       if errors_Is err SqlErrNoRows
       then ret (Err (Errorf ("fabric with code " ++ code ++ " not found")
                             ErrRecordNotFound))
       else ret (Err (Errorf "failed to get fabric by code" err))
     | Ok fabric => ret (Ok fabric)
     end) w.

Definition GetByCode (ctx : command.Context) (code : string)
  : M (result Fabric) :=
  get_by (fun r => (row_code r =? code) && (row_status r =? "ACTIVE")) code.

Definition GetByCodeIncludingDeleted (ctx : command.Context) (code : string)
  : M (result Fabric) :=
  get_by (fun r => row_code r =? code) code.

(** A statement run on the pool commits on its own. *)
Definition pool_Exec (stmt : list FabricRow -> list FabricRow * Z)
  : M (result Z) :=
  fun w =>
    match Exec (stmt (fabrics w)) w with
    | (Err err, w1) => (Err err, w1)
    | (Ok (t', n), w1) => (Ok n, with_fabrics t' w1)
    end.

Definition Update (ctx : command.Context) (fabric : Fabric)
  : M (option error) :=
  r <- pool_Exec (sql_update
         (fun r => (row_code r =? Code fabric)
                   && (row_version r =? GoInt.sub (Version fabric) 1)%Z
                   && (row_status r =? "ACTIVE"))
         (fun r => mkFabricRow (Version fabric) (row_code r) (Name fabric)
                     (MeasureUnit fabric) (OfferStatus fabric)
                     (row_status r))) ;;
  match r with
  | Err err => ret (Some (Errorf "failed to update fabric" err))
  | Ok rowsAffected =>
    if (rowsAffected =? 0)%Z then ret (Some ErrRecordNotFound) else ret None
  end.

Definition Delete (ctx : command.Context) (fabric : Fabric)
  : M (option error) :=
  r <- pool_Exec (sql_update
         (fun r => (row_code r =? Code fabric)
                   && (row_version r =? Version fabric)%Z)
         (fun r => mkFabricRow (row_version r) (row_code r) (row_name r)
                     (row_measure_unit r) (row_offer_status r)
                     StatusDeleted)) ;;
  match r with
  | Err err => ret (Some (Errorf "failed to delete fabric" err))
  | Ok rowsAffected =>
    if (rowsAffected =? 0)%Z then ret (Some ErrRecordNotFound) else ret None
  end.

Definition FabricPostgresRepository : FabricCommandRepository :=
  mkRepository Save GetByCode GetByCodeIncludingDeleted Update Delete.

End persistence.

(* ================================================================== *)
(** ** Package application: FabricService *)

Module application.
Import messaging envelope.

Record FabricService : Type := mkFabricService {
  commandRepo : FabricCommandRepository;
  publisher : Publisher;
  eventStore : eventstore.Store;
  eventChannel : string
}.

Definition NewFabricCommandService (commandRepo : FabricCommandRepository)
    (publisher : Publisher) (eventStore : eventstore.Store) : FabricService :=
  mkFabricService commandRepo publisher eventStore "app.fabric".

(** The [for _, envelope := range envelopesToPublish] loop around
    [s.publisher.Publish]: a failure is logged and the loop goes on. *)
Fixpoint publish_loop (s : FabricService) (ctx : command.Context)
    (wrap_msg log_msg : string) (envelopes : list EventEnvelope) : M unit :=
  match envelopes with
  | [] => ret tt
  | e :: rest =>
    r <- Publish (publisher s) ctx (eventChannel s) e ;;
    match r with
    | Some err =>
      _ <- logger "ERROR" log_msg (Some (Errorf wrap_msg err)) ;;
      publish_loop s ctx wrap_msg log_msg rest
    | None => publish_loop s ctx wrap_msg log_msg rest
    end
  end.

(** The envelope-building loop of CreateFabric. *)
Fixpoint create_envelopes (persistedFabric : Fabric) (evs : list Event)
  : M (list EventEnvelope) :=
  match evs with
  | [] => ret []
  | event :: rest =>
    match event with
    | FabricCreated _ _ _ _ _ =>
      e <- NewEventEnvelope "app.fabric.created" (Code persistedFabric)
             "fabric" (Version persistedFabric) (PayloadEvent event) ;;
      es <- create_envelopes persistedFabric rest ;;
      ret (e :: es)
    | FabricReactivated _ _ _ _ _ =>
      e <- NewEventEnvelope "app.fabric.reactivated" (Code persistedFabric)
             "fabric" (Version persistedFabric) (PayloadEvent event) ;;
      es <- create_envelopes persistedFabric rest ;;
      ret (e :: es)
    | _ => create_envelopes persistedFabric rest
    end
  end.

Definition CreateFabric (s : FabricService) (ctx : command.Context)
    (code name measureUnit offerStatus : string) : M (result Fabric) :=
  let ctx := command.tracer_Start ctx "fabric.service.create" in
  match NewFabric code name measureUnit offerStatus with
  | Err err =>
    let wrappedErr :=
      Errorf "application service failed to create fabric" err in
    _ <- logger "ERROR" "fabric creation failed due to a domain error"
           (Some wrappedErr) ;;
    ret (Err wrappedErr)
  | Ok fabric =>
    saved <- repo_Save (commandRepo s) ctx fabric ;;
    match saved with
    | Err err =>
      let wrappedErr := Errorf "failed to save fabric" err in
      _ <- logger "ERROR" "saving fabric failed" (Some wrappedErr) ;;
      ret (Err wrappedErr)
    | Ok persistedFabric =>
      envelopesToPublish <-
        create_envelopes persistedFabric (Events persistedFabric) ;;
      match envelopesToPublish with
      | [] => ret (Ok persistedFabric)
      | _ :: _ =>
        stored <- eventstore.Save (eventStore s) ctx envelopesToPublish ;;
        match stored with
        | Some err =>
          let wrappedErr := Errorf "failed to save to event store" err in
          _ <- logger "ERROR" "saving to event store failed"
                 (Some wrappedErr) ;;
          ret (Err wrappedErr)
        | None =>
          _ <- (if command.IsFromREST ctx
                then publish_loop s ctx
                       "failed to publish fabric event envelope"
                       "publishing event envelope failed"
                       envelopesToPublish
                else ret tt) ;;
          ret (Ok persistedFabric)
        end
      end
    end
  end.

(** The envelope-building loop of UpdateFabric. *)
Fixpoint update_envelopes (fabric : Fabric) (evs : list Event)
  : M (list EventEnvelope) :=
  match evs with
  | [] => ret []
  | event :: rest =>
    match event with
    | FabricUpdated _ _ _ _ _ =>
      e <- NewEventEnvelope "app.fabric.updated" (Code fabric) "Fabric"
             (Version fabric) (PayloadEvent event) ;;
      es <- update_envelopes fabric rest ;;
      ret (e :: es)
    | _ => update_envelopes fabric rest
    end
  end.

Definition UpdateFabric (s : FabricService) (ctx : command.Context)
    (code name measureUnit offerStatus : string) (version : Z)
  : M (result Fabric) :=
  let ctx := command.tracer_Start ctx "fabric.service.update" in
  got <- repo_GetByCode (commandRepo s) ctx code ;;
  match got with
  | Err err => ret (Err err)
  | Ok fabric =>
    match UpdateFabric name measureUnit offerStatus version fabric with
    | (_, Some err) => ret (Err err)
    | (fabric, None) =>
      updated <- repo_Update (commandRepo s) ctx fabric ;;
      match updated with
      | Some err =>
        let wrappedErr := Errorf "failed to update fabric in repo" err in
        _ <- logger "ERROR" "updating fabric failed" (Some wrappedErr) ;;
        ret (Err wrappedErr)
      | None =>
        envelopesToPublish <- update_envelopes fabric (Events fabric) ;;
        match envelopesToPublish with
        | [] => ret (Ok fabric)
        | _ :: _ =>
          stored <- eventstore.Save (eventStore s) ctx envelopesToPublish ;;
          match stored with
          | Some err =>
            let wrappedErr :=
              Errorf "failed to save update event to event store" err in
            _ <- logger "ERROR" "saving update event to event store failed"
                   (Some wrappedErr) ;;
            ret (Err wrappedErr)
          | None =>
            _ <- (if command.IsFromREST ctx
                  then publish_loop s ctx
                         "failed to publish fabric updated event"
                         "publishing fabric updated event failed"
                         envelopesToPublish
                  else ret tt) ;;
            ret (Ok fabric)
          end
        end
      end
    end
  end.

(** The envelope-building loop of DeleteFabric. *)
Fixpoint delete_envelopes (fabric : Fabric) (evs : list Event)
  : M (list EventEnvelope) :=
  match evs with
  | [] => ret []
  | event :: rest =>
    match event with
    | FabricDeleted _ _ =>
      e <- NewEventEnvelope "app.fabric.deleted" (Code fabric) "Fabric"
             (Version fabric) (PayloadEvent event) ;;
      es <- delete_envelopes fabric rest ;;
      ret (e :: es)
    | _ => delete_envelopes fabric rest
    end
  end.

Definition DeleteFabric (s : FabricService) (ctx : command.Context)
    (code : string) (version : Z) : M (option error) :=
  let ctx := command.tracer_Start ctx "fabric.service.delete" in
  got <- repo_GetByCode (commandRepo s) ctx code ;;
  match got with
  | Err err => ret (Some err)
  | Ok fabric =>
    match Delete version fabric with
    | (_, Some err) => ret (Some err)
    | (fabric, None) =>
      deleted <- repo_Delete (commandRepo s) ctx fabric ;;
      match deleted with
      | Some err =>
        let wrappedErr := Errorf "failed to delete fabric in repo" err in
        _ <- logger "ERROR" "deleting fabric failed" (Some wrappedErr) ;;
        ret (Some wrappedErr)
      | None =>
        envelopesToPublish <- delete_envelopes fabric (Events fabric) ;;
        match envelopesToPublish with
        | [] => ret None
        | _ :: _ =>
          stored <- eventstore.Save (eventStore s) ctx envelopesToPublish ;;
          match stored with
          | Some err =>
            let wrappedErr :=
              Errorf "failed to save delete event to event store" err in
            _ <- logger "ERROR" "saving delete event failed"
                   (Some wrappedErr) ;;
            ret (Some wrappedErr)
          | None =>
            _ <- (if command.IsFromREST ctx
                  then publish_loop s ctx
                         "failed to publish fabric deleted event"
                         "publishing fabric deleted event failed"
                         envelopesToPublish
                  else ret tt) ;;
            ret None
          end
        end
      end
    end
  end.

Definition GetByCode (s : FabricService) (ctx : command.Context)
    (code : string) : M (result Fabric) :=
  repo_GetByCode (commandRepo s) ctx code.

End application.

(* ================================================================== *)
(** ** Package handler: the inbound ERP adapter *)

Module handler.
Import messaging.

(** [type FabricCommandService interface]. *)
Record FabricCommandService : Type := mkCommandService {
  CreateFabric : command.Context -> string -> string -> string -> string ->
                 M (result Fabric);
  UpdateFabric : command.Context -> string -> string -> string -> string ->
                 Z -> M (result Fabric);
  DeleteFabric : command.Context -> string -> Z -> M (option error);
  GetByCode : command.Context -> string -> M (result Fabric)
}.

(** [*application.FabricService] implements the interface. *)
Definition of_FabricService (s : application.FabricService)
  : FabricCommandService :=
  mkCommandService (application.CreateFabric s) (application.UpdateFabric s)
                   (application.DeleteFabric s) (application.GetByCode s).

Record FabricEventHandler : Type := mkHandler {
  service : FabricCommandService
}.

(** Modelled from the spec: package validator is not among the sources.
    A validator collects the checks that failed: [Check] records the
    message under its key when the condition is false, [Valid] says that
    nothing was recorded, [Matches] runs the compiled pattern. *)
Definition Validator : Type := list (string * string).
Definition validator_New : Validator := [].
Definition Check (v : Validator) (ok : bool) (key message : string)
  : Validator :=
  if ok then v
  else if existsb (fun kv => fst kv =? key) v then v
       else (v ++ [(key, message)])%list.
Definition Valid (v : Validator) : bool :=
  match v with [] => true | _ :: _ => false end.
Definition Matches (value : string) (rx : string -> bool) : bool := rx value.

Definition validateCreateFabricEvent (v : Validator) (event : erpFabricEvent)
  : Validator :=
  let v := Check v (negb (erp_Code event =? "")) "code"
                 "code must be provided" in
  let v := Check v (2 <=? String.length (erp_Code event))%nat "code"
                 "code must be between 2 and 30 characters long" in
  let v := Check v (String.length (erp_Code event) <=? 30)%nat "code"
                 "code must be between 2 and 30 characters long" in
  let v := Check v (Matches (erp_Code event) pattern_MatchString) "code"
                 "code must only contain uppercase letters and numbers" in
  let v := Check v (negb (erp_Name event =? "")) "name"
                 "name must be provided" in
  Check v (String.length (erp_Name event) <=? 250)%nat "name"
        "name must not be more than 250 characters long".

Definition validateUpdateFabricEvent (v : Validator) (version : Z)
    (event : erpFabricEvent) : Validator :=
  let v := Check v (0 <? version)%Z "version"
                 "version must be provided and greater than 0" in
  let v := Check v (negb (erp_Name event =? "")) "name"
                 "name must be provided" in
  Check v (String.length (erp_Name event) <=? 250)%nat "name"
        "name must not be more than 250 characters long".

Definition withDefaults (event : erpFabricEvent) : erpFabricEvent :=
  let event :=
    if erp_MeasureUnit event =? ""
    then mkErp (erp_Code event) (erp_Name event) "MB" (erp_OfferStatus event)
    else event in
  if erp_OfferStatus event =? ""
  then mkErp (erp_Code event) (erp_Name event) (erp_MeasureUnit event) "ACTIVE"
  else event.

Definition handleCreateEvent (h : FabricEventHandler) (ctx : command.Context)
    (event : erpFabricEvent) (eventID : string) : M (option error) :=
  let ctx := command.WithCommandSource ctx command.CommandSourceEvent in
  let event := withDefaults event in
  let v := validateCreateFabricEvent validator_New event in
  if negb (Valid v) then
    _ <- logger "ERROR" "Invalid fabric data from ERP event" None ;;
    ret None
  else
    r <- CreateFabric (service h) ctx (erp_Code event) (erp_Name event)
           (erp_MeasureUnit event) (erp_OfferStatus event) ;;
    match r with
    | Err err =>
      if errors_Is err ErrDuplicateFabricCode then
        _ <- logger "INFO" "Fabric already exists, skipping" None ;;
        ret None
      else if errors_Is err ErrInvalidFabricCodeLength
              || errors_Is err ErrInvalidFabricCodePattern
              || errors_Is err ErrInvalidFabricNameLength then
        _ <- logger "ERROR" "Invalid fabric data from ERP" (Some err) ;;
        ret None
      else
        _ <- logger "ERROR" "Failed to create fabric" (Some err) ;;
        ret (Some err)
    | Ok _ =>
      _ <- logger "INFO" "Fabric created from event" None ;;
      ret None
    end.

Definition handleUpdateEvent (h : FabricEventHandler) (ctx : command.Context)
    (event : erpFabricEvent) (eventID : string) (version : Z)
  : M (option error) :=
  let ctx := command.WithCommandSource ctx command.CommandSourceEvent in
  let event := withDefaults event in
  let v := validateUpdateFabricEvent validator_New version event in
  if negb (Valid v) then
    _ <- logger "ERROR" "Invalid fabric data from ERP event" None ;;
    ret None
  else
    r <- UpdateFabric (service h) ctx (erp_Code event) (erp_Name event)
           (erp_MeasureUnit event) (erp_OfferStatus event)
           (GoInt.sub version 1) ;;
    match r with
    | Err err =>
      if errors_Is err ErrRecordNotFound then
        _ <- logger "WARN"
               "Fabric not found for update, might need to create first"
               None ;;
        ret None
      else if errors_Is err ErrConcurrencyConflict then
        _ <- logger "WARN" "Version conflict, event might be out of order"
               None ;;
        ret None
      else if errors_Is err ErrInvalidFabricNameLength then
        _ <- logger "ERROR" "Invalid fabric data from ERP" (Some err) ;;
        ret None
      else
        _ <- logger "ERROR" "Failed to update fabric" (Some err) ;;
        ret (Some err)
    | Ok _ =>
      _ <- logger "INFO" "Fabric updated from event" None ;;
      ret None
    end.

Definition handleDeleteEvent (h : FabricEventHandler) (ctx : command.Context)
    (event : erpFabricEvent) (eventID : string) (version : Z)
  : M (option error) :=
  let ctx := command.WithCommandSource ctx command.CommandSourceEvent in
  r <- DeleteFabric (service h) ctx (erp_Code event) version ;;
  match r with
  | Some err =>
    if errors_Is err ErrRecordNotFound then
      _ <- logger "INFO" "Fabric already deleted or not found" None ;;
      ret None
    else if errors_Is err ErrConcurrencyConflict then
      _ <- logger "WARN" "Version conflict on delete" None ;;
      ret None
    else
      _ <- logger "ERROR" "Failed to delete fabric" (Some err) ;;
      ret (Some err)
  | None =>
    _ <- logger "INFO" "Fabric deleted from event" None ;;
    ret None
  end.

(** [json.Marshal(envelope.Payload)] followed by [json.Unmarshal] into an
    [erpFabricEvent]: a domain event struct has none of the four JSON keys
    and null leaves the struct zero. *)
Definition decode_payload (p : Payload) : option erpFabricEvent :=
  match p with
  | PayloadErp e => Some e
  | PayloadEvent _ => Some (mkErp "" "" "" "")
  | PayloadNil => Some (mkErp "" "" "" "")
  | PayloadMalformed => None
  end.

Definition adaptEventToCommand (h : FabricEventHandler)
    (ctx : command.Context) (envelope : EventEnvelope) : M (option error) :=
  match decode_payload (Payload_ envelope) with
  | None =>
    _ <- logger "ERROR" "Failed to unmarshal payload to erpFabricEvent"
           None ;;
    ret None
  | Some erpEvent =>
    if EventType envelope =? "erp.fabric.created" then
      handleCreateEvent h ctx erpEvent (EventID envelope)
    else if EventType envelope =? "erp.fabric.updated" then
      handleUpdateEvent h ctx erpEvent (EventID envelope)
                        (AggregateVersion envelope)
    else if EventType envelope =? "erp.fabric.deleted" then
      handleDeleteEvent h ctx erpEvent (EventID envelope)
                        (AggregateVersion envelope)
    else
      _ <- logger "WARN" "Received unknown ERP event, discarding" None ;;
      ret None
  end.

(** [HandleMessage]; [payload] is what [json.Unmarshal] makes of the
    message bytes, [None] when it fails. *)
Definition HandleMessage (h : FabricEventHandler) (ctx : command.Context)
    (subject : string) (payload : option EventEnvelope) : M (option error) :=
  match payload with
  | None =>
    _ <- logger "ERROR" "Failed to unmarshal event envelope" None ;;
    ret None
  | Some envelope =>
    match Validate envelope with
    | Some err =>
      _ <- logger "ERROR" "Invalid event envelope" (Some err) ;;
      ret None
    | None => adaptEventToCommand h ctx envelope
    end
  end.

End handler.

(* ================================================================== *)
(** ** Vocabulary of the statements *)

(** A code of 2 to 30 uppercase alphanumeric characters, a name of length
    1 to 250. *)
Definition uppercase_alphanumeric (c : ascii) : Prop :=
  (nat_of_ascii "A" <= nat_of_ascii c <= nat_of_ascii "Z")%nat \/
  (nat_of_ascii "0" <= nat_of_ascii c <= nat_of_ascii "9")%nat.

Definition code_in_bounds (code : string) : Prop :=
  (2 <= String.length code <= 30)%nat.

Definition code_in_pattern (code : string) : Prop :=
  Forall uppercase_alphanumeric (list_ascii_of_string code).

Definition name_in_bounds (name : string) : Prop :=
  (1 <= String.length name <= 250)%nat.

(** The service as bootstrap.NewServices wires it, with the recording
    publisher in the place of the NATS one. *)
Definition wired (outcome : string -> messaging.EventEnvelope -> option error)
  : application.FabricService :=
  application.NewFabricCommandService persistence.FabricPostgresRepository
    (envelope.RecordingPublisher outcome) eventstore.PostgresStore.

Definition never_fails : string -> messaging.EventEnvelope -> option error :=
  fun _ _ => None.

(** The driver script holds no failure. *)
Definition quiet (d : list (option DriverFault)) : Prop :=
  Forall (fun o => o = None) d.

(** What the next driver call answers. *)
Definition next_outcome (d : list (option DriverFault)) : option error :=
  match d with
  | [] => None
  | o :: _ => option_map fault_error o
  end.

(** The batch [es], appended in order to a table [t], meets a row with the
    same (aggregate_id, aggregate_version), respectively the same event_id:
    a row of [t] or of an earlier envelope of the batch. *)
Definition version_conflict (t : list EventRow)
    (es : list messaging.EventEnvelope) : Prop :=
  exists pre e post x,
    es = (pre ++ e :: post)%list /\
    In x (t ++ map eventstore.row_of pre)%list /\
    col_aggregate_id x = messaging.AggregateID e /\
    col_aggregate_version x = messaging.AggregateVersion e.

Definition id_conflict (t : list EventRow)
    (es : list messaging.EventEnvelope) : Prop :=
  exists pre e post x,
    es = (pre ++ e :: post)%list /\
    In x (t ++ map eventstore.row_of pre)%list /\
    col_event_id x = messaging.EventID e.

(** A failure of the storage layer: the innermost error is one the driver
    or the server raised, or the event store's own conflict error. *)
Definition storage_failure (e : error) : Prop :=
  match root_cause e with
  | PgError _ | DriverError _ | EventStoreErrConcurrencyConflict => True
  | _ => False
  end.

(** The tail that CreateFabric, UpdateFabric and DeleteFabric each spell
    out: append the envelopes to the event store, then forward them to the
    publisher when the context says REST.  The methods unfold to it
    ([CreateFabric_eq], [UpdateFabric_eq], [DeleteFabric_eq]). *)
Definition persist_and_forward {A : Type} (s : application.FabricService)
    (ctx : command.Context) (store_msg store_log pub_msg pub_log : string)
    (envelopesToPublish : list messaging.EventEnvelope)
    (ok : A) (fail : error -> A) : M A :=
  match envelopesToPublish with
  | [] => ret ok
  | _ :: _ =>
    stored <- eventstore.Save (application.eventStore s) ctx
                envelopesToPublish ;;
    match stored with
    | Some err =>
      let wrappedErr := Errorf store_msg err in
      _ <- logger "ERROR" store_log (Some wrappedErr) ;;
      ret (fail wrappedErr)
    | None =>
      _ <- (if command.IsFromREST ctx
            then application.publish_loop s ctx pub_msg pub_log
                   envelopesToPublish
            else ret tt) ;;
      ret ok
    end
  end.

(** The validation errors of the aggregate. *)
Definition is_validation_error (err : error) : bool :=
  errors_Is err ErrInvalidFabricCodeLength
  || errors_Is err ErrInvalidFabricCodePattern
  || errors_Is err ErrInvalidFabricNameLength.

(** Two runs agree on the value returned, on both tables and on the calls
    the publisher received; the log is left out. *)
Definition same_but_logs {A : Type} (r1 r2 : A * World) : Prop :=
  fst r1 = fst r2 /\ fabrics (snd r1) = fabrics (snd r2) /\
  events_table (snd r1) = events_table (snd r2) /\
  published (snd r1) = published (snd r2).

(** A publisher that refuses every envelope. *)
Definition always_fails : string -> messaging.EventEnvelope -> option error :=
  fun _ _ => Some (DriverError "nats: connection closed").

(* ================================================================== *)
(** ** Package messaging, continued: envelope options *)

Module envelope_options.
Import messaging.

(** [type EnvelopeOption]: a function that edits the envelope in place. *)
Definition EnvelopeOption : Type := EventEnvelope -> EventEnvelope.

Definition WithCorrelationID (id : string) : EnvelopeOption :=
  fun e => mkEnvelope (EventID e) (EventType e) (AggregateID e)
             (AggregateType e) (AggregateVersion e) (EventVersion e)
             (Timestamp e) id (CausationID e) (UserID e) (Payload_ e).

Definition WithCausationID (id : string) : EnvelopeOption :=
  fun e => mkEnvelope (EventID e) (EventType e) (AggregateID e)
             (AggregateType e) (AggregateVersion e) (EventVersion e)
             (Timestamp e) (CorrelationID e) id (UserID e) (Payload_ e).

Definition WithUserID (userID : string) : EnvelopeOption :=
  fun e => mkEnvelope (EventID e) (EventType e) (AggregateID e)
             (AggregateType e) (AggregateVersion e) (EventVersion e)
             (Timestamp e) (CorrelationID e) (CausationID e) userID
             (Payload_ e).

(** [NewEventEnvelope] with its variadic options, applied in order. *)
Definition NewEventEnvelope (eventType aggregateID aggregateType : string)
    (aggregateVersion : Z) (payload : Payload)
    (options : list EnvelopeOption) : M EventEnvelope :=
  e <- envelope.NewEventEnvelope eventType aggregateID aggregateType
         aggregateVersion payload ;;
  ret (fold_left (fun e option => option e) options e).

End envelope_options.

(* ================================================================== *)
(** ** Package messaging, continued: MessageRouter *)

Module router.
Import messaging.

(** [type MessageHandler interface]; the payload bytes are given by what
    [json.Unmarshal] into an EventEnvelope makes of them, as in
    [handler.HandleMessage]. *)
Record MessageHandler : Type := mkMessageHandler {
  HandleMessage_ : command.Context -> string -> option EventEnvelope ->
                   M (option error)
}.

(** [map[string]MessageHandler]: the entries with distinct keys, in the
    order a [range] statement visits them.  Go leaves that order open, so a
    statement about a router is made for every order. *)
Record MessageRouter : Type := mkRouter {
  handlers : list (string * MessageHandler)
}.

Definition NewMessageRouter : MessageRouter := mkRouter [].

(** [m[key]]. *)
Fixpoint map_get (key : string) (m : list (string * MessageHandler))
  : option MessageHandler :=
  match m with
  | [] => None
  | (k, v) :: rest => if k =? key then Some v else map_get key rest
  end.

(** [m[key] = v]. *)
Fixpoint map_set (key : string) (v : MessageHandler)
    (m : list (string * MessageHandler)) : list (string * MessageHandler) :=
  match m with
  | [] => [(key, v)]
  | (k, v') :: rest =>
    if k =? key then (key, v) :: rest else (k, v') :: map_set key v rest
  end.

Definition RegisterHandler (subjectPattern : string) (h : MessageHandler)
    (r : MessageRouter) : M MessageRouter :=
  _ <- logger "INFO" "Registered message handler" None ;;
  ret (mkRouter (map_set subjectPattern h (handlers r))).

Section Fold.

(** [strings.EqualFold] of the standard library. *)
Variable EqualFold : string -> string -> bool.

Definition matchesPattern (subject pattern : string) : bool :=
  EqualFold subject pattern.

Definition findHandler (r : MessageRouter) (subject : string)
  : option MessageHandler :=
  match map_get subject (handlers r) with
  | Some h => Some h
  | None =>
    match find (fun kv => matchesPattern subject (fst kv)) (handlers r) with
    | Some (_, h) => Some h
    | None => None
    end
  end.

Definition HandleMessage (r : MessageRouter) (ctx : command.Context)
    (subject : string) (payload : option EventEnvelope) : M (option error) :=
  match findHandler r subject with
  | None =>
    _ <- logger "WARN" "No handler found for subject" None ;;
    ret None
  | Some h =>
    _ <- logger "DEBUG" "Routing message" None ;;
    HandleMessage_ h ctx subject payload
  end.

End Fold.

(** [*handler.FabricEventHandler] implements MessageHandler. *)
Definition of_FabricEventHandler (h : handler.FabricEventHandler)
  : MessageHandler :=
  mkMessageHandler (handler.HandleMessage h).

End router.

(* ================================================================== *)
(** ** Package httpx: the responses *)

Module httpx.

(** What [WriteJSON] puts in the body: nothing, an error envelope with a
    message, with the text of an error, with the validator's map, or a
    fabric envelope. *)
Inductive Body : Type :=
  | NoBody
  | ErrorMessage (message : string)
  | ErrorOf (err : error)
  | ErrorMap (errors : list (string * string))
  | FabricEnvelope (fabric : Fabric).

(** What the handler leaves in the ResponseWriter. *)
Record Response : Type := mkResponse {
  StatusCode : Z;
  Body_ : Body
}.

Definition StatusOK : Z := 200.
Definition StatusAccepted : Z := 202.
Definition StatusNoContent : Z := 204.
Definition StatusBadRequest : Z := 400.
Definition StatusNotFound : Z := 404.
Definition StatusMethodNotAllowed : Z := 405.
Definition StatusConflict : Z := 409.
Definition StatusUnprocessableEntity : Z := 422.
Definition StatusInternalServerError : Z := 500.

Definition ErrorJSON (status : Z) (message : Body) : Response :=
  mkResponse status message.

Definition NotFound : Response :=
  ErrorJSON StatusNotFound
    (ErrorMessage "the requested resource could not be found").

Definition MethodNotAllowed (method : string) : Response :=
  ErrorJSON StatusMethodNotAllowed
    (ErrorMessage ("the " ++ method
                   ++ " method is not supported for this resource")).

(** [BadRequest(w, r, err)] with the message of the error of [ReadJSON]. *)
Definition BadRequest (message : string) : Response :=
  ErrorJSON StatusBadRequest (ErrorMessage message).

Definition InternalError (err : error) : M Response :=
  _ <- logger "ERROR" "internal server error" (Some err) ;;
  ret (ErrorJSON StatusInternalServerError
         (ErrorMessage
            "the server encountered a problem and could not process your request")).

Definition ValidationError (errors : Body) : Response :=
  ErrorJSON StatusUnprocessableEntity errors.

(** What [ReadJSON] makes of the request body for a destination: the
    message of the error it returns, or the decoded value. *)
Inductive Decoded (A : Type) : Type :=
  | Rejected (message : string)
  | Accepted (a : A).
Arguments Rejected {A} message.
Arguments Accepted {A} a.

End httpx.

(* ================================================================== *)
(** ** Package handler, continued: the REST command and query handlers *)

Module commandhandler.
Import httpx.

Record createFabricRequest : Type := mkCreateRequest {
  create_Code : string;
  create_Name : string;
  create_MeasureUnit : string;
  create_OfferStatus : string
}.

Record updateFabricRequest : Type := mkUpdateRequest {
  update_Name : string;
  update_MeasureUnit : string;
  update_OfferStatus : string;
  update_Version : Z
}.

Record deleteFabricRequest : Type := mkDeleteRequest {
  delete_Version : Z
}.

(** An [*http.Request] as the handler reads it: the method, the context,
    the [code] URL parameter, and the body as [ReadJSON] decodes it into
    each of the three request structs. *)
Record Request : Type := mkRequest {
  Method : string;
  Context : command.Context;
  URLParam_code : string;
  ReadJSON_create : Decoded createFabricRequest;
  ReadJSON_update : Decoded updateFabricRequest;
  ReadJSON_delete : Decoded deleteFabricRequest
}.

Record FabricCommandHandler : Type := mkCommandHandler {
  service : handler.FabricCommandService
}.

Definition NewFabricCommandHandler (service : handler.FabricCommandService)
  : FabricCommandHandler :=
  mkCommandHandler service.

Definition validateCreateFabricRequest (v : handler.Validator)
    (req : createFabricRequest) : handler.Validator :=
  let v := handler.Check v (negb (create_Code req =? "")) "code"
             "code must be provided" in
  let v := handler.Check v (2 <=? String.length (create_Code req))%nat "code"
             "code must be between 2 and 30 characters long" in
  let v := handler.Check v (String.length (create_Code req) <=? 30)%nat "code"
             "code must be between 2 and 30 characters long" in
  let v := handler.Check v
             (handler.Matches (create_Code req) pattern_MatchString) "code"
             "code must only contain uppercase letters and numbers" in
  let v := handler.Check v (negb (create_Name req =? "")) "name"
             "name must be provided" in
  handler.Check v (String.length (create_Name req) <=? 250)%nat "name"
    "name must not be more than 250 characters long".

Definition validateUpdateFabricRequest (v : handler.Validator)
    (req : updateFabricRequest) : handler.Validator :=
  let v := handler.Check v (0 <? update_Version req)%Z "version"
             "version must be provided and greater than 0" in
  let v := handler.Check v (negb (update_Name req =? "")) "name"
             "name must be provided" in
  handler.Check v (String.length (update_Name req) <=? 250)%nat "name"
    "name must not be more than 250 characters long".

Definition createFabric (h : FabricCommandHandler) (r : Request) : M Response :=
  let ctx := command.WithCommandSource (Context r) command.CommandSourceREST in
  match ReadJSON_create r with
  | Rejected message => ret (BadRequest message)
  | Accepted req =>
    let v := validateCreateFabricRequest handler.validator_New req in
    if negb (handler.Valid v) then ret (ValidationError (ErrorMap v))
    else
      res <- handler.CreateFabric (service h) ctx (create_Code req)
               (create_Name req) (create_MeasureUnit req)
               (create_OfferStatus req) ;;
      match res with
      | Err err =>
        if errors_Is err ErrDuplicateFabricCode then
          ret (ErrorJSON StatusConflict
                 (ErrorMessage "a fabric with this code already exists"))
        else if errors_Is err ErrInvalidFabricCodeLength
                || errors_Is err ErrInvalidFabricCodePattern
                || errors_Is err ErrInvalidFabricNameLength then
          ret (ValidationError (ErrorOf err))
        else InternalError err
      | Ok _ => ret (mkResponse StatusAccepted NoBody)
      end
  end.

Definition updateFabric (h : FabricCommandHandler) (r : Request) : M Response :=
  let ctx := command.WithCommandSource (Context r) command.CommandSourceREST in
  let code := URLParam_code r in
  match ReadJSON_update r with
  | Rejected message => ret (BadRequest message)
  | Accepted req =>
    let v := validateUpdateFabricRequest handler.validator_New req in
    if negb (handler.Valid v) then ret (ValidationError (ErrorMap v))
    else
      res <- handler.UpdateFabric (service h) ctx code (update_Name req)
               (update_MeasureUnit req) (update_OfferStatus req)
               (update_Version req) ;;
      match res with
      | Err err =>
        if errors_Is err ErrRecordNotFound then ret NotFound
        else if errors_Is err ErrConcurrencyConflict then
          ret (ErrorJSON StatusConflict
                 (ErrorMessage
                    "the resource has been modified by another process, please refresh and try again"))
        else if errors_Is err ErrInvalidFabricNameLength then
          ret (ValidationError (ErrorOf err))
        else InternalError err
      | Ok _ => ret (mkResponse StatusOK NoBody)
      end
  end.

Definition deleteFabric (h : FabricCommandHandler) (r : Request) : M Response :=
  let ctx := command.WithCommandSource (Context r) command.CommandSourceREST in
  let code := URLParam_code r in
  match ReadJSON_delete r with
  | Rejected message => ret (BadRequest message)
  | Accepted req =>
    let v := handler.Check handler.validator_New (0 <? delete_Version req)%Z
               "version" "version must be provided and greater than 0" in
    if negb (handler.Valid v) then ret (ValidationError (ErrorMap v))
    else
      res <- handler.DeleteFabric (service h) ctx code (delete_Version req) ;;
      match res with
      | Some err =>
        if errors_Is err ErrRecordNotFound then ret NotFound
        else if errors_Is err ErrConcurrencyConflict then
          ret (ErrorJSON StatusConflict
                 (ErrorMessage
                    "the resource has been modified by another process, please refresh and try again"))
        else InternalError err
      | None => ret (mkResponse StatusNoContent NoBody)
      end
  end.

Definition ServeHTTP (h : FabricCommandHandler) (r : Request) : M Response :=
  if Method r =? "POST" then createFabric h r
  else if Method r =? "PUT" then updateFabric h r
  else if Method r =? "DELETE" then deleteFabric h r
  else ret (MethodNotAllowed (Method r)).

End commandhandler.

Module queryhandler.
Import httpx.

(** [type FabricQueryRepository interface]. *)
Record FabricQueryRepository : Type := mkQueryRepository {
  GetByCode : command.Context -> string -> M (result Fabric)
}.

Record FabricQueryHandler : Type := mkQueryHandler {
  repo : FabricQueryRepository
}.

Definition NewFabricQueryHandler (repo : FabricQueryRepository)
  : FabricQueryHandler :=
  mkQueryHandler repo.

(** [ServeHTTP]; [json.MarshalIndent] of a fabric does not fail, so the
    error branch after [WriteJSON] is never taken. *)
Definition ServeHTTP (h : FabricQueryHandler) (ctx : command.Context)
    (code : string) : M Response :=
  res <- GetByCode (repo h) ctx code ;;
  match res with
  | Err err =>
    if errors_Is err ErrRecordNotFound then ret NotFound
    else InternalError err
  | Ok fabric => ret (mkResponse StatusOK (FabricEnvelope fabric))
  end.

(** The repository as bootstrap.NewRepositories hands it to the handler. *)
Definition of_FabricPostgresRepository : FabricQueryRepository :=
  mkQueryRepository persistence.GetByCode.

End queryhandler.

(* ================================================================== *)
(** ** Package messaging, continued: NatsPublisher *)

Module nats.
Import messaging.

(** [NatsPublisher.Publish]; [conn] is what [p.conn.Publish] answers for a
    subject and an envelope.  [json.Marshal] of an envelope does not fail:
    its payload is one of the event structs, of strings and an int, or a
    value that came out of [json.Unmarshal]. *)
Definition Publish (conn : string -> EventEnvelope -> option error)
    (ctx : command.Context) (subject : string) (e : EventEnvelope)
  : M (option error) :=
  match Validate e with
  | Some err => ret (Some (Errorf "invalid event envelope" err))
  | None =>
    match conn subject e with
    | Some err =>
      ret (Some (Errorf ("failed to publish message to subject '"
                         ++ subject ++ "'") err))
    | None =>
      _ <- logger "DEBUG" "Message published to NATS" None ;;
      ret None
    end
  end.

Definition NatsPublisher (conn : string -> EventEnvelope -> option error)
  : envelope.Publisher :=
  envelope.mkPublisher (Publish conn).

End nats.

(* ================================================================== *)
(** ** Vocabulary of the further statements *)

(** The version and the code an event struct carries. *)
Definition event_version (e : Event) : Z :=
  match e with
  | FabricCreated _ _ _ _ v => v
  | FabricUpdated _ _ _ _ v => v
  | FabricDeleted _ v => v
  | FabricReactivated _ _ _ _ v => v
  end.

Definition event_code (e : Event) : string :=
  match e with
  | FabricCreated c _ _ _ _ => c
  | FabricUpdated c _ _ _ _ => c
  | FabricDeleted c _ => c
  | FabricReactivated c _ _ _ _ => c
  end.

(** The versions 1, 2, ..., n. *)
Definition versions_up_to (n : nat) : list Z := map Z.of_nat (seq 1 n).

(** Both keys of the [events] table are free of duplicates. *)
Definition events_unique (t : list EventRow) : Prop :=
  NoDup (map col_event_id t) /\
  NoDup (map (fun r => (col_aggregate_id r, col_aggregate_version r)) t).

(** The options the package offers, and what a list of them amounts to. *)
Inductive standard_option : envelope_options.EnvelopeOption -> Prop :=
  | std_correlation id : standard_option (envelope_options.WithCorrelationID id)
  | std_causation id : standard_option (envelope_options.WithCausationID id)
  | std_user id : standard_option (envelope_options.WithUserID id).

(** The version a call expects the aggregate to have. *)
Definition expected_version (m : Mutation) : Z :=
  match m with
  | CallUpdateFabric _ _ _ v => v
  | CallDelete v => v
  | CallReactivate _ _ _ v => v
  end.


(** The row the repository writes for an aggregate. *)
Definition row_of_fabric (f : Fabric) : FabricRow :=
  mkFabricRow (Version f) (Code f) (Name f) (MeasureUnit f) (OfferStatus f)
              (Status f).

(** What a row of [fabrics] written through the service looks like, and a
    table of such rows in which no code occurs twice. *)
Definition row_ok (r : FabricRow) : Prop :=
  code_in_bounds (row_code r) /\ code_in_pattern (row_code r) /\
  name_in_bounds (row_name r) /\
  (row_status r = StatusActive \/ row_status r = StatusDeleted).

Definition table_ok (t : list FabricRow) : Prop :=
  NoDup (map row_code t) /\ Forall row_ok t.

(** The WHERE and SET clauses of the repository's three UPDATE statements. *)
Definition update_where (f : Fabric) (r : FabricRow) : bool :=
  (row_code r =? Code f) && (row_version r =? GoInt.sub (Version f) 1)%Z
  && (row_status r =? "ACTIVE").

Definition update_set (f : Fabric) (r : FabricRow) : FabricRow :=
  mkFabricRow (Version f) (row_code r) (Name f) (MeasureUnit f)
              (OfferStatus f) (row_status r).

Definition delete_where (f : Fabric) (r : FabricRow) : bool :=
  (row_code r =? Code f) && (row_version r =? Version f)%Z.

Definition delete_set (r : FabricRow) : FabricRow :=
  mkFabricRow (row_version r) (row_code r) (row_name r) (row_measure_unit r)
              (row_offer_status r) StatusDeleted.

Definition reactivate_set (f : Fabric) (r : FabricRow) : FabricRow :=
  mkFabricRow (Version f) (row_code r) (Name f) (MeasureUnit f)
              (OfferStatus f) (Status f).

(** The table after an UPDATE. *)
Definition updated (where_ : FabricRow -> bool) (set : FabricRow -> FabricRow)
    (t : list FabricRow) : list FabricRow :=
  map (fun r => if where_ r then set r else r) t.


(** A command sent to the wired service, and the world after a run of
    commands. *)
Inductive ServiceCall : Type :=
  | DoCreateFabric (ctx : command.Context)
      (code name measureUnit offerStatus : string)
  | DoUpdateFabric (ctx : command.Context)
      (code name measureUnit offerStatus : string) (version : Z)
  | DoDeleteFabric (ctx : command.Context) (code : string) (version : Z).

Definition perform
    (outcome : string -> messaging.EventEnvelope -> option error)
    (c : ServiceCall) (w : World) : World :=
  match c with
  | DoCreateFabric ctx code name measureUnit offerStatus =>
      snd (application.CreateFabric (wired outcome) ctx code name
             measureUnit offerStatus w)
  | DoUpdateFabric ctx code name measureUnit offerStatus version =>
      snd (application.UpdateFabric (wired outcome) ctx code name
             measureUnit offerStatus version w)
  | DoDeleteFabric ctx code version =>
      snd (application.DeleteFabric (wired outcome) ctx code version w)
  end.

Definition perform_all
    (outcome : string -> messaging.EventEnvelope -> option error)
    (cs : list ServiceCall) (w : World) : World :=
  fold_left (fun w c => perform outcome c w) cs w.


(** The error a command returns, if any. *)
Definition failure_of
    (outcome : string -> messaging.EventEnvelope -> option error)
    (c : ServiceCall) (w : World) : option error :=
  match c with
  | DoCreateFabric ctx code name measureUnit offerStatus =>
      match fst (application.CreateFabric (wired outcome) ctx code name
                   measureUnit offerStatus w) with
      | Ok _ => None
      | Err err => Some err
      end
  | DoUpdateFabric ctx code name measureUnit offerStatus version =>
      match fst (application.UpdateFabric (wired outcome) ctx code name
                   measureUnit offerStatus version w) with
      | Ok _ => None
      | Err err => Some err
      end
  | DoDeleteFabric ctx code version =>
      fst (application.DeleteFabric (wired outcome) ctx code version w)
  end.

(** The WHERE clause of GetByCode. *)
Definition active_code (code : string) (r : FabricRow) : bool :=
  (row_code r =? code) && (row_status r =? "ACTIVE").


(** The context a command is called with. *)
Definition call_context (c : ServiceCall) : command.Context :=
  match c with
  | DoCreateFabric ctx _ _ _ _ => ctx
  | DoUpdateFabric ctx _ _ _ _ _ => ctx
  | DoDeleteFabric ctx _ _ => ctx
  end.

(** The adapter as bootstrap wires it to the service. *)
Definition wired_adapter
    (outcome : string -> messaging.EventEnvelope -> option error)
  : handler.FabricEventHandler :=
  handler.mkHandler (handler.of_FabricService (wired outcome)).


(** The REST handlers as bootstrap wires them. *)
Definition wired_rest
    (outcome : string -> messaging.EventEnvelope -> option error)
  : commandhandler.FabricCommandHandler :=
  commandhandler.NewFabricCommandHandler
    (handler.of_FabricService (wired outcome)).

Definition wired_query : queryhandler.FabricQueryHandler :=
  queryhandler.NewFabricQueryHandler queryhandler.of_FabricPostgresRepository.

(** The three tables a command can touch are as before. *)
Definition untouched (w w' : World) : Prop :=
  fabrics w' = fabrics w /\ events_table w' = events_table w /\
  published w' = published w.

(** One row more in the events table, and its envelope handed to the
    publisher on the service's subject. *)
Definition recorded_and_published (w w' : World) : Prop :=
  exists e,
    events_table w' = (events_table w ++ [eventstore.row_of e])%list /\
    published w' = (published w ++ [("app.fabric", e)])%list.


(** The router as Subscribers.Start sets it up: a new router with the
    fabric event adapter registered under "erp.fabric". *)
Definition Start_router
    (outcome : string -> messaging.EventEnvelope -> option error)
  : M router.MessageRouter :=
  router.RegisterHandler "erp.fabric"
    (router.of_FabricEventHandler (wired_adapter outcome))
    router.NewMessageRouter.


(** An envelope as the service hands it to the publisher: on the service's
    subject, accepted by Validate, and carrying a domain event whose code
    and version are the envelope's aggregate ID and version. *)
Definition well_formed_publication (se : string * messaging.EventEnvelope)
  : Prop :=
  fst se = "app.fabric" /\
  messaging.Validate (snd se) = None /\
  messaging.EventVersion (snd se) = 1 /\
  exists ev, messaging.Payload_ (snd se) = messaging.PayloadEvent ev /\
             event_code ev = messaging.AggregateID (snd se) /\
             event_version ev = messaging.AggregateVersion (snd se).


(* ================================================================== *)
(** * Properties *)

Local Open Scope list_scope.

(** ** Go's [int] *)

Lemma wrap_in_range z : GoInt.in_range z -> GoInt.wrap z = z.
Proof.
  unfold GoInt.in_range, GoInt.min_int, GoInt.max_int, GoInt.wrap. intros H.
  rewrite Z.mod_small; lia.
Qed.

Lemma add_succ v :
  GoInt.min_int <= v < GoInt.max_int -> GoInt.add v 1 = v + 1.
Proof.
  intros H. unfold GoInt.add. apply wrap_in_range.
  unfold GoInt.in_range, GoInt.min_int, GoInt.max_int in *. lia.
Qed.

Lemma sub_pred v :
  GoInt.min_int < v <= GoInt.max_int -> GoInt.sub v 1 = v - 1.
Proof.
  intros H. unfold GoInt.sub. apply wrap_in_range.
  unfold GoInt.in_range, GoInt.min_int, GoInt.max_int in *. lia.
Qed.

Lemma add_neq v : GoInt.in_range v -> GoInt.add v 1 <> v.
Proof.
  unfold GoInt.in_range, GoInt.min_int, GoInt.max_int. intros H.
  destruct (Z.eq_dec v (2 ^ 63 - 1)) as [->|Hne].
  - vm_compute. discriminate.
  - rewrite add_succ; unfold GoInt.min_int, GoInt.max_int; lia.
Qed.

(** ** The aggregate *)

Section Aggregate.

Variables (name measureUnit offerStatus : string) (version : Z).

Lemma UpdateFabric_cases (f : Fabric) :
    (exists err, UpdateFabric name measureUnit offerStatus version f
                 = (f, Some err)) \/
    (Status f <> StatusDeleted /\ Version f = version /\
     validateName name = None /\
     UpdateFabric name measureUnit offerStatus version f =
       (mkFabric (Code f) name measureUnit offerStatus (Status f)
                 (GoInt.add (Version f) 1)
                 (events f ++ [FabricUpdated (Code f) name measureUnit
                                 offerStatus (GoInt.add (Version f) 1)]),
        None)).
  Proof.
    unfold UpdateFabric.
    destruct (Status f =? StatusDeleted) eqn:Hs; [left; eauto|].
    destruct (Version f =? version)%Z eqn:Hv; cbn [negb]; [|left; eauto].
    destruct (validateName name) eqn:Hn; [left; eauto|].
    right. apply String.eqb_neq in Hs. apply Z.eqb_eq in Hv. auto.
  Qed.

Lemma Delete_cases (f : Fabric) :
    (exists err, Delete version f = (f, Some err)) \/
    (Status f <> StatusDeleted /\ Version f = version /\
     Delete version f =
       (mkFabric (Code f) (Name f) (MeasureUnit f) (OfferStatus f)
                 StatusDeleted (GoInt.add (Version f) 1)
                 (events f ++ [FabricDeleted (Code f)
                                 (GoInt.add (Version f) 1)]),
        None)).
  Proof.
    unfold Delete.
    destruct (Status f =? StatusDeleted) eqn:Hs; [left; eauto|].
    destruct (Version f =? version)%Z eqn:Hv; cbn [negb]; [|left; eauto].
    right. apply String.eqb_neq in Hs. apply Z.eqb_eq in Hv. auto.
  Qed.

Lemma Reactivate_active (f : Fabric) :
    Status f = StatusActive ->
    Reactivate name measureUnit offerStatus version f =
    UpdateFabric name measureUnit offerStatus version f.
  Proof.
    intros H. unfold Reactivate. now rewrite H, String.eqb_refl.
  Qed.

Lemma Reactivate_inactive_cases (f : Fabric) :
    Status f <> StatusActive ->
    (exists err, Reactivate name measureUnit offerStatus version f
                 = (f, Some err)) \/
    (Version f = version /\ validateName name = None /\
     Reactivate name measureUnit offerStatus version f =
       (mkFabric (Code f) name measureUnit offerStatus StatusActive
                 (GoInt.add (Version f) 1)
                 (events f ++ [FabricReactivated (Code f) name measureUnit
                                 offerStatus (GoInt.add (Version f) 1)]),
        None)).
  Proof.
    intros H. unfold Reactivate.
    apply String.eqb_neq in H. rewrite H.
    destruct (Version f =? version)%Z eqn:Hv; cbn [negb]; [|left; eauto].
    destruct (validateName name) eqn:Hn; [left; eauto|].
    right. apply Z.eqb_eq in Hv. auto.
  Qed.

End Aggregate.

(** What one call does to the receiver: nothing when it returns an error,
    one more version and one more pending event when it returns [nil]. *)
Lemma call_step (m : Mutation) (f : Fabric) :
  match call m f with
  | (f', None) =>
      Version f' = GoInt.add (Version f) 1 /\
      exists e, events f' = events f ++ [e]
  | (f', Some _) => f' = f
  end.
Proof.
  destruct m as [n mu os v|v|n mu os v]; cbn [call].
  - destruct (UpdateFabric_cases n mu os v f) as [[e ->]|(_ & _ & _ & ->)];
      cbn; eauto.
  - destruct (Delete_cases v f) as [[e ->]|(_ & _ & ->)]; cbn; eauto.
  - destruct (String.eqb_spec (Status f) StatusActive) as [Ha|Ha].
    + rewrite Reactivate_active by exact Ha.
      destruct (UpdateFabric_cases n mu os v f) as [[e ->]|(_ & _ & _ & ->)];
        cbn; eauto.
    + destruct (Reactivate_inactive_cases n mu os v f Ha)
        as [[e ->]|(_ & _ & ->)]; cbn; eauto.
Qed.

Lemma run_counts (ms : list Mutation) : forall f,
  List.length (events (fst (run ms f)))
    = (List.length (events f) + snd (run ms f))%nat /\
  (GoInt.min_int <= Version f ->
   Version f + Z.of_nat (snd (run ms f)) <= GoInt.max_int ->
   Version (fst (run ms f)) = Version f + Z.of_nat (snd (run ms f))).
Proof.
  induction ms as [|m rest IH]; intros f; cbn [run].
  - cbn. split; [lia|intros; lia].
  - pose proof (call_step m f) as Hs.
    destruct (call m f) as [f' [e|]].
    + subst f'. apply IH.
    + destruct Hs as [Hv [e He]].
      specialize (IH f'). destruct (run rest f') as [f'' n] eqn:Hr.
      cbn [fst snd] in *. destruct IH as [IHe IHv]. split.
      * rewrite IHe, He, length_app. cbn. lia.
      * intros Hlo Hhi.
        assert (Hv' : Version f' = Version f + 1).
        { rewrite Hv. apply add_succ. lia. }
        rewrite IHv; lia.
Qed.

(** ** Validation *)

Lemma upper_alnum_spec (c : ascii) :
  upper_alnum c = true <-> uppercase_alphanumeric c.
Proof.
  unfold upper_alnum, uppercase_alphanumeric. cbn [nat_of_ascii].
  change (nat_of_ascii "A") with 65%nat. change (nat_of_ascii "Z") with 90%nat.
  change (nat_of_ascii "0") with 48%nat. change (nat_of_ascii "9") with 57%nat.
  rewrite Bool.orb_true_iff, !Bool.andb_true_iff, !Nat.leb_le. tauto.
Qed.

Lemma match_class_star_spec (s : string) :
  match_class_star s = true <-> code_in_pattern s.
Proof.
  unfold code_in_pattern. induction s as [|c s IH]; cbn.
  - split; auto.
  - rewrite Bool.andb_true_iff, IH, upper_alnum_spec. split.
    + intros [? ?]. now constructor.
    + intros H. inversion H; subst. auto.
Qed.

Lemma pattern_MatchString_spec (s : string) :
  pattern_MatchString s = true <-> s <> "" /\ code_in_pattern s.
Proof.
  destruct s as [|c s].
  - cbn. split; [discriminate|intros [H _]; now elim H].
  - change (pattern_MatchString (String c s))
      with (match_class_star (String c s)).
    rewrite match_class_star_spec. split; [|tauto].
    intros H. split; [discriminate|exact H].
Qed.

Lemma validateCode_spec (code : string) :
  match validateCode code with
  | None => code_in_bounds code /\ code_in_pattern code
  | Some err =>
      (err = ErrInvalidFabricCodeLength /\ ~ code_in_bounds code) \/
      (err = ErrInvalidFabricCodePattern /\ code_in_bounds code /\
       ~ code_in_pattern code)
  end.
Proof.
  unfold validateCode, code_in_bounds.
  destruct ((String.length code <? 2) || (30 <? String.length code))%nat eqn:Hl.
  - left. split; [reflexivity|].
    apply Bool.orb_true_iff in Hl. rewrite !Nat.ltb_lt in Hl. lia.
  - apply Bool.orb_false_iff in Hl. rewrite !Nat.ltb_ge in Hl.
    destruct (pattern_MatchString code) eqn:Hp; cbn [negb].
    + apply pattern_MatchString_spec in Hp. split; [lia|tauto].
    + right. split; [reflexivity|]. split; [lia|].
      intros Hc. assert (pattern_MatchString code = true); [|congruence].
      apply pattern_MatchString_spec. split; [|exact Hc].
      intros ->. cbn in Hl. lia.
Qed.

Lemma validateName_spec (name : string) :
  match validateName name with
  | None => name_in_bounds name
  | Some err => err = ErrInvalidFabricNameLength /\ ~ name_in_bounds name
  end.
Proof.
  unfold validateName, name_in_bounds.
  destruct ((String.length name <? 1) || (250 <? String.length name))%nat eqn:Hl.
  - split; [reflexivity|].
    apply Bool.orb_true_iff in Hl. rewrite !Nat.ltb_lt in Hl. lia.
  - apply Bool.orb_false_iff in Hl. rewrite !Nat.ltb_ge in Hl. lia.
Qed.

(** C8.  For a code of 2 to 30 uppercase alphanumeric characters and a name
    of length 1 to 250, NewFabric returns an aggregate with the input
    fields, status ACTIVE, version 1 and exactly one pending event, the
    FabricCreated event carrying the input fields.  For any other code or
    name it returns no aggregate but a validation error, and the error names
    a rule the input violates: the code length, the code pattern, or the
    name length. *)
Theorem C8_NewFabric_validates_and_creates
    (code name measureUnit offerStatus : string) :
  (code_in_bounds code /\ code_in_pattern code /\ name_in_bounds name ->
   NewFabric code name measureUnit offerStatus =
     Ok (mkFabric code name measureUnit offerStatus StatusActive 1
           [FabricCreated code name measureUnit offerStatus 1])) /\
  (~ (code_in_bounds code /\ code_in_pattern code /\ name_in_bounds name) ->
   exists err,
     NewFabric code name measureUnit offerStatus = Err err /\
     ((err = ErrInvalidFabricCodeLength /\ ~ code_in_bounds code) \/
      (err = ErrInvalidFabricCodePattern /\ ~ code_in_pattern code) \/
      (err = ErrInvalidFabricNameLength /\ ~ name_in_bounds name))).
Proof.
  pose proof (validateCode_spec code) as Hc.
  pose proof (validateName_spec name) as Hn.
  unfold NewFabric.
  destruct (validateCode code) as [ec|]; [|destruct (validateName name) as [en|]].
  - split.
    + intros (Hb & Hp & _). destruct Hc as [[_ H]|(_ & _ & H)]; tauto.
    + intros _. exists ec. split; [reflexivity|].
      destruct Hc as [[-> H]|(-> & _ & H)]; auto.
  - split.
    + intros (_ & _ & H). tauto.
    + intros _. exists en. split; [reflexivity|]. right. right. tauto.
  - split.
    + intros _. reflexivity.
    + intros H. tauto.
Qed.

Lemma C8_NewFabric_witness :
  NewFabric "FAB1" "Cotton" "m" "available" =
    Ok (mkFabric "FAB1" "Cotton" "m" "available" StatusActive 1
          [FabricCreated "FAB1" "Cotton" "m" "available" 1]) /\
  exists err, NewFabric "fab1" "Cotton" "m" "available" = Err err.
Proof.
  split.
  - apply (proj1 (C8_NewFabric_validates_and_creates
                    "FAB1" "Cotton" "m" "available")).
    unfold code_in_bounds, code_in_pattern, name_in_bounds,
      uppercase_alphanumeric.
    cbn. repeat split; try lia.
    repeat constructor; cbn; lia.
  - destruct (proj2 (C8_NewFabric_validates_and_creates
                       "fab1" "Cotton" "m" "available")) as [err [H _]].
    + unfold code_in_pattern, uppercase_alphanumeric. cbn.
      intros (_ & H & _). inversion H as [|? ? Hc _]. cbn in Hc. lia.
    + exists err. exact H.
Defined.

(** C9.  On an aggregate whose status is ACTIVE, Reactivate returns exactly
    what UpdateFabric returns for the same arguments: the same error or
    success and the same aggregate afterwards, pending events included. *)
Theorem C9_Reactivate_of_active_is_UpdateFabric
    (f : Fabric) (name measureUnit offerStatus : string) (version : Z) :
  Status f = StatusActive ->
  Reactivate name measureUnit offerStatus version f =
  UpdateFabric name measureUnit offerStatus version f.
Proof.
  intros H. now apply Reactivate_active.
Qed.

Lemma C9_Reactivate_witness :
  let f := mkFabric "FAB1" "Cotton" "m" "new" StatusActive 1 [] in
  Status f = StatusActive /\
  Reactivate "Silk" "cm" "old" 1 f = UpdateFabric "Silk" "cm" "old" 1 f.
Proof.
  split.
  - reflexivity.
  - apply (C9_Reactivate_of_active_is_UpdateFabric
             (mkFabric "FAB1" "Cotton" "m" "new" StatusActive 1 [])).
    reflexivity.
Defined.

(** C3.  Version and pending events move together.  NewFabric, when it
    succeeds, yields version 1 and one pending event.  Every later call
    (UpdateFabric, Delete, Reactivate) that returns nil adds exactly 1 to the
    version (in Go's int arithmetic, which is plain +1 below the largest
    int) and appends exactly one pending event; every call that returns an
    error leaves the whole aggregate as it was.  Hence after any run of calls
    the pending events have grown by the number of successful calls, and on
    an aggregate made by NewFabric their count is the number of successful
    mutations, creation included. *)
Theorem C3_version_and_events_step_together :
  (forall code name measureUnit offerStatus,
     match NewFabric code name measureUnit offerStatus with
     | Ok f => Version f = 1 /\ List.length (events f) = 1%nat
     | Err _ => True
     end) /\
  (forall m f,
     match call m f with
     | (f', None) =>
         Version f' = GoInt.add (Version f) 1 /\
         (GoInt.min_int <= Version f < GoInt.max_int ->
          Version f' = Version f + 1) /\
         exists e, events f' = events f ++ [e]
     | (f', Some _) => f' = f
     end) /\
  (forall ms f,
     List.length (events (fst (run ms f)))
       = (List.length (events f) + snd (run ms f))%nat /\
     (GoInt.min_int <= Version f ->
      Version f + Z.of_nat (snd (run ms f)) <= GoInt.max_int ->
      Version (fst (run ms f)) = Version f + Z.of_nat (snd (run ms f)))) /\
  (forall code name measureUnit offerStatus f ms,
     NewFabric code name measureUnit offerStatus = Ok f ->
     List.length (events (fst (run ms f))) = S (snd (run ms f)) /\
     (Z.of_nat (S (snd (run ms f))) <= GoInt.max_int ->
      Version (fst (run ms f)) = Z.of_nat (S (snd (run ms f))))).
Proof.
  assert (Hnew : forall code name measureUnit offerStatus,
             match NewFabric code name measureUnit offerStatus with
             | Ok f => Version f = 1 /\ List.length (events f) = 1%nat
             | Err _ => True
             end).
  { intros. unfold NewFabric.
    destruct (validateCode code); [exact I|].
    destruct (validateName name); [exact I|]. cbn. auto. }
  split; [exact Hnew|]. split; [|split].
  - intros m f. pose proof (call_step m f) as H.
    destruct (call m f) as [f' [e|]]; [exact H|].
    destruct H as [Hv He]. split; [exact Hv|]. split; [|exact He].
    intros Hr. rewrite Hv. now apply add_succ.
  - intros ms f. apply run_counts.
  - intros code name mu os f ms Hf.
    specialize (Hnew code name mu os). rewrite Hf in Hnew.
    destruct Hnew as [Hv He].
    destruct (run_counts ms f) as [Hc Hr]. rewrite He in Hc. split.
    + rewrite Hc. reflexivity.
    + intros Hmax. rewrite Hr; rewrite Hv; unfold GoInt.min_int; lia.
Qed.

Lemma C3_version_and_events_witness :
  let f := mkFabric "FAB1" "Cotton" "m" "new" StatusActive 1
             [FabricCreated "FAB1" "Cotton" "m" "new" 1] in
  let ms := [CallUpdateFabric "Silk" "m" "new" 1;
             CallUpdateFabric "Wool" "m" "new" 1;
             CallDelete 2;
             CallUpdateFabric "Wool" "m" "new" 3;
             CallReactivate "Linen" "m" "new" 3] in
  NewFabric "FAB1" "Cotton" "m" "new" = Ok f /\
  snd (run ms f) = 3%nat /\
  List.length (events (fst (run ms f))) = 4%nat /\
  Version (fst (run ms f)) = 4.
Proof.
  intros f ms.
  destruct C3_version_and_events_step_together as (_ & _ & _ & H).
  specialize (H "FAB1" "Cotton" "m" "new" f ms eq_refl).
  destruct H as [He Hv].
  split; [reflexivity|]. split; [reflexivity|]. split.
  - exact He.
  - apply Hv. vm_compute. discriminate.
Defined.

(* ================================================================== *)
(** ** The command repository *)

(** C1.  The input of TestFabricPostgresRepository_Delete: the row
    (DELETETEST, version 1, ACTIVE) is stored, the aggregate's own Delete(1)
    has moved it to version 2.  Update, given the aggregate at version 2,
    selects the row by (code, 2 - 1) and writes version 2.  Delete selects by
    (code, 2), the new version itself: no row is affected, the stored row
    stays ACTIVE at version 1, and the call returns ErrRecordNotFound. *)
Theorem C1_Delete_selects_by_the_new_version :
  let stored := mkFabricRow 1 "DELETETEST" "To Be Deleted" "m" "available"
                            "ACTIVE" in
  let w := mkWorld [stored] [] [] 0 [] [] in
  let persisted := mkFabric "DELETETEST" "To Be Deleted" "m" "available"
                     StatusActive 1
                     [FabricCreated "DELETETEST" "To Be Deleted" "m"
                        "available" 1] in
  NewFabric "DELETETEST" "To Be Deleted" "m" "available" = Ok persisted /\
  (exists updated,
     UpdateFabric "Renamed" "m" "available" 1 persisted = (updated, None) /\
     Version updated = 2 /\
     persistence.Update command.Background updated w =
       (None,
        with_fabrics [mkFabricRow 2 "DELETETEST" "Renamed" "m" "available"
                        "ACTIVE"] w)) /\
  (exists deleted,
     Delete 1 persisted = (deleted, None) /\
     Version deleted = 2 /\ Status deleted = StatusDeleted /\
     persistence.Delete command.Background deleted w =
       (Some ErrRecordNotFound, w)).
Proof.
  cbv zeta. split; [reflexivity|]. split.
  - eexists. split; [reflexivity|]. split; reflexivity.
  - eexists. split; [reflexivity|]. repeat split; reflexivity.
Qed.

(** C4.  Create, delete, create again, through the service on an empty
    database.  The first create stores version 1.  The delete passes the
    aggregate's checks and then fails in the repository with
    ErrRecordNotFound, because Delete selects by the new version; the row
    stays ACTIVE at version 1.  The second create therefore meets an ACTIVE
    row and fails with ErrDuplicateFabricCode: no version 3, no
    reactivation.  Save itself does continue the sequence: had the delete
    been stored as (X1, version 2, DELETED), the same create yields version
    3, status ACTIVE and one FabricReactivated event. *)
Theorem C4_delete_then_recreate_scenario :
  let s := wired never_fails in
  let ctx := command.WithCommandSource command.Background
               command.CommandSourceREST in
  let w0 := mkWorld [] [] [] 0 [] [] in
  (exists f1 w1 w2 w3,
     application.CreateFabric s ctx "X1" "Cotton" "m" "new" w0 = (Ok f1, w1) /\
     Version f1 = 1 /\
     application.DeleteFabric s ctx "X1" 1 w1 =
       (Some (Errorf "failed to delete fabric in repo" ErrRecordNotFound), w2) /\
     fabrics w2 = [mkFabricRow 1 "X1" "Cotton" "m" "new" "ACTIVE"] /\
     application.CreateFabric s ctx "X1" "Linen" "cm" "old" w2 =
       (Err (Errorf "failed to save fabric" ErrDuplicateFabricCode), w3) /\
     fabrics w3 = [mkFabricRow 1 "X1" "Cotton" "m" "new" "ACTIVE"]) /\
  (let deleted := mkWorld [mkFabricRow 2 "X1" "Cotton" "m" "new" "DELETED"]
                    [] [] 0 [] [] in
   exists w',
     application.CreateFabric s ctx "X1" "Linen" "cm" "old" deleted =
       (Ok (mkFabric "X1" "Linen" "cm" "old" StatusActive 3
              [FabricReactivated "X1" "Linen" "cm" "old" 3]), w') /\
     fabrics w' = [mkFabricRow 3 "X1" "Linen" "cm" "old" "ACTIVE"] /\
     map col_event_type (events_table w') = ["app.fabric.reactivated"]).
Proof.
  cbv zeta. split.
  - do 4 eexists.
    split; [vm_compute; reflexivity|]. split; [reflexivity|].
    split; [vm_compute; reflexivity|]. split; [reflexivity|].
    split; [vm_compute; reflexivity|]. reflexivity.
  - eexists. split; [vm_compute; reflexivity|]. split; reflexivity.
Qed.

(* ================================================================== *)
(** ** Errors and the driver *)

Lemma errors_Is_root (e target : error) :
  errors_Is e target = error_eqb (root_cause e) target.
Proof.
  induction e; cbn; try reflexivity; try now rewrite Bool.orb_false_r.
  assumption.
Qed.

Lemma storage_failure_Errorf (msg : string) (e : error) :
  storage_failure e -> storage_failure (Errorf msg e).
Proof. exact (fun H => H). Qed.

Lemma storage_failure_fault (f : DriverFault) : storage_failure (fault_error f).
Proof. destruct f; exact I. Qed.

Lemma storage_failure_not_domain (e : error) :
  storage_failure e ->
  errors_Is e ErrInvalidFabricCodeLength = false /\
  errors_Is e ErrInvalidFabricCodePattern = false /\
  errors_Is e ErrInvalidFabricNameLength = false /\
  errors_Is e ErrRecordNotFound = false /\
  errors_Is e ErrDuplicateFabricCode = false /\
  errors_Is e ErrConcurrencyConflict = false /\
  errors_Is e ErrFabricDeleted = false.
Proof.
  unfold storage_failure. rewrite !errors_Is_root.
  destruct (root_cause e); intros H; try contradiction; repeat split.
Qed.

Lemma driver_call_eq (w : World) :
  driver_call w = (next_outcome (driver w), with_driver (tl (driver w)) w).
Proof.
  unfold driver_call. destruct w as [fs et d tk pub lg]; cbn.
  destruct d; reflexivity.
Qed.

Lemma next_outcome_quiet d : quiet d -> next_outcome d = None.
Proof.
  intros H. destruct d as [|o d]; [reflexivity|].
  inversion H; subst. reflexivity.
Qed.

Lemma quiet_tl d : quiet d -> quiet (tl d).
Proof.
  intros H. destruct d; [exact H|]. now inversion H.
Qed.

Lemma next_outcome_err d err :
  next_outcome d = Some err ->
  exists f, err = fault_error f /\ In (Some f) d.
Proof.
  destruct d as [|[f|] d]; cbn; try discriminate.
  intros [= <-]. exists f. auto.
Qed.

Lemma in_tl {A} (x : A) (l : list A) : In x (tl l) -> In x l.
Proof. destruct l; cbn; auto. Qed.

(* ================================================================== *)
(** ** The event store *)

Section EventStore.
Import messaging eventstore.

Lemma insert_row_cases (r : EventRow) (t : list EventRow) :
  match insert_row r t with
  | Ok t' =>
      t' = t ++ [r] /\ col_payload r <> PayloadNil /\
      (forall x, In x t -> col_event_id x <> col_event_id r) /\
      (forall x, In x t ->
         ~ (col_aggregate_id x = col_aggregate_id r /\
            col_aggregate_version x = col_aggregate_version r))
  | Err err =>
      (err = PgError "23502" /\ col_payload r = PayloadNil) \/
      (err = PgError "23505" /\ col_payload r <> PayloadNil /\
       exists x, In x t /\
         (col_event_id x = col_event_id r \/
          (col_aggregate_id x = col_aggregate_id r /\
           col_aggregate_version x = col_aggregate_version r)))
  end.
Proof.
  unfold insert_row.
  destruct (col_payload r) eqn:Hp; [left; auto| | |].
  all: match goal with
       | |- context [?p <> PayloadNil] =>
           assert (Hp' : p <> PayloadNil) by discriminate
       end.
  all: destruct (existsb (fun x => col_event_id x =? col_event_id r) t)
         eqn:Hid;
       [ right; split; [reflexivity|]; split; [exact Hp'|];
         apply existsb_exists in Hid; destruct Hid as (x & Hx & He);
         apply String.eqb_eq in He; eauto
       | ].
  all: destruct (existsb (fun x => (col_aggregate_id x =? col_aggregate_id r)
                  && (col_aggregate_version x =? col_aggregate_version r)%Z) t)
         eqn:Hk;
       [ right; split; [reflexivity|]; split; [exact Hp'|];
         apply existsb_exists in Hk; destruct Hk as (x & Hx & He);
         apply Bool.andb_true_iff in He; destruct He as [Ha Hv];
         apply String.eqb_eq in Ha; apply Z.eqb_eq in Hv; eauto
       | ].
  all: split; [reflexivity|]; split; [exact Hp'|]; split.
  all: try (intros x Hx He;
            assert (existsb (fun x => col_event_id x =? col_event_id r) t
                    = true);
            [ apply existsb_exists; exists x; split; [exact Hx|];
              now apply String.eqb_eq
            | congruence ]).
  all: intros x Hx [Ha Hv];
       assert (existsb (fun x => (col_aggregate_id x =? col_aggregate_id r)
                 && (col_aggregate_version x =? col_aggregate_version r)%Z) t
               = true);
       [ apply existsb_exists; exists x; split; [exact Hx|];
         apply Bool.andb_true_iff; split;
         [now apply String.eqb_eq|now apply Z.eqb_eq]
       | congruence ].
Qed.

Lemma version_conflict_here t e rest x :
  In x t -> col_aggregate_id x = AggregateID e ->
  col_aggregate_version x = AggregateVersion e ->
  version_conflict t (e :: rest).
Proof.
  intros Hx Ha Hv. exists [], e, rest, x. cbn. rewrite app_nil_r. auto.
Qed.

Lemma version_conflict_later t e rest :
  version_conflict (t ++ [row_of e]) rest -> version_conflict t (e :: rest).
Proof.
  intros (pre & e' & post & x & -> & Hx & Ha & Hv).
  exists (e :: pre), e', post, x. cbn [map].
  rewrite <- app_assoc in Hx. cbn in Hx. auto.
Qed.

Lemma version_conflict_inv t e rest :
  version_conflict t (e :: rest) ->
  (exists x, In x t /\ col_aggregate_id x = AggregateID e /\
             col_aggregate_version x = AggregateVersion e) \/
  version_conflict (t ++ [row_of e]) rest.
Proof.
  intros (pre & e' & post & x & Heq & Hx & Ha & Hv).
  destruct pre as [|p pre]; cbn in Heq; injection Heq as <- ->.
  - left. cbn in Hx. rewrite app_nil_r in Hx. eauto.
  - right. exists pre, e', post, x. cbn [map] in Hx.
    rewrite <- app_assoc. cbn. auto.
Qed.

Lemma id_conflict_here t e rest x :
  In x t -> col_event_id x = EventID e -> id_conflict t (e :: rest).
Proof.
  intros Hx Ha. exists [], e, rest, x. cbn. rewrite app_nil_r. auto.
Qed.

Lemma id_conflict_later t e rest :
  id_conflict (t ++ [row_of e]) rest -> id_conflict t (e :: rest).
Proof.
  intros (pre & e' & post & x & -> & Hx & Ha).
  exists (e :: pre), e', post, x. cbn [map].
  rewrite <- app_assoc in Hx. cbn in Hx. auto.
Qed.

End EventStore.

Lemma with_driver_id (w : World) : with_driver (driver w) w = w.
Proof. now destruct w. Qed.

(** Brings a world built by the [with_] updates to constructor form. *)
Ltac norm_world :=
  unfold with_fabrics, with_events_table, with_driver, with_ticks,
    with_published, with_logs in *;
  cbn [fabrics events_table driver ticks published logs] in *.

Section EventStoreSave.
Import messaging eventstore.

Lemma stmt_Exec_eq (e : EventEnvelope) (t : list EventRow) (w : World) :
  stmt_Exec e t w =
  (match next_outcome (driver w) with
   | Some err => Err err
   | None => insert_row (row_of e) t
   end, with_driver (tl (driver w)) w).
Proof.
  unfold stmt_Exec, bind. rewrite driver_call_eq.
  destruct (next_outcome (driver w)); reflexivity.
Qed.

Lemma save_loop_spec (es : list EventEnvelope) : forall t w,
  (exists d', snd (save_loop es t w) = with_driver d' w /\
              (quiet (driver w) -> quiet d') /\
              (forall x, In x d' -> In x (driver w))) /\
  match fst (save_loop es t w) with
  | Ok t' => t' = t ++ map row_of es
  | Err err =>
      (err = ErrConcurrencyConflict /\
       (version_conflict t es \/ id_conflict t es \/
        In (Some (FaultPg "23505")) (driver w))) \/
      (storage_failure err /\ errors_Is err ErrConcurrencyConflict = false)
  end.
Proof.
  induction es as [|e rest IH]; intros t w.
  - cbn. split.
    + exists (driver w). rewrite with_driver_id. auto.
    + now rewrite app_nil_r.
  - cbn [save_loop]. unfold bind. rewrite stmt_Exec_eq.
    assert (Hframe : exists d', with_driver (tl (driver w)) w = with_driver d' w /\
               (quiet (driver w) -> quiet d') /\
               (forall x, In x d' -> In x (driver w))).
    { exists (tl (driver w)). split; [reflexivity|]. split.
      - apply quiet_tl.
      - intros x. apply in_tl. }
    destruct (next_outcome (driver w)) as [err|] eqn:Hn.
    + apply next_outcome_err in Hn. destruct Hn as (f & -> & Hin).
      destruct f as [code|msg]; cbn [fault_error errors_As_PgError].
      * destruct (String.eqb_spec code "23505") as [->|Hc]; cbn.
        -- split; [exact Hframe|]. left. auto.
        -- split; [exact Hframe|]. right. split; [exact I|reflexivity].
      * cbn. split; [exact Hframe|]. right. split; [exact I|reflexivity].
    + pose proof (insert_row_cases (row_of e) t) as Hi.
      destruct (insert_row (row_of e) t) as [t'|err].
      * destruct Hi as (-> & _ & _ & _).
        destruct (IH (t ++ [row_of e]) (with_driver (tl (driver w)) w))
          as [(d' & Hs & Hq & Hin) Hr].
        split.
        -- exists d'. split; [rewrite Hs; reflexivity|]. split.
           ++ intros H. apply Hq. cbn. now apply quiet_tl.
           ++ intros x Hx. apply in_tl. apply (Hin x Hx).
        -- destruct (fst (save_loop rest (t ++ [row_of e])
                            (with_driver (tl (driver w)) w))) as [t''|err].
           ++ rewrite Hr, <- app_assoc. reflexivity.
           ++ destruct Hr as [[-> Hr]|Hr]; [left|right; exact Hr].
              split; [reflexivity|].
              destruct Hr as [Hr|[Hr|Hr]].
              ** left. now apply version_conflict_later.
              ** right. left. now apply id_conflict_later.
              ** right. right. apply in_tl. exact Hr.
      * destruct Hi as [[-> _]|(-> & _ & x & Hx & Hk)]; cbn.
        -- split; [exact Hframe|]. right. split; [exact I|reflexivity].
        -- split; [exact Hframe|]. left. split; [reflexivity|].
           destruct Hk as [Hk|[Ha Hv]].
           ++ right. left. now apply id_conflict_here with x.
           ++ left. now apply version_conflict_here with x.
Qed.

(** With a quiet driver and no nil payload, a batch that collides on
    (aggregate_id, aggregate_version) ends the loop with the conflict
    error. *)
Lemma save_loop_conflict (es : list EventEnvelope) : forall t w,
  quiet (driver w) ->
  Forall (fun e => Payload_ e <> PayloadNil) es ->
  version_conflict t es ->
  fst (save_loop es t w) = Err ErrConcurrencyConflict.
Proof.
  induction es as [|e rest IH]; intros t w Hq Hp Hc.
  - destruct Hc as (pre & e & post & x & Heq & _). now destruct pre.
  - cbn [save_loop]. unfold bind. rewrite stmt_Exec_eq.
    rewrite (next_outcome_quiet _ Hq).
    inversion Hp as [|? ? Hpe Hprest]; subst.
    pose proof (insert_row_cases (row_of e) t) as Hi.
    destruct (insert_row (row_of e) t) as [t'|err].
    + destruct Hi as (-> & _ & _ & Hfree).
      apply IH; [cbn; now apply quiet_tl|exact Hprest|].
      destruct (version_conflict_inv _ _ _ Hc) as [(x & Hx & Ha & Hv)|H];
        [|exact H].
      exfalso. apply (Hfree x Hx). auto.
    + destruct Hi as [[_ Hnil]|(-> & _)]; [now elim Hpe|]. reflexivity.
Qed.

Lemma PostgresStore_Save_spec (ctx : command.Context)
    (es : list EventEnvelope) (w : World) :
  exists d',
    snd (PostgresStore_Save ctx es w) =
      with_events_table
        (match fst (PostgresStore_Save ctx es w) with
         | None => events_table w ++ map row_of es
         | Some _ => events_table w
         end) (with_driver d' w) /\
    match fst (PostgresStore_Save ctx es w) with
    | None => True
    | Some err =>
        (err = ErrConcurrencyConflict /\
         (version_conflict (events_table w) es \/
          id_conflict (events_table w) es \/
          In (Some (FaultPg "23505")) (driver w))) \/
        (storage_failure err /\ errors_Is err ErrConcurrencyConflict = false)
    end.
Proof.
  unfold PostgresStore_Save, bind, ret. rewrite driver_call_eq.
  destruct w as [fs et d tk pub lg]. norm_world.
  destruct (next_outcome d) as [err|] eqn:Hb.
  { apply next_outcome_err in Hb. destruct Hb as (f & -> & _).
    exists (tl d). cbn. split; [reflexivity|]. right.
    split; [apply storage_failure_fault|]. now destruct f. }
  norm_world. rewrite driver_call_eq. norm_world.
  destruct (next_outcome (tl d)) as [err|] eqn:Hp.
  { apply next_outcome_err in Hp. destruct Hp as (f & -> & _).
    exists (tl (tl d)). cbn. split; [reflexivity|]. right.
    split; [apply storage_failure_fault|]. now destruct f. }
  norm_world.
  destruct (save_loop_spec es et (mkWorld fs et (tl (tl d)) tk pub lg))
    as [(d' & Hs & _ & Hin) Hr].
  destruct (save_loop es et (mkWorld fs et (tl (tl d)) tk pub lg))
    as [[t'|err] w1]; cbn [fst snd] in *; subst w1; norm_world.
  - rewrite driver_call_eq. norm_world.
    destruct (next_outcome d') as [err|] eqn:Hc.
    + apply next_outcome_err in Hc. destruct Hc as (f & -> & _).
      exists (tl d'). cbn. split; [reflexivity|]. right.
      split; [apply storage_failure_fault|]. now destruct f.
    + exists (tl d'). cbn. split; [now subst t'|exact I].
  - exists d'. cbn. split; [reflexivity|].
    destruct Hr as [[-> Hr]|Hr]; [left|right; exact Hr].
    split; [reflexivity|].
    destruct Hr as [Hr|[Hr|Hr]]; auto.
    right. right. apply in_tl. apply in_tl. exact Hr.
Qed.

End EventStoreSave.

Section EventStoreAppend.
Import messaging eventstore.

Lemma PostgresStore_Save_conflict (ctx : command.Context)
    (es : list EventEnvelope) (w : World) :
  quiet (driver w) ->
  Forall (fun e => Payload_ e <> PayloadNil) es ->
  version_conflict (events_table w) es ->
  fst (PostgresStore_Save ctx es w) = Some ErrConcurrencyConflict.
Proof.
  intros Hq Hp Hc.
  unfold PostgresStore_Save, bind, ret. rewrite driver_call_eq.
  rewrite (next_outcome_quiet _ Hq).
  rewrite driver_call_eq. cbn [driver with_driver].
  rewrite (next_outcome_quiet _ (quiet_tl _ Hq)).
  cbn [events_table with_driver].
  pose proof (save_loop_conflict es (events_table w)
                (with_driver (tl (tl (driver w))) w)) as H.
  cbn [driver with_driver] in H.
  specialize (H (quiet_tl _ (quiet_tl _ Hq)) Hp Hc).
  unfold with_driver in *. cbn [fabrics events_table ticks published logs].
  destruct (save_loop es (events_table w) _) as [r w1].
  cbn [fst] in H. subst r. reflexivity.
Qed.

End EventStoreAppend.

(* ================================================================== *)
(** ** The command repository, in general *)

(** One driver round trip in a proof: name its outcome and split on it. *)
Ltac step_driver :=
  rewrite driver_call_eq; norm_world;
  match goal with
  | |- context [next_outcome ?d] =>
      let H := fresh "Hcall" in
      destruct (next_outcome d) as [?err|] eqn:H;
      [ apply next_outcome_err in H;
        let f := fresh "flt" in
        destruct H as (f & -> & _)
      | ]
  end;
  norm_world.

Lemma fault_not_ErrNoRows (f : DriverFault) :
  errors_Is (fault_error f) SqlErrNoRows = false.
Proof. now destruct f. Qed.

Lemma find_some_row {A} (p : A -> bool) (l : list A) (x : A) :
  find p l = Some x -> In x l /\ p x = true.
Proof. apply find_some. Qed.

Section Repository.
Import persistence.

Lemma get_by_spec (where_ : FabricRow -> bool) (code : string) (w : World) :
  snd (get_by where_ code w) = with_driver (tl (driver w)) w /\
  match fst (get_by where_ code w) with
  | Ok f => exists r, In r (fabrics w) /\ where_ r = true /\ f = scan r
  | Err err =>
      (exists msg, err = Errorf msg ErrRecordNotFound) \/ storage_failure err
  end.
Proof.
  unfold get_by, QueryRow_Scan, bind, ret.
  destruct w as [fs et d tk pub lg]. step_driver.
  - rewrite fault_not_ErrNoRows. cbn. split; [reflexivity|]. right.
    apply storage_failure_fault.
  - destruct (find where_ fs) as [r|] eqn:Hf; cbn.
    + apply find_some_row in Hf. split; [reflexivity|]. exists r. tauto.
    + split; [reflexivity|]. left. eauto.
Qed.

Lemma GetByCode_spec (ctx : command.Context) (code : string) (w : World) :
  snd (GetByCode ctx code w) = with_driver (tl (driver w)) w /\
  match fst (GetByCode ctx code w) with
  | Ok f => Status f = StatusActive /\ Code f = code /\ events f = [] /\
            exists r, In r (fabrics w) /\ f = scan r
  | Err err =>
      (exists msg, err = Errorf msg ErrRecordNotFound) \/ storage_failure err
  end.
Proof.
  unfold GetByCode.
  destruct (get_by_spec (fun r => (row_code r =? code)
                                  && (row_status r =? "ACTIVE")) code w)
    as [Hw Hr].
  split; [exact Hw|].
  destruct (fst (get_by _ code w)) as [f|err]; [|exact Hr].
  destruct Hr as (r & Hin & Hwhere & ->).
  apply Bool.andb_true_iff in Hwhere. destruct Hwhere as [Hc Hs].
  apply String.eqb_eq in Hc, Hs. cbn. unfold StatusActive.
  repeat split; auto. exists r. auto.
Qed.

Lemma pool_Exec_spec (stmt : list FabricRow -> list FabricRow * Z) (w : World) :
  match fst (pool_Exec stmt w) with
  | Ok n => n = snd (stmt (fabrics w)) /\
            snd (pool_Exec stmt w) =
              with_fabrics (fst (stmt (fabrics w)))
                           (with_driver (tl (driver w)) w)
  | Err err => storage_failure err /\
               snd (pool_Exec stmt w) = with_driver (tl (driver w)) w
  end.
Proof.
  unfold pool_Exec, Exec, bind, ret.
  destruct w as [fs et d tk pub lg]. step_driver.
  - cbn. split; [apply storage_failure_fault|reflexivity].
  - destruct (fabrics_active_code_idx (fst (stmt fs))); cbn.
    + destruct (stmt fs) as [t' n]. cbn. auto.
    + split; [exact I|reflexivity].
Qed.

(** Update and Delete: only the [fabrics] table and the driver's script
    move, and the error is ErrRecordNotFound or a storage failure. *)
Lemma conditional_write_spec (msg : string)
    (stmt : list FabricRow -> list FabricRow * Z) (w : World) :
  let c := (r <- pool_Exec stmt ;;
            match r with
            | Err err => ret (Some (Errorf msg err))
            | Ok rowsAffected =>
              if (rowsAffected =? 0)%Z then ret (Some ErrRecordNotFound)
              else ret None
            end) in
  (exists t', snd (c w) = with_fabrics t' (with_driver (tl (driver w)) w)) /\
  match fst (c w) with
  | None => True
  | Some err => err = ErrRecordNotFound \/ storage_failure err
  end.
Proof.
  cbv zeta. unfold bind, ret.
  pose proof (pool_Exec_spec stmt w) as H.
  destruct (pool_Exec stmt w) as [[n|err] w1]; cbn [fst snd] in *.
  - destruct H as [-> ->].
    destruct (snd (stmt (fabrics w)) =? 0)%Z; cbn; eauto.
  - destruct H as [Hs ->]. cbn. split; [|auto].
    exists (fabrics w). now destruct w.
Qed.

Lemma Update_spec (ctx : command.Context) (fabric : Fabric) (w : World) :
  (exists t', snd (Update ctx fabric w)
              = with_fabrics t' (with_driver (tl (driver w)) w)) /\
  match fst (Update ctx fabric w) with
  | None => True
  | Some err => err = ErrRecordNotFound \/ storage_failure err
  end.
Proof. apply conditional_write_spec. Qed.

Lemma Delete_spec (ctx : command.Context) (fabric : Fabric) (w : World) :
  (exists t', snd (persistence.Delete ctx fabric w)
              = with_fabrics t' (with_driver (tl (driver w)) w)) /\
  match fst (persistence.Delete ctx fabric w) with
  | None => True
  | Some err => err = ErrRecordNotFound \/ storage_failure err
  end.
Proof. apply conditional_write_spec. Qed.

End Repository.

Lemma validateName_error (name : string) (err : error) :
  validateName name = Some err -> err = ErrInvalidFabricNameLength.
Proof.
  unfold validateName. destruct (_ || _)%bool; congruence.
Qed.

(** Reactivate at the receiver's own version, on a receiver that is not
    ACTIVE: only the name can be refused. *)
Lemma Reactivate_own_version (name measureUnit offerStatus : string)
    (f : Fabric) :
  Status f <> StatusActive ->
  Reactivate name measureUnit offerStatus (Version f) f =
  match validateName name with
  | Some err => (f, Some err)
  | None =>
    (mkFabric (Code f) name measureUnit offerStatus StatusActive
              (GoInt.add (Version f) 1)
              (events f ++ [FabricReactivated (Code f) name measureUnit
                              offerStatus (GoInt.add (Version f) 1)]),
     None)
  end.
Proof.
  intros H. unfold Reactivate. apply String.eqb_neq in H.
  now rewrite H, Z.eqb_refl.
Qed.

Section RepositorySave.
Import persistence.

Lemma Save_insert_spec (fabric : Fabric) (t : list FabricRow) (w : World) :
  (exists t' d', snd (Save_insert fabric t w)
                 = with_fabrics t' (with_driver d' w)) /\
  match fst (Save_insert fabric t w) with
  | Ok p => p = fabric
  | Err err => err = ErrDuplicateFabricCode \/ storage_failure err
  end.
Proof.
  unfold Save_insert, Exec, Commit, bind, ret.
  destruct w as [fs et d tk pub lg]. step_driver.
  - destruct flt as [code|msg]; cbn [fault_error errors_As_PgError].
    + destruct (code =? "23505"); cbn; split; eauto.
    + cbn. split; eauto.
  - cbn [fst].
    destruct (fabrics_active_code_idx _); cbn [errors_As_PgError].
    + step_driver.
      * cbn. split; eauto. right. apply storage_failure_fault.
      * cbn. split; eauto.
    + cbn. split; eauto.
Qed.

Lemma Save_reactivate_spec (fabric existingFabric : Fabric)
    (t : list FabricRow) (w : World) :
  Status existingFabric <> StatusActive ->
  (exists t' d', snd (Save_reactivate fabric existingFabric t w)
                 = with_fabrics t' (with_driver d' w)) /\
  match fst (Save_reactivate fabric existingFabric t w) with
  | Ok p =>
      validateName (Name fabric) = None /\
      p = mkFabric (Code existingFabric) (Name fabric) (MeasureUnit fabric)
            (OfferStatus fabric) StatusActive
            (GoInt.add (Version existingFabric) 1)
            (events existingFabric ++
             [FabricReactivated (Code existingFabric) (Name fabric)
                (MeasureUnit fabric) (OfferStatus fabric)
                (GoInt.add (Version existingFabric) 1)])
  | Err err => err = ErrInvalidFabricNameLength \/ storage_failure err
  end.
Proof.
  intros Hs. unfold Save_reactivate.
  rewrite (Reactivate_own_version _ _ _ _ Hs).
  destruct (validateName (Name fabric)) as [verr|] eqn:Hn.
  - apply validateName_error in Hn. subst verr. cbn. split; [|auto].
    exists (fabrics w), (driver w). now destruct w.
  - cbv beta iota. unfold Exec, Commit, sql_update, bind, ret.
    destruct w as [fs et d tk pub lg]. step_driver.
    + cbn. split; eauto. right. apply storage_failure_fault.
    + cbn [fst].
      destruct (fabrics_active_code_idx _).
      * step_driver.
        -- cbn. split; eauto. right. apply storage_failure_fault.
        -- cbn. split; eauto.
      * cbn. split; eauto.
Qed.

Lemma Save_spec (ctx : command.Context) (fabric : Fabric) (w : World) :
  (exists t' d', snd (Save ctx fabric w)
                 = with_fabrics t' (with_driver d' w)) /\
  match fst (Save ctx fabric w) with
  | Ok p =>
      p = fabric \/
      exists r, In r (fabrics w) /\ row_code r = Code fabric /\
        row_status r = StatusDeleted /\
        validateName (Name fabric) = None /\
        p = mkFabric (row_code r) (Name fabric) (MeasureUnit fabric)
              (OfferStatus fabric) StatusActive
              (GoInt.add (row_version r) 1)
              [FabricReactivated (row_code r) (Name fabric)
                 (MeasureUnit fabric) (OfferStatus fabric)
                 (GoInt.add (row_version r) 1)]
  | Err err =>
      err = ErrDuplicateFabricCode \/ err = ErrInvalidFabricNameLength \/
      storage_failure err
  end.
Proof.
  unfold Save, QueryRow_Scan, bind, ret.
  destruct w as [fs et d tk pub lg]. step_driver.
  { cbn. split; eauto. right. right. apply storage_failure_fault. }
  step_driver.
  { rewrite fault_not_ErrNoRows. cbn. split; eauto.
    right. right. apply storage_failure_fault. }
  destruct (find (fun r => row_code r =? Code fabric) fs) as [r|] eqn:Hf.
  - apply find_some_row in Hf. destruct Hf as [Hin Hc].
    apply String.eqb_eq in Hc.
    destruct (Status (scan r) =? StatusActive) eqn:Ha.
    { cbn. split; eauto. }
    apply String.eqb_neq in Ha.
    destruct (Status (scan r) =? StatusDeleted) eqn:Hd.
    + apply String.eqb_eq in Hd.
      match goal with
      | |- context [Save_reactivate fabric (scan r) ?t ?w] =>
          destruct (Save_reactivate_spec fabric (scan r) t w Ha)
            as [(t' & d' & Hw) Hr];
          destruct (Save_reactivate fabric (scan r) t w) as [[p|err] w1]
      end; cbn [fst snd] in *; subst w1; norm_world.
      * split; [eauto|]. right. exists r.
        destruct Hr as [Hn ->]. cbn. auto.
      * split; [eauto|]. tauto.
    + match goal with
      | |- context [Save_insert fabric ?t ?w] =>
          destruct (Save_insert_spec fabric t w) as [(t' & d' & Hw) Hr];
          destruct (Save_insert fabric t w) as [[p|err] w1]
      end; cbn [fst snd] in *; subst w1; norm_world.
      * split; [eauto|]. auto.
      * split; [eauto|]. tauto.
  - cbn [errors_Is error_eqb negb orb].
    match goal with
    | |- context [Save_insert fabric ?t ?w] =>
        destruct (Save_insert_spec fabric t w) as [(t' & d' & Hw) Hr];
        destruct (Save_insert fabric t w) as [[p|err] w1]
    end; cbn [fst snd] in *; subst w1; norm_world.
    * split; [eauto|]. auto.
    * split; [eauto|]. tauto.
Qed.

End RepositorySave.

(* ================================================================== *)
(** ** The command service *)

Lemma IsFromREST_tracer_Start (ctx : command.Context) (name : string) :
  command.IsFromREST (command.tracer_Start ctx name) = command.IsFromREST ctx.
Proof. reflexivity. Qed.

Section Service.
Import messaging envelope application.

Variable outcome : string -> EventEnvelope -> option error.

(** The recording publisher receives every envelope of the loop, whatever
    it answers; a failure leaves one line in the log and nothing else. *)
Lemma publish_loop_spec (ctx : command.Context) (wrap_msg log_msg : string)
    (es : list EventEnvelope) : forall w,
  exists lines,
    publish_loop (wired outcome) ctx wrap_msg log_msg es w =
      (tt, with_logs (logs w ++ lines)
             (with_published
                (published w ++ map (fun e => ("app.fabric", e)) es) w)) /\
    (forall e err, In e es -> outcome "app.fabric" e = Some err ->
       In (Log "ERROR" log_msg (Some (Errorf wrap_msg err))) lines).
Proof.
  induction es as [|e rest IH]; intros w.
  - exists []. split; [|intros ? ? []].
    cbn. rewrite !app_nil_r. now destruct w.
  - cbn [publish_loop]. unfold bind. cbn [publisher wired Publish
      NewFabricCommandService RecordingPublisher eventChannel].
    destruct (outcome "app.fabric" e) as [err|] eqn:Ho.
    + unfold logger.
      destruct (IH (with_logs
                      (logs (with_published (published w ++ [("app.fabric", e)]) w)
                       ++ [Log "ERROR" log_msg (Some (Errorf wrap_msg err))])
                      (with_published (published w ++ [("app.fabric", e)]) w)))
        as (lines & Heq & Hin).
      exists (Log "ERROR" log_msg (Some (Errorf wrap_msg err)) :: lines).
      split.
      * rewrite Heq. norm_world. cbn [map].
        rewrite <- !app_assoc. reflexivity.
      * intros e' err' [<-|Hin'] Ho'.
        -- left. congruence.
        -- right. eauto.
    + destruct (IH (with_published (published w ++ [("app.fabric", e)]) w))
        as (lines & Heq & Hin).
      exists lines. split.
      * rewrite Heq. norm_world. cbn [map].
        rewrite <- !app_assoc. reflexivity.
      * intros e' err' [<-|Hin'] Ho'; [congruence|eauto].
Qed.

End Service.

Section ServiceTail.
Import messaging envelope application.

Variable outcome : string -> EventEnvelope -> option error.

Lemma persist_and_forward_spec {A : Type} (ctx : command.Context)
    (store_msg store_log pub_msg pub_log : string)
    (es : list EventEnvelope) (ok : A) (fail : error -> A) (w : World) :
  (exists err w',
     persist_and_forward (wired outcome) ctx store_msg store_log pub_msg
       pub_log es ok fail w = (fail (Errorf store_msg err), w') /\
     storage_failure err /\
     fabrics w' = fabrics w /\ events_table w' = events_table w /\
     published w' = published w) \/
  (exists w',
     persist_and_forward (wired outcome) ctx store_msg store_log pub_msg
       pub_log es ok fail w = (ok, w') /\
     fabrics w' = fabrics w /\
     events_table w' = events_table w ++ map eventstore.row_of es /\
     published w' =
       published w ++ (if command.IsFromREST ctx
                       then map (fun e => ("app.fabric", e)) es else []) /\
     (command.IsFromREST ctx = true ->
      forall e err, In e es -> outcome "app.fabric" e = Some err ->
        In (Log "ERROR" pub_log (Some (Errorf pub_msg err))) (logs w'))).
Proof.
  unfold persist_and_forward.
  destruct es as [|e0 rest].
  { right. exists w. split; [reflexivity|]. cbn [map].
    rewrite app_nil_r. split; [reflexivity|]. split; [reflexivity|]. split.
    - destruct (command.IsFromREST ctx); now rewrite app_nil_r.
    - intros _ e err []. }
  set (es := e0 :: rest).
  unfold bind. cbn [eventStore wired NewFabricCommandService eventstore.Save
                    eventstore.PostgresStore].
  destruct (PostgresStore_Save_spec ctx es w) as (d' & Hw & He).
  destruct (eventstore.PostgresStore_Save ctx es w) as [[err|] w1];
    cbn [fst snd] in *; subst w1.
  - left. exists err. eexists. split; [reflexivity|].
    split; [|norm_world; auto].
    destruct He as [[-> _]|[Hs _]]; [exact I|exact Hs].
  - right. destruct (command.IsFromREST ctx).
    + match goal with
      | |- context [publish_loop _ ctx pub_msg pub_log es ?w1] =>
          destruct (publish_loop_spec outcome ctx pub_msg pub_log es w1)
            as (lines & Heq & Hin)
      end.
      rewrite Heq. eexists. split; [reflexivity|]. norm_world.
      repeat split; auto.
      intros _ e err Hine Ho. apply in_or_app. right. eauto.
    + eexists. split; [reflexivity|]. norm_world.
      rewrite app_nil_r. repeat split; auto. discriminate.
Qed.

End ServiceTail.

Lemma NewFabric_Ok_inv (code name measureUnit offerStatus : string) (f : Fabric) :
  NewFabric code name measureUnit offerStatus = Ok f ->
  f = mkFabric code name measureUnit offerStatus StatusActive 1
        [FabricCreated code name measureUnit offerStatus 1] /\
  validateName name = None.
Proof.
  unfold NewFabric. destruct (validateCode code); [discriminate|].
  destruct (validateName name); [discriminate|].
  intros [= <-]. auto.
Qed.

Lemma NewFabric_Err_inv (code name measureUnit offerStatus : string)
    (err : error) :
  NewFabric code name measureUnit offerStatus = Err err ->
  is_validation_error err = true.
Proof.
  unfold NewFabric, validateCode, validateName.
  destruct (_ || _)%bool; [intros [= <-]; reflexivity|].
  destruct (negb _); [intros [= <-]; reflexivity|].
  destruct (_ || _)%bool; [intros [= <-]; reflexivity|discriminate].
Qed.

Section ServiceCommands.
Import messaging envelope application.

Variable outcome : string -> EventEnvelope -> option error.

Lemma CreateFabric_eq (s : FabricService) (ctx : command.Context)
    (code name measureUnit offerStatus : string) :
  CreateFabric s ctx code name measureUnit offerStatus =
  let ctx := command.tracer_Start ctx "fabric.service.create" in
  match NewFabric code name measureUnit offerStatus with
  | Err err =>
    _ <- logger "ERROR" "fabric creation failed due to a domain error"
           (Some (Errorf "application service failed to create fabric" err)) ;;
    ret (Err (Errorf "application service failed to create fabric" err))
  | Ok fabric =>
    saved <- repo_Save (commandRepo s) ctx fabric ;;
    match saved with
    | Err err =>
      _ <- logger "ERROR" "saving fabric failed"
             (Some (Errorf "failed to save fabric" err)) ;;
      ret (Err (Errorf "failed to save fabric" err))
    | Ok persistedFabric =>
      es <- create_envelopes persistedFabric (Events persistedFabric) ;;
      persist_and_forward s ctx "failed to save to event store"
        "saving to event store failed"
        "failed to publish fabric event envelope"
        "publishing event envelope failed" es
        (Ok persistedFabric) (fun e => Err e)
    end
  end.
Proof. reflexivity. Qed.

Lemma create_envelopes_one (p : Fabric) (ev : Event) (w : World) :
  (exists a b c d v, ev = FabricCreated a b c d v) \/
  (exists a b c d v, ev = FabricReactivated a b c d v) ->
  exists e,
    create_envelopes p [ev] w = ([e], with_ticks (S (S (ticks w))) w) /\
    AggregateID e = Code p /\ AggregateVersion e = Version p /\
    Payload_ e = PayloadEvent ev /\
    (EventType e = "app.fabric.created" \/
     EventType e = "app.fabric.reactivated").
Proof.
  intros [(a & b & c & d & v & ->)|(a & b & c & d & v & ->)];
    eexists; (split; [destruct w; reflexivity|]); cbn; auto.
Qed.

Lemma CreateFabric_spec (ctx : command.Context)
    (code name measureUnit offerStatus : string) (w : World) :
  match CreateFabric (wired outcome) ctx code name measureUnit offerStatus w with
  | (Ok f, w') =>
      exists e,
        events_table w' = events_table w ++ [eventstore.row_of e] /\
        AggregateID e = Code f /\ AggregateVersion e = Version f /\
        published w' =
          published w ++ (if command.IsFromREST ctx
                          then [("app.fabric", e)] else []) /\
        (command.IsFromREST ctx = true ->
         forall err, outcome "app.fabric" e = Some err ->
           In (Log "ERROR" "publishing event envelope failed"
                 (Some (Errorf "failed to publish fabric event envelope" err)))
              (logs w'))
  | (Err err, w') =>
      published w' = published w /\ events_table w' = events_table w /\
      (errors_Is err ErrDuplicateFabricCode = true \/
       is_validation_error err = true \/ storage_failure err)
  end.
Proof.
  rewrite CreateFabric_eq. cbv zeta.
  destruct (NewFabric code name measureUnit offerStatus) as [fabric|nerr] eqn:Hn.
  2:{ apply NewFabric_Err_inv in Hn. unfold bind, logger, ret. norm_world.
      unfold is_validation_error in *. cbn [errors_Is error_eqb orb]. auto. }
  apply NewFabric_Ok_inv in Hn. destruct Hn as [Hf Hname].
  unfold bind at 1.
  cbn [commandRepo wired NewFabricCommandService repo_Save
       persistence.FabricPostgresRepository].
  set (ctx1 := command.tracer_Start ctx "fabric.service.create").
  destruct (Save_spec ctx1 fabric w) as [(t' & d' & Hw) Hr].
  destruct (persistence.Save ctx1 fabric w) as [[p|serr] w1];
    cbn [fst snd] in *; subst w1.
  2:{ unfold bind, logger, ret. norm_world. split; [reflexivity|].
      split; [reflexivity|].
      destruct Hr as [->|[->|Hs]]; cbn; auto. }
  assert (Hev : exists ev, Events p = [ev] /\
            ((exists a b c d v, ev = FabricCreated a b c d v) \/
             (exists a b c d v, ev = FabricReactivated a b c d v))).
  { destruct Hr as [->|(r & _ & _ & _ & _ & ->)]; [subst fabric|];
      cbn; eexists; split; try reflexivity; [left|right]; eauto 10. }
  destruct Hev as (ev & -> & Hev).
  unfold bind.
  destruct (create_envelopes_one p ev (with_fabrics t' (with_driver d' w)) Hev)
    as (e & -> & Hid & Hv & _ & _).
  match goal with
  | |- context [persist_and_forward _ ?c ?a1 ?a2 ?a3 ?a4 ?es ?ok ?fail ?w0] =>
      destruct (persist_and_forward_spec outcome c a1 a2 a3 a4 es ok fail w0)
        as [(err & w' & -> & Hs & _ & He & Hp)|(w' & -> & _ & He & Hp & Hl)]
  end.
  - norm_world. split; [exact Hp|]. split; [exact He|]. auto.
  - exists e. norm_world. rewrite He. cbn [map].
    split; [reflexivity|]. split; [exact Hid|]. split; [exact Hv|].
    unfold ctx1 in *. rewrite IsFromREST_tracer_Start in *.
    split.
    + rewrite Hp. now destruct (command.IsFromREST ctx).
    + intros Hrest err Ho. apply (Hl Hrest e err); [now left|exact Ho].
Qed.

End ServiceCommands.

Lemma UpdateFabric_of_active (name measureUnit offerStatus : string)
    (version : Z) (f : Fabric) :
  Status f = StatusActive ->
  UpdateFabric name measureUnit offerStatus version f =
  if negb (Version f =? version)%Z then (f, Some ErrConcurrencyConflict)
  else match validateName name with
       | Some err => (f, Some err)
       | None =>
         (mkFabric (Code f) name measureUnit offerStatus (Status f)
                   (GoInt.add (Version f) 1)
                   (events f ++ [FabricUpdated (Code f) name measureUnit
                                   offerStatus (GoInt.add (Version f) 1)]),
          None)
       end.
Proof. intros H. unfold UpdateFabric. now rewrite H. Qed.

Lemma Delete_of_active (version : Z) (f : Fabric) :
  Status f = StatusActive ->
  Delete version f =
  if negb (Version f =? version)%Z then (f, Some ErrConcurrencyConflict)
  else (mkFabric (Code f) (Name f) (MeasureUnit f) (OfferStatus f)
                 StatusDeleted (GoInt.add (Version f) 1)
                 (events f ++ [FabricDeleted (Code f)
                                 (GoInt.add (Version f) 1)]),
        None).
Proof. intros H. unfold Delete. now rewrite H. Qed.

Section ServiceUpdateDelete.
Import messaging envelope.

Variable outcome : string -> EventEnvelope -> option error.

Lemma UpdateFabric_eq (s : application.FabricService) (ctx : command.Context)
    (code name measureUnit offerStatus : string) (version : Z) :
  application.UpdateFabric s ctx code name measureUnit offerStatus version =
  let ctx := command.tracer_Start ctx "fabric.service.update" in
  got <- repo_GetByCode (application.commandRepo s) ctx code ;;
  match got with
  | Err err => ret (Err err)
  | Ok fabric =>
    match UpdateFabric name measureUnit offerStatus version fabric with
    | (_, Some err) => ret (Err err)
    | (fabric, None) =>
      updated <- repo_Update (application.commandRepo s) ctx fabric ;;
      match updated with
      | Some err =>
        _ <- logger "ERROR" "updating fabric failed"
               (Some (Errorf "failed to update fabric in repo" err)) ;;
        ret (Err (Errorf "failed to update fabric in repo" err))
      | None =>
        es <- application.update_envelopes fabric (Events fabric) ;;
        persist_and_forward s ctx "failed to save update event to event store"
          "saving update event to event store failed"
          "failed to publish fabric updated event"
          "publishing fabric updated event failed" es
          (Ok fabric) (fun e => Err e)
      end
    end
  end.
Proof. reflexivity. Qed.

Lemma DeleteFabric_eq (s : application.FabricService) (ctx : command.Context)
    (code : string) (version : Z) :
  application.DeleteFabric s ctx code version =
  let ctx := command.tracer_Start ctx "fabric.service.delete" in
  got <- repo_GetByCode (application.commandRepo s) ctx code ;;
  match got with
  | Err err => ret (Some err)
  | Ok fabric =>
    match Delete version fabric with
    | (_, Some err) => ret (Some err)
    | (fabric, None) =>
      deleted <- repo_Delete (application.commandRepo s) ctx fabric ;;
      match deleted with
      | Some err =>
        _ <- logger "ERROR" "deleting fabric failed"
               (Some (Errorf "failed to delete fabric in repo" err)) ;;
        ret (Some (Errorf "failed to delete fabric in repo" err))
      | None =>
        es <- application.delete_envelopes fabric (Events fabric) ;;
        persist_and_forward s ctx "failed to save delete event to event store"
          "saving delete event failed"
          "failed to publish fabric deleted event"
          "publishing fabric deleted event failed" es
          None (fun e => Some e)
      end
    end
  end.
Proof. reflexivity. Qed.

Lemma update_envelopes_one (p : Fabric) (a b c d : string) (v : Z) (w : World) :
  exists e,
    application.update_envelopes p [FabricUpdated a b c d v] w
      = ([e], with_ticks (S (S (ticks w))) w) /\
    AggregateID e = Code p /\ AggregateVersion e = Version p /\
    EventType e = "app.fabric.updated".
Proof. eexists. split; [destruct w; reflexivity|]. cbn. auto. Qed.

Lemma delete_envelopes_one (p : Fabric) (a : string) (v : Z) (w : World) :
  exists e,
    application.delete_envelopes p [FabricDeleted a v] w
      = ([e], with_ticks (S (S (ticks w))) w) /\
    AggregateID e = Code p /\ AggregateVersion e = Version p /\
    EventType e = "app.fabric.deleted".
Proof. eexists. split; [destruct w; reflexivity|]. cbn. auto. Qed.

Lemma UpdateFabric_spec (ctx : command.Context)
    (code name measureUnit offerStatus : string) (version : Z) (w : World) :
  match application.UpdateFabric (wired outcome) ctx code name measureUnit
          offerStatus version w with
  | (Ok f, w') =>
      exists e,
        events_table w' = events_table w ++ [eventstore.row_of e] /\
        AggregateID e = Code f /\ AggregateVersion e = Version f /\
        published w' =
          published w ++ (if command.IsFromREST ctx
                          then [("app.fabric", e)] else []) /\
        (command.IsFromREST ctx = true ->
         forall err, outcome "app.fabric" e = Some err ->
           In (Log "ERROR" "publishing fabric updated event failed"
                 (Some (Errorf "failed to publish fabric updated event" err)))
              (logs w'))
  | (Err err, w') =>
      published w' = published w /\ events_table w' = events_table w /\
      (errors_Is err ErrRecordNotFound = true \/
       errors_Is err ErrConcurrencyConflict = true \/
       errors_Is err ErrInvalidFabricNameLength = true \/
       storage_failure err)
  end.
Proof.
  rewrite UpdateFabric_eq. cbv zeta. unfold bind at 1.
  cbn [application.commandRepo wired application.NewFabricCommandService repo_GetByCode repo_Update
       persistence.FabricPostgresRepository].
  set (ctx1 := command.tracer_Start ctx "fabric.service.update").
  destruct (GetByCode_spec ctx1 code w) as [Hw Hr].
  destruct (persistence.GetByCode ctx1 code w) as [[fabric|gerr] w1];
    cbn [fst snd] in *; subst w1.
  2:{ unfold ret. norm_world. split; [reflexivity|]. split; [reflexivity|].
      destruct Hr as [[msg ->]|Hs]; cbn; auto. }
  destruct Hr as (Hact & _ & Hevs & _).
  rewrite (UpdateFabric_of_active _ _ _ _ _ Hact).
  destruct (negb (Version fabric =? version)%Z).
  { unfold ret. norm_world. cbn. auto. }
  destruct (validateName name) as [verr|] eqn:Hn.
  { apply validateName_error in Hn. subst verr.
    unfold ret. norm_world. cbn. auto 6. }
  unfold bind at 1.
  match goal with
  | |- context [persistence.Update ctx1 ?f ?w0] =>
      destruct (Update_spec ctx1 f w0) as [(t' & Hw) Hr];
      destruct (persistence.Update ctx1 f w0) as [[uerr|] w1]
  end; cbn [fst snd] in *; subst w1.
  { unfold bind, logger, ret. norm_world. split; [reflexivity|].
    split; [reflexivity|]. destruct Hr as [->|Hs]; cbn; auto. }
  unfold bind. cbn [Events events]. rewrite Hevs. cbn [app].
  match goal with
  | |- context [application.update_envelopes ?p [FabricUpdated ?a ?b ?c ?d ?v] ?w0] =>
      destruct (update_envelopes_one p a b c d v w0)
        as (e & -> & Hid & Hv & _)
  end.
  match goal with
  | |- context [persist_and_forward _ ?c ?a1 ?a2 ?a3 ?a4 ?es ?ok ?fail ?w0] =>
      destruct (persist_and_forward_spec outcome c a1 a2 a3 a4 es ok fail w0)
        as [(err & w' & -> & Hs & _ & He & Hp)|(w' & -> & _ & He & Hp & Hl)]
  end.
  - norm_world. split; [exact Hp|]. split; [exact He|]. auto.
  - exists e. norm_world. rewrite He. cbn [map].
    split; [reflexivity|]. split; [exact Hid|]. split; [exact Hv|].
    unfold ctx1 in *. rewrite IsFromREST_tracer_Start in *.
    split.
    + rewrite Hp. now destruct (command.IsFromREST ctx).
    + intros Hrest err Ho. apply (Hl Hrest e err); [now left|exact Ho].
Qed.

Lemma DeleteFabric_spec (ctx : command.Context) (code : string) (version : Z)
    (w : World) :
  match application.DeleteFabric (wired outcome) ctx code version w with
  | (None, w') =>
      exists e,
        events_table w' = events_table w ++ [eventstore.row_of e] /\
        AggregateID e = code /\
        published w' =
          published w ++ (if command.IsFromREST ctx
                          then [("app.fabric", e)] else []) /\
        (command.IsFromREST ctx = true ->
         forall err, outcome "app.fabric" e = Some err ->
           In (Log "ERROR" "publishing fabric deleted event failed"
                 (Some (Errorf "failed to publish fabric deleted event" err)))
              (logs w'))
  | (Some err, w') =>
      published w' = published w /\ events_table w' = events_table w /\
      (errors_Is err ErrRecordNotFound = true \/
       errors_Is err ErrConcurrencyConflict = true \/
       storage_failure err)
  end.
Proof.
  rewrite DeleteFabric_eq. cbv zeta. unfold bind at 1.
  cbn [application.commandRepo wired application.NewFabricCommandService repo_GetByCode repo_Delete
       persistence.FabricPostgresRepository].
  set (ctx1 := command.tracer_Start ctx "fabric.service.delete").
  destruct (GetByCode_spec ctx1 code w) as [Hw Hr].
  destruct (persistence.GetByCode ctx1 code w) as [[fabric|gerr] w1];
    cbn [fst snd] in *; subst w1.
  2:{ unfold ret. norm_world. split; [reflexivity|]. split; [reflexivity|].
      destruct Hr as [[msg ->]|Hs]; cbn; auto. }
  destruct Hr as (Hact & Hcode & Hevs & _).
  rewrite (Delete_of_active _ _ Hact).
  destruct (negb (Version fabric =? version)%Z).
  { unfold ret. norm_world. cbn. auto. }
  unfold bind at 1.
  match goal with
  | |- context [persistence.Delete ctx1 ?f ?w0] =>
      destruct (Delete_spec ctx1 f w0) as [(t' & Hw) Hr];
      destruct (persistence.Delete ctx1 f w0) as [[uerr|] w1]
  end; cbn [fst snd] in *; subst w1.
  { unfold bind, logger, ret. norm_world. split; [reflexivity|].
    split; [reflexivity|]. destruct Hr as [->|Hs]; cbn; auto. }
  unfold bind. cbn [Events events]. rewrite Hevs. cbn [app].
  match goal with
  | |- context [application.delete_envelopes ?p [FabricDeleted ?a ?v] ?w0] =>
      destruct (delete_envelopes_one p a v w0) as (e & -> & Hid & _)
  end.
  match goal with
  | |- context [persist_and_forward _ ?c ?a1 ?a2 ?a3 ?a4 ?es ?ok ?fail ?w0] =>
      destruct (persist_and_forward_spec outcome c a1 a2 a3 a4 es ok fail w0)
        as [(err & w' & -> & Hs & _ & He & Hp)|(w' & -> & _ & He & Hp & Hl)]
  end.
  - norm_world. split; [exact Hp|]. split; [exact He|]. auto.
  - exists e. norm_world. rewrite He. cbn [map].
    split; [reflexivity|]. split; [rewrite Hid; exact Hcode|].
    unfold ctx1 in *. rewrite IsFromREST_tracer_Start in *.
    split.
    + rewrite Hp. now destruct (command.IsFromREST ctx).
    + intros Hrest err Ho. apply (Hl Hrest e err); [now left|exact Ho].
Qed.

End ServiceUpdateDelete.

(* ================================================================== *)
(** ** What the publisher and the context can and cannot change *)

Section Independence.
Import messaging envelope.

Lemma publish_loop_ctx (o : string -> EventEnvelope -> option error)
    (c1 c2 : command.Context) (wrap_msg log_msg : string)
    (es : list EventEnvelope) : forall w,
  application.publish_loop (wired o) c1 wrap_msg log_msg es w =
  application.publish_loop (wired o) c2 wrap_msg log_msg es w.
Proof.
  induction es as [|e rest IH]; intros w; [reflexivity|].
  cbn [application.publish_loop]. unfold bind.
  cbn [application.publisher wired application.NewFabricCommandService
       Publish RecordingPublisher].
  destruct (o (application.eventChannel _) e); [unfold logger|]; apply IH.
Qed.

Lemma persist_and_forward_ctx {A : Type}
    (o : string -> EventEnvelope -> option error) (c1 c2 : command.Context)
    (m1 m2 m3 m4 : string) (es : list EventEnvelope) (ok : A)
    (fail : error -> A) (w : World) :
  command.IsFromREST c1 = command.IsFromREST c2 ->
  persist_and_forward (wired o) c1 m1 m2 m3 m4 es ok fail w =
  persist_and_forward (wired o) c2 m1 m2 m3 m4 es ok fail w.
Proof.
  intros H. unfold persist_and_forward. destruct es as [|e rest]; [reflexivity|].
  rewrite H. unfold bind.
  cbn [application.eventStore wired application.NewFabricCommandService
       eventstore.Save eventstore.PostgresStore].
  change (eventstore.PostgresStore_Save c1 (e :: rest) w)
    with (eventstore.PostgresStore_Save c2 (e :: rest) w).
  destruct (eventstore.PostgresStore_Save c2 (e :: rest) w) as [[err|] w1];
    [reflexivity|].
  destruct (command.IsFromREST c2); [|reflexivity].
  now rewrite (publish_loop_ctx o c1 c2).
Qed.

Lemma persist_and_forward_outcome {A : Type}
    (o1 o2 : string -> EventEnvelope -> option error) (c : command.Context)
    (m1 m2 m3 m4 : string) (es : list EventEnvelope) (ok : A)
    (fail : error -> A) (w : World) :
  let r1 := persist_and_forward (wired o1) c m1 m2 m3 m4 es ok fail w in
  let r2 := persist_and_forward (wired o2) c m1 m2 m3 m4 es ok fail w in
  fst r1 = fst r2 /\ fabrics (snd r1) = fabrics (snd r2) /\
  events_table (snd r1) = events_table (snd r2) /\
  published (snd r1) = published (snd r2).
Proof.
  cbv zeta. unfold persist_and_forward.
  destruct es as [|e rest]; [auto|].
  unfold bind.
  cbn [application.eventStore wired application.NewFabricCommandService
       eventstore.Save eventstore.PostgresStore].
  destruct (eventstore.PostgresStore_Save c (e :: rest) w) as [[err|] w1];
    [cbn; auto|].
  destruct (command.IsFromREST c); [|cbn; auto].
  destruct (publish_loop_spec o1 c m3 m4 (e :: rest) w1) as (l1 & -> & _).
  destruct (publish_loop_spec o2 c m3 m4 (e :: rest) w1) as (l2 & -> & _).
  cbn. auto.
Qed.

Variables (c1 c2 : command.Context).
Hypothesis same_source : command.IsFromREST c1 = command.IsFromREST c2.
Variable o : string -> EventEnvelope -> option error.

Lemma CreateFabric_ctx (code name measureUnit offerStatus : string) (w : World) :
  application.CreateFabric (wired o) c1 code name measureUnit offerStatus w =
  application.CreateFabric (wired o) c2 code name measureUnit offerStatus w.
Proof.
  rewrite !CreateFabric_eq. cbv zeta.
  destruct (NewFabric code name measureUnit offerStatus) as [fabric|err];
    [|reflexivity].
  unfold bind.
  cbn [application.commandRepo wired application.NewFabricCommandService
       repo_Save persistence.FabricPostgresRepository].
  change (persistence.Save (command.tracer_Start c1 "fabric.service.create")
            fabric w)
    with (persistence.Save (command.tracer_Start c2 "fabric.service.create")
            fabric w).
  destruct (persistence.Save _ fabric w) as [[p|err] w1]; [|reflexivity].
  destruct (application.create_envelopes p (Events p) w1) as [es w2].
  apply persist_and_forward_ctx.
  now rewrite !IsFromREST_tracer_Start.
Qed.

Lemma UpdateFabric_ctx (code name measureUnit offerStatus : string)
    (version : Z) (w : World) :
  application.UpdateFabric (wired o) c1 code name measureUnit offerStatus
    version w =
  application.UpdateFabric (wired o) c2 code name measureUnit offerStatus
    version w.
Proof.
  rewrite !UpdateFabric_eq. cbv zeta. unfold bind.
  cbn [application.commandRepo wired application.NewFabricCommandService
       repo_GetByCode repo_Update persistence.FabricPostgresRepository].
  change (persistence.GetByCode (command.tracer_Start c1 "fabric.service.update")
            code w)
    with (persistence.GetByCode (command.tracer_Start c2 "fabric.service.update")
            code w).
  destruct (persistence.GetByCode _ code w) as [[fabric|err] w1]; [|reflexivity].
  destruct (UpdateFabric name measureUnit offerStatus version fabric)
    as [fabric' [err|]]; [reflexivity|].
  change (persistence.Update (command.tracer_Start c1 "fabric.service.update")
            fabric' w1)
    with (persistence.Update (command.tracer_Start c2 "fabric.service.update")
            fabric' w1).
  destruct (persistence.Update _ fabric' w1) as [[err|] w2]; [reflexivity|].
  destruct (application.update_envelopes fabric' (Events fabric') w2)
    as [es w3].
  apply persist_and_forward_ctx.
  now rewrite !IsFromREST_tracer_Start.
Qed.

Lemma DeleteFabric_ctx (code : string) (version : Z) (w : World) :
  application.DeleteFabric (wired o) c1 code version w =
  application.DeleteFabric (wired o) c2 code version w.
Proof.
  rewrite !DeleteFabric_eq. cbv zeta. unfold bind.
  cbn [application.commandRepo wired application.NewFabricCommandService
       repo_GetByCode repo_Delete persistence.FabricPostgresRepository].
  change (persistence.GetByCode (command.tracer_Start c1 "fabric.service.delete")
            code w)
    with (persistence.GetByCode (command.tracer_Start c2 "fabric.service.delete")
            code w).
  destruct (persistence.GetByCode _ code w) as [[fabric|err] w1]; [|reflexivity].
  destruct (Delete version fabric) as [fabric' [err|]]; [reflexivity|].
  change (persistence.Delete (command.tracer_Start c1 "fabric.service.delete")
            fabric' w1)
    with (persistence.Delete (command.tracer_Start c2 "fabric.service.delete")
            fabric' w1).
  destruct (persistence.Delete _ fabric' w1) as [[err|] w2]; [reflexivity|].
  destruct (application.delete_envelopes fabric' (Events fabric') w2)
    as [es w3].
  apply persist_and_forward_ctx.
  now rewrite !IsFromREST_tracer_Start.
Qed.

End Independence.

Section PublisherOutcome.
Import messaging envelope.

Variables (o1 o2 : string -> EventEnvelope -> option error).
Variable ctx : command.Context.

Lemma same_but_logs_refl {A : Type} (r : A * World) : same_but_logs r r.
Proof. unfold same_but_logs. auto. Qed.

Lemma CreateFabric_outcome (code name measureUnit offerStatus : string)
    (w : World) :
  same_but_logs
    (application.CreateFabric (wired o1) ctx code name measureUnit offerStatus w)
    (application.CreateFabric (wired o2) ctx code name measureUnit offerStatus w).
Proof.
  rewrite !CreateFabric_eq. cbv zeta.
  destruct (NewFabric code name measureUnit offerStatus) as [fabric|err];
    [|apply same_but_logs_refl].
  unfold bind.
  cbn [application.commandRepo wired application.NewFabricCommandService
       repo_Save persistence.FabricPostgresRepository].
  destruct (persistence.Save _ fabric w) as [[p|err] w1];
    [|apply same_but_logs_refl].
  destruct (application.create_envelopes p (Events p) w1) as [es w2].
  apply persist_and_forward_outcome.
Qed.

Lemma UpdateFabric_outcome (code name measureUnit offerStatus : string)
    (version : Z) (w : World) :
  same_but_logs
    (application.UpdateFabric (wired o1) ctx code name measureUnit offerStatus
       version w)
    (application.UpdateFabric (wired o2) ctx code name measureUnit offerStatus
       version w).
Proof.
  rewrite !UpdateFabric_eq. cbv zeta. unfold bind.
  cbn [application.commandRepo wired application.NewFabricCommandService
       repo_GetByCode repo_Update persistence.FabricPostgresRepository].
  destruct (persistence.GetByCode _ code w) as [[fabric|err] w1];
    [|apply same_but_logs_refl].
  destruct (UpdateFabric name measureUnit offerStatus version fabric)
    as [fabric' [err|]]; [apply same_but_logs_refl|].
  destruct (persistence.Update _ fabric' w1) as [[err|] w2];
    [apply same_but_logs_refl|].
  destruct (application.update_envelopes fabric' (Events fabric') w2)
    as [es w3].
  apply persist_and_forward_outcome.
Qed.

Lemma DeleteFabric_outcome (code : string) (version : Z) (w : World) :
  same_but_logs
    (application.DeleteFabric (wired o1) ctx code version w)
    (application.DeleteFabric (wired o2) ctx code version w).
Proof.
  rewrite !DeleteFabric_eq. cbv zeta. unfold bind.
  cbn [application.commandRepo wired application.NewFabricCommandService
       repo_GetByCode repo_Delete persistence.FabricPostgresRepository].
  destruct (persistence.GetByCode _ code w) as [[fabric|err] w1];
    [|apply same_but_logs_refl].
  destruct (Delete version fabric) as [fabric' [err|]];
    [apply same_but_logs_refl|].
  destruct (persistence.Delete _ fabric' w1) as [[err|] w2];
    [apply same_but_logs_refl|].
  destruct (application.delete_envelopes fabric' (Events fabric') w2)
    as [es w3].
  apply persist_and_forward_outcome.
Qed.

End PublisherOutcome.

(* ================================================================== *)
(** ** Forwarding to the publisher *)

(** C6.  For the service wired to the Postgres repository, the Postgres
    event store and a publisher that answers anything ([outcome]): a
    CreateFabric, UpdateFabric or DeleteFabric that succeeds has appended
    exactly one envelope to the event store, and the publisher has received
    that envelope, on the channel app.fabric, exactly when IsFromREST holds
    of the call context; otherwise it has received nothing.  A command that
    fails forwards nothing.  When the publisher refuses the envelope the
    failure is in the log, and the value the command returns, both tables
    and the calls the publisher received are the same as with any other
    publisher answer. *)
Theorem C6_forwarded_exactly_when_from_REST
    (outcome : string -> messaging.EventEnvelope -> option error)
    (ctx : command.Context) (w : World) :
  (forall code name measureUnit offerStatus,
     match application.CreateFabric (wired outcome) ctx code name measureUnit
             offerStatus w with
     | (Ok _, w') =>
         exists e,
           events_table w' = events_table w ++ [eventstore.row_of e] /\
           published w' =
             published w ++ (if command.IsFromREST ctx
                             then [("app.fabric", e)] else []) /\
           (command.IsFromREST ctx = true ->
            forall err, outcome "app.fabric" e = Some err ->
              exists msg line,
                In (Log "ERROR" line (Some (Errorf msg err))) (logs w'))
     | (Err _, w') => published w' = published w
     end) /\
  (forall code name measureUnit offerStatus version,
     match application.UpdateFabric (wired outcome) ctx code name measureUnit
             offerStatus version w with
     | (Ok _, w') =>
         exists e,
           events_table w' = events_table w ++ [eventstore.row_of e] /\
           published w' =
             published w ++ (if command.IsFromREST ctx
                             then [("app.fabric", e)] else []) /\
           (command.IsFromREST ctx = true ->
            forall err, outcome "app.fabric" e = Some err ->
              exists msg line,
                In (Log "ERROR" line (Some (Errorf msg err))) (logs w'))
     | (Err _, w') => published w' = published w
     end) /\
  (forall code version,
     match application.DeleteFabric (wired outcome) ctx code version w with
     | (None, w') =>
         exists e,
           events_table w' = events_table w ++ [eventstore.row_of e] /\
           published w' =
             published w ++ (if command.IsFromREST ctx
                             then [("app.fabric", e)] else []) /\
           (command.IsFromREST ctx = true ->
            forall err, outcome "app.fabric" e = Some err ->
              exists msg line,
                In (Log "ERROR" line (Some (Errorf msg err))) (logs w'))
     | (Some _, w') => published w' = published w
     end) /\
  (forall outcome' code name measureUnit offerStatus,
     same_but_logs
       (application.CreateFabric (wired outcome) ctx code name measureUnit
          offerStatus w)
       (application.CreateFabric (wired outcome') ctx code name measureUnit
          offerStatus w)) /\
  (forall outcome' code name measureUnit offerStatus version,
     same_but_logs
       (application.UpdateFabric (wired outcome) ctx code name measureUnit
          offerStatus version w)
       (application.UpdateFabric (wired outcome') ctx code name measureUnit
          offerStatus version w)) /\
  (forall outcome' code version,
     same_but_logs
       (application.DeleteFabric (wired outcome) ctx code version w)
       (application.DeleteFabric (wired outcome') ctx code version w)).
Proof.
  repeat split.
  - intros code name mu os.
    pose proof (CreateFabric_spec outcome ctx code name mu os w) as H.
    destruct (application.CreateFabric _ ctx code name mu os w) as [[f|err] w'].
    + destruct H as (e & He & _ & _ & Hp & Hl). exists e.
      split; [exact He|]. split; [exact Hp|]. eauto.
    + tauto.
  - intros code name mu os v.
    pose proof (UpdateFabric_spec outcome ctx code name mu os v w) as H.
    destruct (application.UpdateFabric _ ctx code name mu os v w)
      as [[f|err] w'].
    + destruct H as (e & He & _ & _ & Hp & Hl). exists e.
      split; [exact He|]. split; [exact Hp|]. eauto.
    + tauto.
  - intros code v.
    pose proof (DeleteFabric_spec outcome ctx code v w) as H.
    destruct (application.DeleteFabric _ ctx code v w) as [[err|] w'].
    + tauto.
    + destruct H as (e & He & _ & Hp & Hl). exists e.
      split; [exact He|]. split; [exact Hp|]. eauto.
  - apply CreateFabric_outcome.
  - apply CreateFabric_outcome.
  - apply CreateFabric_outcome.
  - apply CreateFabric_outcome.
  - apply UpdateFabric_outcome.
  - apply UpdateFabric_outcome.
  - apply UpdateFabric_outcome.
  - apply UpdateFabric_outcome.
  - apply DeleteFabric_outcome.
  - apply DeleteFabric_outcome.
  - apply DeleteFabric_outcome.
  - apply DeleteFabric_outcome.
Qed.

Lemma C6_forwarded_witness :
  let rest := command.WithCommandSource command.Background
                command.CommandSourceREST in
  let event := command.WithCommandSource command.Background
                 command.CommandSourceEvent in
  let w := mkWorld [] [] [] 0 [] [] in
  (exists f w' e,
     application.CreateFabric (wired always_fails) rest "FAB1" "Cotton" "m"
       "new" w = (Ok f, w') /\
     published w' = [("app.fabric", e)] /\
     In (Log "ERROR" "publishing event envelope failed"
           (Some (Errorf "failed to publish fabric event envelope"
                    (DriverError "nats: connection closed")))) (logs w')) /\
  (exists f w',
     application.CreateFabric (wired always_fails) event "FAB1" "Cotton" "m"
       "new" w = (Ok f, w') /\
     published w' = []).
Proof.
  intros rest event w. split.
  - pose proof (proj1 (C6_forwarded_exactly_when_from_REST always_fails rest w)
                  "FAB1" "Cotton" "m" "new") as H.
    destruct (application.CreateFabric (wired always_fails) rest "FAB1"
                "Cotton" "m" "new" w) as [[f|err] w'] eqn:E.
    + destruct H as (e & _ & Hp & _). exists f, w', e.
      split; [reflexivity|]. split; [exact Hp|].
      vm_compute in E. injection E as _ <-. cbn. auto.
    + vm_compute in E. discriminate.
  - pose proof (proj1 (C6_forwarded_exactly_when_from_REST always_fails event w)
                  "FAB1" "Cotton" "m" "new") as H.
    destruct (application.CreateFabric (wired always_fails) event "FAB1"
                "Cotton" "m" "new" w) as [[f|err] w'] eqn:E.
    + destruct H as (e & _ & Hp & _). exists f, w'.
      split; [reflexivity|]. exact Hp.
    + vm_compute in E. discriminate.
Defined.

(** C10.  On a context in which no command source has been set,
    GetCommandSource answers the REST source and IsFromREST answers true.
    Each of the three commands then runs exactly as on the same context
    tagged with the REST source: the same value returned, the same world
    afterwards.  In particular a command that succeeds on the untagged
    context has forwarded its envelope to the publisher. *)
Theorem C10_untagged_context_counts_as_REST
    (ctx : command.Context)
    (outcome : string -> messaging.EventEnvelope -> option error) (w : World) :
  command.Value ctx command.commandSourceKey = None ->
  command.GetCommandSource ctx = command.CommandSourceREST /\
  command.IsFromREST ctx = true /\
  (forall code name measureUnit offerStatus,
     application.CreateFabric (wired outcome) ctx code name measureUnit
       offerStatus w =
     application.CreateFabric (wired outcome)
       (command.WithCommandSource ctx command.CommandSourceREST)
       code name measureUnit offerStatus w /\
     forall f w',
       application.CreateFabric (wired outcome) ctx code name measureUnit
         offerStatus w = (Ok f, w') ->
       exists e, events_table w' = events_table w ++ [eventstore.row_of e] /\
                 published w' = published w ++ [("app.fabric", e)]) /\
  (forall code name measureUnit offerStatus version,
     application.UpdateFabric (wired outcome) ctx code name measureUnit
       offerStatus version w =
     application.UpdateFabric (wired outcome)
       (command.WithCommandSource ctx command.CommandSourceREST)
       code name measureUnit offerStatus version w /\
     forall f w',
       application.UpdateFabric (wired outcome) ctx code name measureUnit
         offerStatus version w = (Ok f, w') ->
       exists e, events_table w' = events_table w ++ [eventstore.row_of e] /\
                 published w' = published w ++ [("app.fabric", e)]) /\
  (forall code version,
     application.DeleteFabric (wired outcome) ctx code version w =
     application.DeleteFabric (wired outcome)
       (command.WithCommandSource ctx command.CommandSourceREST)
       code version w /\
     forall w',
       application.DeleteFabric (wired outcome) ctx code version w
         = (None, w') ->
       exists e, events_table w' = events_table w ++ [eventstore.row_of e] /\
                 published w' = published w ++ [("app.fabric", e)]).
Proof.
  intros Hnone.
  assert (Hsrc : command.GetCommandSource ctx = command.CommandSourceREST).
  { unfold command.GetCommandSource. now rewrite Hnone. }
  assert (Hrest : command.IsFromREST ctx = true).
  { unfold command.IsFromREST. now rewrite Hsrc. }
  assert (Hsame : command.IsFromREST ctx =
                  command.IsFromREST
                    (command.WithCommandSource ctx command.CommandSourceREST)).
  { rewrite Hrest. reflexivity. }
  split; [exact Hsrc|]. split; [exact Hrest|]. split; [|split].
  - intros code name mu os. split.
    + now apply CreateFabric_ctx.
    + intros f w' E.
      pose proof (CreateFabric_spec outcome ctx code name mu os w) as H.
      rewrite E, Hrest in H. destruct H as (e & He & _ & _ & Hp & _). eauto.
  - intros code name mu os v. split.
    + now apply UpdateFabric_ctx.
    + intros f w' E.
      pose proof (UpdateFabric_spec outcome ctx code name mu os v w) as H.
      rewrite E, Hrest in H. destruct H as (e & He & _ & _ & Hp & _). eauto.
  - intros code v. split.
    + now apply DeleteFabric_ctx.
    + intros w' E.
      pose proof (DeleteFabric_spec outcome ctx code v w) as H.
      rewrite E, Hrest in H. destruct H as (e & He & _ & Hp & _). eauto.
Qed.

Lemma C10_untagged_context_witness :
  let w := mkWorld [] [] [] 0 [] [] in
  command.Value command.Background command.commandSourceKey = None /\
  command.IsFromREST command.Background = true /\
  exists f w' e,
    application.CreateFabric (wired never_fails) command.Background
      "FAB1" "Cotton" "m" "new" w = (Ok f, w') /\
    published w' = [("app.fabric", e)].
Proof.
  intros w.
  destruct (C10_untagged_context_counts_as_REST command.Background never_fails
              w eq_refl) as (_ & Hrest & Hcreate & _).
  split; [reflexivity|]. split; [exact Hrest|].
  destruct (Hcreate "FAB1" "Cotton" "m" "new") as [_ H].
  destruct (application.CreateFabric (wired never_fails) command.Background
              "FAB1" "Cotton" "m" "new" w) as [[f|err] w'] eqn:E.
  - destruct (H f w' eq_refl) as (e & _ & Hp). exists f, w', e.
    split; [reflexivity|exact Hp].
  - vm_compute in E. discriminate.
Defined.

(* ================================================================== *)
(** ** The inbound adapter *)

Section Adapter.
Import messaging handler.

Variable h : FabricEventHandler.
Variables (ctx : command.Context) (event : erpFabricEvent) (eventID : string).

Let ctx' := command.WithCommandSource ctx command.CommandSourceEvent.
Let event' := withDefaults event.

(** What the create path returns is decided by what CreateFabric returns. *)
Lemma handleCreateEvent_result (w : World) :
  fst (handleCreateEvent h ctx event eventID w) =
  if negb (Valid (validateCreateFabricEvent validator_New event')) then None
  else match fst (CreateFabric (service h) ctx' (erp_Code event')
                    (erp_Name event') (erp_MeasureUnit event')
                    (erp_OfferStatus event') w) with
       | Ok _ => None
       | Err err =>
         if errors_Is err ErrDuplicateFabricCode then None
         else if is_validation_error err then None
         else Some err
       end.
Proof.
  unfold handleCreateEvent. cbv zeta. fold ctx' event'.
  destruct (negb (Valid _)); [reflexivity|].
  unfold bind.
  destruct (CreateFabric (service h) ctx' _ _ _ _ w) as [[f|err] w1];
    [reflexivity|].
  cbn [fst]. unfold is_validation_error.
  destruct (errors_Is err ErrDuplicateFabricCode); [reflexivity|].
  destruct (_ || _ || _)%bool; reflexivity.
Qed.

Lemma handleUpdateEvent_result (version : Z) (w : World) :
  fst (handleUpdateEvent h ctx event eventID version w) =
  if negb (Valid (validateUpdateFabricEvent validator_New version event'))
  then None
  else match fst (UpdateFabric (service h) ctx' (erp_Code event')
                    (erp_Name event') (erp_MeasureUnit event')
                    (erp_OfferStatus event') (GoInt.sub version 1) w) with
       | Ok _ => None
       | Err err =>
         if errors_Is err ErrRecordNotFound then None
         else if errors_Is err ErrConcurrencyConflict then None
         else if errors_Is err ErrInvalidFabricNameLength then None
         else Some err
       end.
Proof.
  unfold handleUpdateEvent. cbv zeta. fold ctx' event'.
  destruct (negb (Valid _)); [reflexivity|].
  unfold bind.
  destruct (UpdateFabric (service h) ctx' _ _ _ _ _ w) as [[f|err] w1];
    [reflexivity|].
  cbn [fst].
  destruct (errors_Is err ErrRecordNotFound); [reflexivity|].
  destruct (errors_Is err ErrConcurrencyConflict); [reflexivity|].
  destruct (errors_Is err ErrInvalidFabricNameLength); reflexivity.
Qed.

Lemma handleDeleteEvent_result (version : Z) (w : World) :
  fst (handleDeleteEvent h ctx event eventID version w) =
  match fst (DeleteFabric (service h) ctx' (erp_Code event) version w) with
  | None => None
  | Some err =>
    if errors_Is err ErrRecordNotFound then None
    else if errors_Is err ErrConcurrencyConflict then None
    else Some err
  end.
Proof.
  unfold handleDeleteEvent. cbv zeta. fold ctx'.
  unfold bind.
  destruct (DeleteFabric (service h) ctx' _ _ w) as [[err|] w1];
    [|reflexivity].
  cbn [fst].
  destruct (errors_Is err ErrRecordNotFound); [reflexivity|].
  destruct (errors_Is err ErrConcurrencyConflict); reflexivity.
Qed.

End Adapter.

(** C2.  The row (TEST04, version 4, ACTIVE) is stored.  An inbound
    erp.fabric.updated event carrying version 5 reaches UpdateFabric with
    expected version 4 and is applied: the row moves to version 5.  An
    inbound erp.fabric.deleted event carrying version 5 reaches DeleteFabric
    with expected version 5, not 4: the aggregate at version 4 answers
    ErrConcurrencyConflict, which the adapter logs and swallows, and the row
    is left untouched.  For every service behind the interface, what the
    delete path returns is decided by DeleteFabric at the version of the
    envelope itself. *)
Theorem C2_deleted_event_passes_the_version_unchanged :
  let h := handler.mkHandler (handler.of_FabricService (wired never_fails)) in
  let stored := mkFabricRow 4 "TEST04" "Cotton" "m" "new" "ACTIVE" in
  let w := mkWorld [stored] [] [] 0 [] [] in
  let payload := messaging.PayloadErp (messaging.mkErp "TEST04" "Silk" "m" "new") in
  let updated := messaging.mkEnvelope "e-1" "erp.fabric.updated" "TEST04"
                   "fabric" 5 1 0 "" "" "" payload in
  let deleted := messaging.mkEnvelope "e-2" "erp.fabric.deleted" "TEST04"
                   "fabric" 5 1 0 "" "" "" payload in
  (exists w',
     handler.HandleMessage h command.Background "erp.fabric" (Some updated) w
       = (None, w') /\
     fabrics w' = [mkFabricRow 5 "TEST04" "Silk" "m" "new" "ACTIVE"] /\
     logs w' = [Log "INFO" "Fabric updated from event" None]) /\
  (exists w',
     handler.HandleMessage h command.Background "erp.fabric" (Some deleted) w
       = (None, w') /\
     fabrics w' = [stored] /\
     logs w' = [Log "WARN" "Version conflict on delete" None]) /\
  (forall h' ctx event eventID version w0,
     fst (handler.handleDeleteEvent h' ctx event eventID version w0) =
     match fst (handler.DeleteFabric (handler.service h')
                  (command.WithCommandSource ctx command.CommandSourceEvent)
                  (messaging.erp_Code event) version w0) with
     | None => None
     | Some err =>
       if errors_Is err ErrRecordNotFound then None
       else if errors_Is err ErrConcurrencyConflict then None
       else Some err
     end).
Proof.
  cbv zeta. split; [|split].
  - eexists. split; [vm_compute; reflexivity|]. split; reflexivity.
  - eexists. split; [vm_compute; reflexivity|]. split; reflexivity.
  - intros. apply handleDeleteEvent_result.
Qed.

Section AdapterOnService.
Import messaging handler.

Variable outcome : string -> EventEnvelope -> option error.

Let h := mkHandler (of_FabricService (wired outcome)).

Lemma adaptEventToCommand_storage (ctx : command.Context)
    (envelope : EventEnvelope) (w : World) (err : error) :
  fst (adaptEventToCommand h ctx envelope w) = Some err -> storage_failure err.
Proof.
  unfold adaptEventToCommand.
  destruct (decode_payload (Payload_ envelope)) as [ev|]; [|discriminate].
  destruct (EventType envelope =? "erp.fabric.created").
  { rewrite handleCreateEvent_result.
    destruct (negb (Valid _)); [discriminate|].
    cbn [service h of_FabricService CreateFabric].
    match goal with
    | |- context [application.CreateFabric _ ?c ?a1 ?a2 ?a3 ?a4 w] =>
        pose proof (CreateFabric_spec outcome c a1 a2 a3 a4 w) as H;
        destruct (application.CreateFabric (wired outcome) c a1 a2 a3 a4 w)
          as [[f|e] w1]
    end; cbn [fst]; [discriminate|].
    destruct H as (_ & _ & H). intros Hres.
    destruct (errors_Is e ErrDuplicateFabricCode) eqn:E1; [discriminate|].
    destruct (is_validation_error e) eqn:E2; [discriminate|].
    injection Hres as <-.
    destruct H as [H|[H|H]]; [discriminate|discriminate|exact H]. }
  destruct (EventType envelope =? "erp.fabric.updated").
  { rewrite handleUpdateEvent_result.
    destruct (negb (Valid _)); [discriminate|].
    cbn [service h of_FabricService UpdateFabric].
    match goal with
    | |- context [application.UpdateFabric _ ?c ?a1 ?a2 ?a3 ?a4 ?v w] =>
        pose proof (UpdateFabric_spec outcome c a1 a2 a3 a4 v w) as H;
        destruct (application.UpdateFabric (wired outcome) c a1 a2 a3 a4 v w)
          as [[f|e] w1]
    end; cbn [fst]; [discriminate|].
    destruct H as (_ & _ & H). intros Hres.
    destruct (errors_Is e ErrRecordNotFound) eqn:E1; [discriminate|].
    destruct (errors_Is e ErrConcurrencyConflict) eqn:E2; [discriminate|].
    destruct (errors_Is e ErrInvalidFabricNameLength) eqn:E3; [discriminate|].
    injection Hres as <-.
    destruct H as [H|[H|[H|H]]]; [discriminate|discriminate|discriminate|exact H]. }
  destruct (EventType envelope =? "erp.fabric.deleted").
  { rewrite handleDeleteEvent_result.
    cbn [service h of_FabricService DeleteFabric].
    match goal with
    | |- context [application.DeleteFabric _ ?c ?a1 ?v w] =>
        pose proof (DeleteFabric_spec outcome c a1 v w) as H;
        destruct (application.DeleteFabric (wired outcome) c a1 v w)
          as [[e|] w1]
    end; cbn [fst]; [|discriminate].
    destruct H as (_ & _ & H). intros Hres.
    destruct (errors_Is e ErrRecordNotFound) eqn:E1; [discriminate|].
    destruct (errors_Is e ErrConcurrencyConflict) eqn:E2; [discriminate|].
    injection Hres as <-.
    destruct H as [H|[H|H]]; [discriminate|discriminate|exact H]. }
  discriminate.
Qed.

Lemma HandleMessage_storage (ctx : command.Context) (subject : string)
    (payload : option EventEnvelope) (w : World) (err : error) :
  fst (HandleMessage h ctx subject payload w) = Some err -> storage_failure err.
Proof.
  unfold HandleMessage.
  destruct payload as [envelope|]; [|discriminate].
  destruct (Validate envelope); [discriminate|].
  apply adaptEventToCommand_storage.
Qed.

End AdapterOnService.

(** C7.  The adapter's answer to the transport, for whatever service
    stands behind the interface.  When CreateFabric fails with
    ErrDuplicateFabricCode the create path returns nil; when UpdateFabric or
    DeleteFabric fails with ErrRecordNotFound or with the aggregate's
    ErrConcurrencyConflict the update and delete paths return nil: the
    message is acknowledged.  For an event that passes the adapter's own
    validation, every error of the service that is none of these (nor one of
    the validation errors of the aggregate) is returned as it is, and a
    failure of the storage layer is always returned.  The conflict error of
    the event store is such a failure: it is not the aggregate's
    ErrConcurrencyConflict, and an update, create or delete that fails with
    it is returned for redelivery.  With the service of this repository
    behind the adapter, the errors that come back from HandleMessage are the
    failures of the storage layer and nothing else: errors.Is finds none of
    the domain errors in them. *)
Theorem C7_adapter_acknowledges_domain_errors_and_returns_the_rest :
  (forall h ctx event eventID w err w1,
     let ctx' := command.WithCommandSource ctx command.CommandSourceEvent in
     let event' := handler.withDefaults event in
     let valid := handler.Valid
                    (handler.validateCreateFabricEvent handler.validator_New
                       event') in
     handler.CreateFabric (handler.service h) ctx'
       (messaging.erp_Code event') (messaging.erp_Name event')
       (messaging.erp_MeasureUnit event') (messaging.erp_OfferStatus event') w
       = (Err err, w1) ->
     (errors_Is err ErrDuplicateFabricCode = true ->
      fst (handler.handleCreateEvent h ctx event eventID w) = None) /\
     (valid = true ->
      errors_Is err ErrDuplicateFabricCode = false ->
      is_validation_error err = false ->
      fst (handler.handleCreateEvent h ctx event eventID w) = Some err) /\
     (valid = true -> storage_failure err ->
      fst (handler.handleCreateEvent h ctx event eventID w) = Some err)) /\
  (forall h ctx event eventID version w err w1,
     let ctx' := command.WithCommandSource ctx command.CommandSourceEvent in
     let event' := handler.withDefaults event in
     let valid := handler.Valid
                    (handler.validateUpdateFabricEvent handler.validator_New
                       version event') in
     handler.UpdateFabric (handler.service h) ctx'
       (messaging.erp_Code event') (messaging.erp_Name event')
       (messaging.erp_MeasureUnit event') (messaging.erp_OfferStatus event')
       (GoInt.sub version 1) w = (Err err, w1) ->
     (errors_Is err ErrRecordNotFound = true \/
      errors_Is err ErrConcurrencyConflict = true ->
      fst (handler.handleUpdateEvent h ctx event eventID version w) = None) /\
     (valid = true ->
      errors_Is err ErrRecordNotFound = false ->
      errors_Is err ErrConcurrencyConflict = false ->
      errors_Is err ErrInvalidFabricNameLength = false ->
      fst (handler.handleUpdateEvent h ctx event eventID version w)
        = Some err) /\
     (valid = true -> storage_failure err ->
      fst (handler.handleUpdateEvent h ctx event eventID version w)
        = Some err)) /\
  (forall h ctx event eventID version w err w1,
     let ctx' := command.WithCommandSource ctx command.CommandSourceEvent in
     handler.DeleteFabric (handler.service h) ctx'
       (messaging.erp_Code event) version w = (Some err, w1) ->
     (errors_Is err ErrRecordNotFound = true \/
      errors_Is err ErrConcurrencyConflict = true ->
      fst (handler.handleDeleteEvent h ctx event eventID version w) = None) /\
     (errors_Is err ErrRecordNotFound = false ->
      errors_Is err ErrConcurrencyConflict = false ->
      fst (handler.handleDeleteEvent h ctx event eventID version w)
        = Some err) /\
     (storage_failure err ->
      fst (handler.handleDeleteEvent h ctx event eventID version w)
        = Some err)) /\
  (forall msg,
     storage_failure (Errorf msg eventstore.ErrConcurrencyConflict) /\
     errors_Is (Errorf msg eventstore.ErrConcurrencyConflict)
       ErrConcurrencyConflict = false) /\
  (forall outcome ctx subject payload w err,
     fst (handler.HandleMessage
            (handler.mkHandler (handler.of_FabricService (wired outcome)))
            ctx subject payload w) = Some err ->
     storage_failure err /\
     errors_Is err ErrDuplicateFabricCode = false /\
     errors_Is err ErrRecordNotFound = false /\
     errors_Is err ErrConcurrencyConflict = false /\
     errors_Is err ErrFabricDeleted = false /\
     is_validation_error err = false).
Proof.
  split; [|split; [|split; [|split]]].
  - intros h ctx event eventID w err w1 ctx' event' valid Hsvc.
    rewrite handleCreateEvent_result.
    fold ctx' event' valid. rewrite Hsvc. cbn [fst].
    split; [|split].
    + intros ->. now destruct valid.
    + intros -> -> ->. reflexivity.
    + intros -> Hs.
      destruct (storage_failure_not_domain err Hs)
        as (H1 & H2 & H3 & H4 & H5 & H6 & H7).
      unfold is_validation_error. now rewrite H1, H2, H3, H5.
  - intros h ctx event eventID version w err w1 ctx' event' valid Hsvc.
    rewrite handleUpdateEvent_result.
    fold ctx' event' valid. rewrite Hsvc. cbn [fst].
    split; [|split].
    + intros [Hd|Hd]; rewrite Hd; destruct valid; try reflexivity.
      now destruct (errors_Is err ErrRecordNotFound).
    + intros -> -> -> ->. reflexivity.
    + intros -> Hs.
      destruct (storage_failure_not_domain err Hs)
        as (H1 & H2 & H3 & H4 & H5 & H6 & H7).
      now rewrite H3, H4, H6.
  - intros h ctx event eventID version w err w1 ctx' Hsvc.
    rewrite handleDeleteEvent_result.
    fold ctx'. rewrite Hsvc. cbn [fst].
    split; [|split].
    + intros [Hd|Hd]; rewrite Hd; [reflexivity|].
      now destruct (errors_Is err ErrRecordNotFound).
    + intros -> ->. reflexivity.
    + intros Hs.
      destruct (storage_failure_not_domain err Hs)
        as (H1 & H2 & H3 & H4 & H5 & H6 & H7).
      now rewrite H4, H6.
  - intros msg. split; [exact I|reflexivity].
  - intros outcome ctx subject payload w err H.
    apply HandleMessage_storage in H. split; [exact H|].
    destruct (storage_failure_not_domain err H)
      as (H1 & H2 & H3 & H4 & H5 & H6 & H7).
    unfold is_validation_error. rewrite H1, H2, H3. auto.
Qed.

Lemma C7_adapter_witness :
  let h := handler.mkHandler (handler.of_FabricService (wired never_fails)) in
  let stored := mkFabricRow 1 "FAB1" "Cotton" "m" "new" "ACTIVE" in
  let event := messaging.mkErp "FAB1" "Silk" "m" "new" in
  let unknown := messaging.mkErp "FAB9" "Silk" "m" "new" in
  let created := messaging.mkEnvelope "e-1" "erp.fabric.created" "FAB1"
                   "fabric" 1 1 0 "" "" "" (messaging.PayloadErp event) in
  let w := mkWorld [stored] [] [] 0 [] [] in
  let down := mkWorld [stored] [] [Some (FaultConn "connection refused")]
                0 [] [] in
  let refused := Errorf "failed to get fabric by code"
                   (DriverError "connection refused") in
  fst (handler.handleCreateEvent h command.Background event "e-1" w) = None /\
  fst (handler.handleUpdateEvent h command.Background unknown "e-2" 2 w)
    = None /\
  fst (handler.handleDeleteEvent h command.Background event "e-3" 3 w)
    = None /\
  fst (handler.handleUpdateEvent h command.Background event "e-4" 2 down)
    = Some refused /\
  fst (handler.handleDeleteEvent h command.Background event "e-5" 1 down)
    = Some refused /\
  exists err,
    fst (handler.HandleMessage h command.Background "erp.fabric" (Some created)
           down) = Some err /\
    storage_failure err.
Proof.
  intros h stored event unknown created w down refused.
  pose (ctx' := command.WithCommandSource command.Background
                  command.CommandSourceEvent).
  split; [|split; [|split; [|split; [|split]]]].
  - destruct (handler.CreateFabric (handler.service h) ctx'
                "FAB1" "Silk" "m" "new" w) as [[f|err] w1] eqn:E.
    + vm_compute in E. discriminate.
    + apply (proj1 (proj1
               C7_adapter_acknowledges_domain_errors_and_returns_the_rest
               h command.Background event "e-1" w err w1 E)).
      vm_compute in E. injection E as <- _. reflexivity.
  - destruct (handler.UpdateFabric (handler.service h) ctx'
                "FAB9" "Silk" "m" "new" (GoInt.sub 2 1) w)
      as [[f|err] w1] eqn:E.
    + vm_compute in E. discriminate.
    + apply (proj1 (proj1 (proj2
               C7_adapter_acknowledges_domain_errors_and_returns_the_rest)
               h command.Background unknown "e-2" 2 w err w1 E)).
      vm_compute in E. injection E as <- _. left. reflexivity.
  - destruct (handler.DeleteFabric (handler.service h) ctx' "FAB1" 3 w)
      as [[err|] w1] eqn:E.
    + apply (proj1 (proj1 (proj2 (proj2
               C7_adapter_acknowledges_domain_errors_and_returns_the_rest))
               h command.Background event "e-3" 3 w err w1 E)).
      vm_compute in E. injection E as <- _. right. reflexivity.
    + vm_compute in E. discriminate.
  - destruct (handler.UpdateFabric (handler.service h) ctx'
                "FAB1" "Silk" "m" "new" (GoInt.sub 2 1) down)
      as [[f|err] w1] eqn:E.
    + vm_compute in E. discriminate.
    + assert (Herr : err = refused)
        by (vm_compute in E; injection E as <- _; reflexivity).
      rewrite <- Herr.
      apply (proj2 (proj2 (proj1 (proj2
               C7_adapter_acknowledges_domain_errors_and_returns_the_rest)
               h command.Background event "e-4" 2 down err w1 E)));
        [reflexivity|rewrite Herr; exact I].
  - destruct (handler.DeleteFabric (handler.service h) ctx' "FAB1" 1 down)
      as [[err|] w1] eqn:E.
    + assert (Herr : err = refused)
        by (vm_compute in E; injection E as <- _; reflexivity).
      rewrite <- Herr.
      apply (proj2 (proj2 (proj1 (proj2 (proj2
               C7_adapter_acknowledges_domain_errors_and_returns_the_rest))
               h command.Background event "e-5" 1 down err w1 E))).
      rewrite Herr. exact I.
    + vm_compute in E. discriminate.
  - destruct (fst (handler.HandleMessage h command.Background "erp.fabric"
                     (Some created) down)) as [err|] eqn:E.
    + exists err. split; [reflexivity|].
      apply (proj2 (proj2 (proj2 (proj2
               C7_adapter_acknowledges_domain_errors_and_returns_the_rest)))
               never_fails command.Background "erp.fabric" (Some created) down
               err E).
    + vm_compute in E. discriminate.
Defined.

(** The claim as written does not hold for the conflict error of the event
    store.  The fabrics table holds (FAB1, version 1, ACTIVE) and the events
    table already holds a row for (FAB1, version 2).  An inbound
    erp.fabric.updated event with version 2 passes validation and reaches
    UpdateFabric with expected version 1; the row is updated, the append to
    the event store violates the uniqueness of (aggregate_id,
    aggregate_version), and the service fails with the event store's
    ErrConcurrencyConflict.  The adapter does not acknowledge: HandleMessage
    returns the error, with the fabrics row already at version 2. *)
Lemma C7_event_store_conflict_is_returned :
  let h := handler.mkHandler (handler.of_FabricService (wired never_fails)) in
  let stored := mkFabricRow 1 "FAB1" "Cotton" "m" "new" "ACTIVE" in
  let clash := mkEventRow "e-0" "FAB1" "Fabric" "app.fabric.updated" 2
                 (messaging.PayloadEvent (FabricUpdated "FAB1" "Wool" "m" "new" 2))
                 0 "" "" in
  let event := messaging.mkErp "FAB1" "Silk" "m" "new" in
  let updated := messaging.mkEnvelope "e-1" "erp.fabric.updated" "FAB1"
                   "fabric" 2 1 0 "" "" "" (messaging.PayloadErp event) in
  let w := mkWorld [stored] [clash] [] 0 [] [] in
  let conflict := Errorf "failed to save update event to event store"
                    eventstore.ErrConcurrencyConflict in
  fst (handler.UpdateFabric (handler.service h)
         (command.WithCommandSource command.Background
            command.CommandSourceEvent)
         "FAB1" "Silk" "m" "new" 1 w) = Err conflict /\
  fst (handler.HandleMessage h command.Background "erp.fabric" (Some updated) w)
    = Some conflict /\
  fabrics (snd (handler.HandleMessage h command.Background "erp.fabric"
                  (Some updated) w))
    = [mkFabricRow 2 "FAB1" "Silk" "m" "new" "ACTIVE"] /\
  events_table (snd (handler.HandleMessage h command.Background "erp.fabric"
                       (Some updated) w))
    = [clash].
Proof.
  cbv zeta. repeat split; vm_compute; reflexivity.
Qed.

(* ================================================================== *)
(** ** Delete through the service *)

Lemma filter_none {A} (p : A -> bool) (l : list A) :
  (forall x, In x l -> p x = false) -> filter p l = [].
Proof.
  induction l as [|a l IH]; intros H; [reflexivity|].
  cbn. rewrite (H a (or_introl eq_refl)). apply IH.
  intros x Hx. apply H. now right.
Qed.

Lemma unique_code_row (t : list FabricRow) (r r' : FabricRow) :
  NoDup (map row_code t) -> In r t -> In r' t -> row_code r = row_code r' ->
  r = r'.
Proof.
  induction t as [|a t IH]; intros Hnd Hr Hr' Hc; [contradiction|].
  cbn in Hnd. inversion Hnd as [|? ? Hnotin Hnd']; subst.
  destruct Hr as [<-|Hr], Hr' as [<-|Hr'].
  - reflexivity.
  - exfalso. apply Hnotin. rewrite Hc. now apply in_map.
  - exfalso. apply Hnotin. rewrite <- Hc. now apply in_map.
  - now apply IH.
Qed.

(** The repository's Delete affects no row when no stored row of that code
    carries the version of the aggregate it is given. *)
Lemma persistence_Delete_without_match (ctx : command.Context)
    (fabric : Fabric) (w : World) :
  (forall r, In r (fabrics w) -> row_code r = Code fabric ->
             row_version r <> Version fabric) ->
  fabrics (snd (persistence.Delete ctx fabric w)) = fabrics w /\
  exists err, fst (persistence.Delete ctx fabric w) = Some err /\
              (next_outcome (driver w) = None ->
               persistence.fabrics_active_code_idx (fabrics w) = true ->
               err = ErrRecordNotFound).
Proof.
  intros Hno.
  unfold persistence.Delete, persistence.pool_Exec, persistence.Exec,
    persistence.sql_update, bind, ret.
  rewrite driver_call_eq.
  assert (Hf : filter (fun r => (row_code r =? Code fabric)
                                && (row_version r =? Version fabric)%Z)
                      (fabrics w) = []).
  { apply filter_none. intros r Hr.
    destruct (String.eqb_spec (row_code r) (Code fabric)) as [Hc|]; [|reflexivity].
    cbn. apply Z.eqb_neq. now apply Hno. }
  assert (Hm : map (fun r => if (row_code r =? Code fabric)
                                && (row_version r =? Version fabric)%Z
                             then mkFabricRow (row_version r) (row_code r)
                                    (row_name r) (row_measure_unit r)
                                    (row_offer_status r) StatusDeleted
                             else r) (fabrics w) = fabrics w).
  { rewrite <- (map_id (fabrics w)) at 2. apply map_ext_in. intros r Hr.
    destruct (String.eqb_spec (row_code r) (Code fabric)) as [Hc|]; [|reflexivity].
    cbn. destruct (Z.eqb_spec (row_version r) (Version fabric)) as [Hv|];
      [|reflexivity].
    exfalso. now apply (Hno r Hr Hc). }
  rewrite Hf, Hm. cbn [fst snd List.length Z.of_nat].
  destruct (next_outcome (driver w)) as [e|].
  - cbn. split; [now destruct w|]. eexists. split; [reflexivity|discriminate].
  - cbn [with_driver driver fabrics].
    destruct (persistence.fabrics_active_code_idx (fabrics w)); cbn.
    + split; [reflexivity|]. eauto.
    + split; [reflexivity|]. eexists. split; [reflexivity|]. discriminate.
Qed.

(** While every code is stored once and the stored versions are ints,
    DeleteFabric cannot succeed: after the aggregate's Delete has raised the
    version, the repository looks for a row that already carries it. *)
Lemma DeleteFabric_cannot_succeed
    (outcome : string -> messaging.EventEnvelope -> option error)
    (ctx : command.Context) (code : string) (version : Z) (w : World) :
  NoDup (map row_code (fabrics w)) ->
  (forall r, In r (fabrics w) -> GoInt.in_range (row_version r)) ->
  match application.DeleteFabric (wired outcome) ctx code version w with
  | (r, w') => fabrics w' = fabrics w /\ r <> None
  end.
Proof.
  intros Hnd Hrange.
  rewrite DeleteFabric_eq. cbv zeta. unfold bind at 1.
  cbn [application.commandRepo wired application.NewFabricCommandService
       repo_GetByCode repo_Delete persistence.FabricPostgresRepository].
  set (ctx1 := command.tracer_Start ctx "fabric.service.delete").
  destruct (GetByCode_spec ctx1 code w) as [Hw Hr].
  destruct (persistence.GetByCode ctx1 code w) as [[fabric|gerr] w1];
    cbn [fst snd] in *; subst w1.
  2:{ unfold ret. cbn. split; [reflexivity|discriminate]. }
  destruct Hr as (Hact & Hcode & Hevs & r & Hin & ->).
  rewrite (Delete_of_active _ _ Hact).
  destruct (negb (Version (persistence.scan r) =? version)%Z).
  { unfold ret. cbn. split; [reflexivity|discriminate]. }
  unfold bind at 1.
  match goal with
  | |- context [persistence.Delete ctx1 ?f ?w0] =>
      destruct (persistence_Delete_without_match ctx1 f w0)
        as [Hsame (err & Herr & _)]
  end.
  { cbn. intros r' Hr' Hc Hv.
    assert (r' = r) by (now apply (unique_code_row (fabrics w))).
    subst r'. now apply (add_neq (row_version r) (Hrange r Hin)). }
  destruct (persistence.Delete ctx1 _ _) as [[derr|] w1];
    cbn [fst snd] in *; [|discriminate].
  unfold bind, logger, ret. cbn. split; [exact Hsame|discriminate].
Qed.

(* ================================================================== *)
(** * Further properties *)

(** ** The aggregate, continued *)

Lemma call_keeps_code (m : Mutation) (f : Fabric) :
  Code (fst (call m f)) = Code f.
Proof.
  pose proof (call_step m f) as H.
  destruct m as [n mu os v|v|n mu os v]; cbn [call] in *.
  - destruct (UpdateFabric_cases n mu os v f) as [[e ->]|(_ & _ & _ & ->)];
      reflexivity.
  - destruct (Delete_cases v f) as [[e ->]|(_ & _ & ->)]; reflexivity.
  - destruct (String.eqb_spec (Status f) StatusActive) as [Ha|Ha].
    + rewrite Reactivate_active by exact Ha.
      destruct (UpdateFabric_cases n mu os v f) as [[e ->]|(_ & _ & _ & ->)];
        reflexivity.
    + destruct (Reactivate_inactive_cases n mu os v f Ha)
        as [[e ->]|(_ & _ & ->)]; reflexivity.
Qed.

Lemma call_keeps_name_and_status (m : Mutation) (f : Fabric) :
  validateName (Name f) = None ->
  Status f = StatusActive \/ Status f = StatusDeleted ->
  validateName (Name (fst (call m f))) = None /\
  (Status (fst (call m f)) = StatusActive \/
   Status (fst (call m f)) = StatusDeleted).
Proof.
  intros Hn Hs.
  destruct m as [n mu os v|v|n mu os v]; cbn [call].
  - destruct (UpdateFabric_cases n mu os v f)
      as [[e ->]|(_ & _ & Hv & ->)]; cbn; auto.
  - destruct (Delete_cases v f) as [[e ->]|(_ & _ & ->)]; cbn; auto.
  - destruct (String.eqb_spec (Status f) StatusActive) as [Ha|Ha].
    + rewrite Reactivate_active by exact Ha.
      destruct (UpdateFabric_cases n mu os v f)
        as [[e ->]|(_ & _ & Hv & ->)]; cbn; auto.
    + destruct (Reactivate_inactive_cases n mu os v f Ha)
        as [[e ->]|(_ & Hv & ->)]; cbn; auto.
Qed.

(** X1.  An aggregate made by NewFabric keeps, through any run of
    UpdateFabric, Delete and Reactivate calls (successful or not), the code
    it was created with, a name of length 1 to 250, and a status that is
    ACTIVE or DELETED. *)
Theorem X1_aggregate_invariants
    (code name measureUnit offerStatus : string) (f : Fabric)
    (ms : list Mutation) :
  NewFabric code name measureUnit offerStatus = Ok f ->
  Code (fst (run ms f)) = code /\
  code_in_bounds (Code (fst (run ms f))) /\
  code_in_pattern (Code (fst (run ms f))) /\
  name_in_bounds (Name (fst (run ms f))) /\
  (Status (fst (run ms f)) = StatusActive \/
   Status (fst (run ms f)) = StatusDeleted).
Proof.
  intros Hnew.
  assert (Hcode : code_in_bounds code /\ code_in_pattern code).
  { pose proof (validateCode_spec code) as H. unfold NewFabric in Hnew.
    destruct (validateCode code); [discriminate|exact H]. }
  apply NewFabric_Ok_inv in Hnew. destruct Hnew as [-> Hname].
  set (f := mkFabric code name measureUnit offerStatus StatusActive 1
              [FabricCreated code name measureUnit offerStatus 1]).
  assert (Hinv : Code f = code /\ validateName (Name f) = None /\
                 (Status f = StatusActive \/ Status f = StatusDeleted)).
  { cbn. auto. }
  clearbody f. revert f Hinv.
  assert (Hgen : forall f,
             Code f = code /\ validateName (Name f) = None /\
             (Status f = StatusActive \/ Status f = StatusDeleted) ->
             Code (fst (run ms f)) = code /\
             validateName (Name (fst (run ms f))) = None /\
             (Status (fst (run ms f)) = StatusActive \/
              Status (fst (run ms f)) = StatusDeleted)).
  { induction ms as [|m rest IH]; intros f Hinv; [exact Hinv|].
    cbn [run].
    pose proof (call_keeps_code m f) as Hc.
    destruct Hinv as (Hcd & Hn & Hs).
    pose proof (call_keeps_name_and_status m f Hn Hs) as [Hn' Hs'].
    destruct (call m f) as [f' [e|]]; cbn [fst] in *.
    - apply IH. rewrite Hc. auto.
    - specialize (IH f'). destruct (run rest f') as [f'' n]. cbn [fst] in *.
      apply IH. rewrite Hc. auto. }
  intros f Hinv. destruct (Hgen f Hinv) as (Hc & Hn & Hs).
  rewrite Hc. split; [reflexivity|]. split; [tauto|]. split; [tauto|].
  split; [|exact Hs].
  pose proof (validateName_spec (Name (fst (run ms f)))) as H.
  now rewrite Hn in H.
Qed.

Lemma X1_aggregate_invariants_witness :
  let f := mkFabric "FAB1" "Cotton" "m" "new" StatusActive 1
             [FabricCreated "FAB1" "Cotton" "m" "new" 1] in
  let ms := [CallUpdateFabric "" "m" "new" 1; CallDelete 1;
             CallUpdateFabric "Silk" "m" "new" 2;
             CallReactivate "Linen" "cm" "old" 2] in
  NewFabric "FAB1" "Cotton" "m" "new" = Ok f /\
  Code (fst (run ms f)) = "FAB1" /\
  name_in_bounds (Name (fst (run ms f))).
Proof.
  intros f ms.
  destruct (X1_aggregate_invariants "FAB1" "Cotton" "m" "new" f ms eq_refl)
    as (Hc & _ & _ & Hn & _).
  split; [reflexivity|]. split; [exact Hc|exact Hn].
Defined.

Lemma call_event (m : Mutation) (f : Fabric) :
  match call m f with
  | (f', None) =>
      exists e, events f' = events f ++ [e] /\
                event_version e = Version f' /\ event_code e = Code f
  | (_, Some _) => True
  end.
Proof.
  destruct m as [n mu os v|v|n mu os v]; cbn [call].
  - destruct (UpdateFabric_cases n mu os v f) as [[e ->]|(_ & _ & _ & ->)];
      cbn; eauto.
  - destruct (Delete_cases v f) as [[e ->]|(_ & _ & ->)]; cbn; eauto.
  - destruct (String.eqb_spec (Status f) StatusActive) as [Ha|Ha].
    + rewrite Reactivate_active by exact Ha.
      destruct (UpdateFabric_cases n mu os v f) as [[e ->]|(_ & _ & _ & ->)];
        cbn; eauto.
    + destruct (Reactivate_inactive_cases n mu os v f Ha)
        as [[e ->]|(_ & _ & ->)]; cbn; eauto.
Qed.

Lemma versions_up_to_S (n : nat) :
  versions_up_to (S n) = versions_up_to n ++ [Z.of_nat (S n)].
Proof.
  unfold versions_up_to. rewrite seq_S, map_app. reflexivity.
Qed.

Lemma run_event_log (code : string) (ms : list Mutation) : forall f,
  Version f = Z.of_nat (List.length (events f)) ->
  map event_version (events f) = versions_up_to (List.length (events f)) ->
  Forall (fun e => event_code e = code) (events f) ->
  Code f = code ->
  Version f + Z.of_nat (snd (run ms f)) <= GoInt.max_int ->
  Version (fst (run ms f)) = Z.of_nat (List.length (events (fst (run ms f)))) /\
  map event_version (events (fst (run ms f)))
    = versions_up_to (List.length (events (fst (run ms f)))) /\
  Forall (fun e => event_code e = code) (events (fst (run ms f))).
Proof.
  induction ms as [|m rest IH]; intros f Hv Hl Hc Hcode Hmax; [cbn; auto|].
  cbn [run] in *.
  pose proof (call_step m f) as Hs.
  pose proof (call_event m f) as He.
  pose proof (call_keeps_code m f) as Hk.
  destruct (call m f) as [f' [e|]]; cbn [fst] in Hk.
  - subst f'. now apply IH.
  - destruct Hs as [Hv' _]. destruct He as (e & Hev & Hver & Hcd).
    destruct (run rest f') as [f'' n] eqn:Hr. cbn [fst snd] in *.
    assert (Hv1 : Version f' = Version f + 1).
    { rewrite Hv'. apply add_succ. unfold GoInt.min_int. lia. }
    assert (Hlen : List.length (events f') = S (List.length (events f))).
    { rewrite Hev, length_app. cbn. lia. }
    specialize (IH f'). rewrite Hr in IH. cbn [fst snd] in IH. apply IH.
    + rewrite Hv1, Hlen, Hv. lia.
    + rewrite Hlen, versions_up_to_S, Hev, map_app, Hl. cbn [map].
      rewrite Hver, Hv1, Hv. do 3 f_equal. lia.
    + rewrite Hev. apply Forall_app. split; [exact Hc|].
      constructor; [congruence|constructor].
    + congruence.
    + lia.
Qed.

Lemma run_le_length (ms : list Mutation) : forall f,
  (snd (run ms f) <= List.length ms)%nat.
Proof.
  induction ms as [|m rest IH]; intros f; cbn [run]; [cbn; lia|].
  destruct (call m f) as [f' [e|]].
  - specialize (IH f'). cbn. lia.
  - specialize (IH f'). destruct (run rest f') as [f'' n]. cbn in *. lia.
Qed.

(** X2.  The pending events of an aggregate made by NewFabric and taken
    through any run of UpdateFabric, Delete and Reactivate calls carry the
    versions 1, 2, ..., n in this order, all carry the aggregate's code, and
    the aggregate's version is their number n (the run being shorter than
    the largest int). *)
Theorem X2_pending_events_are_numbered (code name measureUnit offerStatus : string)
    (f : Fabric) (ms : list Mutation) :
  NewFabric code name measureUnit offerStatus = Ok f ->
  Z.of_nat (List.length ms) < GoInt.max_int ->
  map event_version (Events (fst (run ms f)))
    = versions_up_to (List.length (Events (fst (run ms f)))) /\
  Forall (fun e => event_code e = code) (Events (fst (run ms f))) /\
  Version (fst (run ms f))
    = Z.of_nat (List.length (Events (fst (run ms f)))).
Proof.
  intros Hnew Hlen. apply NewFabric_Ok_inv in Hnew. destruct Hnew as [-> _].
  unfold Events.
  pose proof (run_le_length ms
    (mkFabric code name measureUnit offerStatus StatusActive 1
       [FabricCreated code name measureUnit offerStatus 1])) as Hle.
  destruct (run_event_log code ms
    (mkFabric code name measureUnit offerStatus StatusActive 1
       [FabricCreated code name measureUnit offerStatus 1]))
    as (Hv & Hl & Hc); cbn [Version events Code List.length].
  - reflexivity.
  - reflexivity.
  - constructor; [reflexivity|constructor].
  - reflexivity.
  - lia.
  - auto.
Qed.

Lemma X2_pending_events_witness :
  map event_version
    (Events (fst (run [CallUpdateFabric "Linen" "m" "ON"%string 1;
                       CallDelete 1; CallDelete 2]
                   (mkFabric "AB1" "Cotton" "m" "ON" StatusActive 1
                      [FabricCreated "AB1" "Cotton" "m" "ON" 1]))))
    = [1; 2; 3].
Proof.
  pose proof (X2_pending_events_are_numbered "AB1" "Cotton" "m" "ON"
    (mkFabric "AB1" "Cotton" "m" "ON" StatusActive 1
       [FabricCreated "AB1" "Cotton" "m" "ON" 1])
    [CallUpdateFabric "Linen" "m" "ON"%string 1; CallDelete 1; CallDelete 2]
    eq_refl eq_refl) as [H _].
  exact H.
Defined.

(** X3.  The life cycle of an aggregate whose status is ACTIVE or DELETED:
    a call returns nil only if it carries the aggregate's current version;
    a successful UpdateFabric needs and keeps ACTIVE, a successful Delete
    needs ACTIVE and leaves DELETED, a successful Reactivate leaves ACTIVE;
    and on a DELETED aggregate UpdateFabric and Delete return
    ErrFabricDeleted whatever their arguments. *)
Theorem X3_life_cycle (m : Mutation) (f : Fabric) :
  Status f = StatusActive \/ Status f = StatusDeleted ->
  (forall f', call m f = (f', None) ->
     expected_version m = Version f /\
     match m with
     | CallUpdateFabric _ _ _ _ =>
         Status f = StatusActive /\ Status f' = StatusActive
     | CallDelete _ =>
         Status f = StatusActive /\ Status f' = StatusDeleted
     | CallReactivate _ _ _ _ => Status f' = StatusActive
     end) /\
  (Status f = StatusDeleted ->
     match m with
     | CallReactivate _ _ _ _ => True
     | _ => call m f = (f, Some ErrFabricDeleted)
     end).
Proof.
  intros Hst. split.
  - intros f' Hcall.
    destruct m as [n mu os v|v|n mu os v]; cbn [call expected_version] in *.
    + destruct (UpdateFabric_cases n mu os v f)
        as [[e He]|(Hnd & Hv & _ & He)]; rewrite He in Hcall;
        [discriminate|].
      injection Hcall as <-. cbn [Status].
      destruct Hst as [Ha|Hd]; [auto|contradiction].
    + destruct (Delete_cases v f) as [[e He]|(Hnd & Hv & He)];
        rewrite He in Hcall; [discriminate|].
      injection Hcall as <-. cbn [Status].
      destruct Hst as [Ha|Hd]; [auto|contradiction].
    + destruct (String.eqb_spec (Status f) StatusActive) as [Ha|Ha].
      * rewrite Reactivate_active in Hcall by exact Ha.
        destruct (UpdateFabric_cases n mu os v f)
          as [[e He]|(Hnd & Hv & _ & He)]; rewrite He in Hcall;
          [discriminate|].
        injection Hcall as <-. cbn [Status]. auto.
      * destruct (Reactivate_inactive_cases n mu os v f Ha)
          as [[e He]|(Hv & _ & He)]; rewrite He in Hcall; [discriminate|].
        injection Hcall as <-. cbn [Status]. auto.
  - intros Hd. destruct m as [n mu os v|v|n mu os v]; cbn [call]; [| |exact I].
    + unfold UpdateFabric. rewrite Hd. reflexivity.
    + unfold Delete. rewrite Hd. reflexivity.
Qed.

Lemma X3_life_cycle_witness :
  call (CallDelete 7)
    (mkFabric "AB1" "Cotton" "m" "ON" StatusDeleted 7 [])
  = (mkFabric "AB1" "Cotton" "m" "ON" StatusDeleted 7 [],
     Some ErrFabricDeleted).
Proof.
  exact (proj2 (X3_life_cycle (CallDelete 7)
    (mkFabric "AB1" "Cotton" "m" "ON" StatusDeleted 7 [])
    (or_intror eq_refl)) eq_refl).
Defined.

(** X4.  Optimistic locking on the aggregate: once a call has returned nil,
    every further call that still carries the version the first one was
    made against is refused with ErrConcurrencyConflict or ErrFabricDeleted
    and leaves the aggregate as it is. *)
Theorem X4_stale_version_is_refused (m1 m2 : Mutation) (f f1 : Fabric) :
  GoInt.in_range (Version f) ->
  call m1 f = (f1, None) ->
  expected_version m2 = Version f ->
  exists err, call m2 f1 = (f1, Some err) /\
    (err = ErrConcurrencyConflict \/ err = ErrFabricDeleted).
Proof.
  intros Hr H1 Hexp.
  pose proof (call_step m1 f) as Hs. rewrite H1 in Hs. destruct Hs as [Hv _].
  assert (Hne : (Version f1 =? expected_version m2)%Z = false).
  { apply Z.eqb_neq. rewrite Hexp, Hv. now apply add_neq. }
  destruct m2 as [n mu os v|v|n mu os v]; cbn [call expected_version] in *.
  - unfold UpdateFabric. destruct (Status f1 =? StatusDeleted)%string; eauto.
    rewrite Hne. cbn. eauto.
  - unfold Delete. destruct (Status f1 =? StatusDeleted)%string; eauto.
    rewrite Hne. cbn. eauto.
  - unfold Reactivate, UpdateFabric.
    destruct (Status f1 =? StatusActive)%string.
    + destruct (Status f1 =? StatusDeleted)%string; eauto.
      rewrite Hne. cbn. eauto.
    + rewrite Hne. cbn. eauto.
Qed.

Lemma X4_stale_version_witness :
  exists err,
    call (CallDelete 1)
      (mkFabric "AB1" "Linen" "m" "ON" StatusActive 2
         [FabricUpdated "AB1" "Linen" "m" "ON" 2])
    = (mkFabric "AB1" "Linen" "m" "ON" StatusActive 2
         [FabricUpdated "AB1" "Linen" "m" "ON" 2], Some err) /\
    (err = ErrConcurrencyConflict \/ err = ErrFabricDeleted).
Proof.
  apply (X4_stale_version_is_refused
    (CallUpdateFabric "Linen" "m" "ON" 1) (CallDelete 1)
    (mkFabric "AB1" "Cotton" "m" "ON" StatusActive 1 [])).
  - unfold GoInt.in_range, GoInt.min_int, GoInt.max_int. cbn. lia.
  - reflexivity.
  - reflexivity.
Defined.

(* ------------------------------------------------------------------ *)
(** ** The command source in the context *)

Section CommandSource.
Import command.

Lemma Value_under_other_keys (others : list (string * Val)) : forall ctx,
  Value (fold_left (fun c kv => WithValue c (otherKey (fst kv)) (snd kv))
           others ctx) commandSourceKey
  = Value ctx commandSourceKey.
Proof.
  induction others as [|[k v] rest IH]; intros ctx; [reflexivity|].
  cbn [fold_left]. rewrite IH. reflexivity.
Qed.

(** X5.  The command source is read back as it was stored: after
    WithCommandSource, and whatever values are then layered on top under
    other keys, GetCommandSource returns the stored source, so IsFromREST
    and IsFromEvent answer for that source; the innermost WithCommandSource
    wins over an outer one; and no context is from REST and from an event
    at once. *)
Theorem X5_command_source_round_trip (ctx : Context)
    (outer source : CommandSource) (others : list (string * Val)) :
  let ctx' :=
    fold_left (fun c kv => WithValue c (otherKey (fst kv)) (snd kv)) others
      (WithCommandSource (WithCommandSource ctx outer) source) in
  GetCommandSource ctx' = source /\
  IsFromREST ctx' = (source =? CommandSourceREST) /\
  IsFromEvent ctx' = (source =? CommandSourceEvent) /\
  (forall c, IsFromREST c && IsFromEvent c = false).
Proof.
  cbv zeta. split; [|split; [|split]].
  - unfold GetCommandSource. rewrite Value_under_other_keys. reflexivity.
  - unfold IsFromREST, GetCommandSource. rewrite Value_under_other_keys.
    reflexivity.
  - unfold IsFromEvent, GetCommandSource. rewrite Value_under_other_keys.
    reflexivity.
  - intros c. unfold IsFromREST, IsFromEvent.
    destruct (String.eqb_spec (GetCommandSource c) CommandSourceREST)
      as [->|]; reflexivity.
Qed.

End CommandSource.

(* ------------------------------------------------------------------ *)
(** ** Envelope options *)

Section EnvelopeOptions.
Import messaging.

Lemma standard_options_keep (options : list envelope_options.EnvelopeOption) :
  Forall standard_option options -> forall e,
  let e' := fold_left (fun e option => option e) options e in
  EventID e' = EventID e /\ EventType e' = EventType e /\
  AggregateID e' = AggregateID e /\ AggregateType e' = AggregateType e /\
  AggregateVersion e' = AggregateVersion e /\
  EventVersion e' = EventVersion e /\ Timestamp e' = Timestamp e /\
  Payload_ e' = Payload_ e.
Proof.
  induction 1 as [|o rest Ho _ IH]; intros e; [cbn; tauto|].
  cbn [fold_left]. cbv zeta in *.
  specialize (IH (o e)).
  destruct Ho; cbn in IH; exact IH.
Qed.

(** X6.  Whatever options of the package NewEventEnvelope is given, the
    envelope carries the event type, aggregate ID, aggregate type,
    aggregate version and payload it was called with and event version 1,
    and it passes Validate exactly when the three strings are non-empty and
    the payload is not nil: no option can make an envelope invalid or
    valid. *)
Theorem X6_options_keep_the_envelope_valid
    (eventType aggregateID aggregateType : string) (aggregateVersion : Z)
    (payload : Payload) (options : list envelope_options.EnvelopeOption)
    (w : World) :
  Forall standard_option options ->
  let e := fst (envelope_options.NewEventEnvelope eventType aggregateID
                  aggregateType aggregateVersion payload options w) in
  EventType e = eventType /\ AggregateID e = aggregateID /\
  AggregateType e = aggregateType /\
  AggregateVersion e = aggregateVersion /\ EventVersion e = 1 /\
  Payload_ e = payload /\
  (Validate e = None <->
   eventType <> "" /\ aggregateID <> "" /\ aggregateType <> "" /\
   payload <> PayloadNil).
Proof.
  intros Hstd. cbv zeta.
  unfold envelope_options.NewEventEnvelope, envelope.NewEventEnvelope,
    bind, ret, tick. cbn [fst].
  match goal with
  | |- context [fold_left _ options ?e0] =>
      generalize (standard_options_keep options Hstd e0);
      cbv zeta;
      cbn [EventType AggregateID AggregateType AggregateVersion
           EventVersion Payload_];
      generalize (fold_left (fun e option => option e) options e0)
  end.
  intros e (_ & Ht & Ha & Hat & Hv & Hev & _ & Hp).
  repeat (split; [assumption|]). unfold Validate. rewrite Ht, Ha, Hat, Hp.
  destruct (String.eqb_spec eventType "") as [->|H1].
  { split; [discriminate|]. intros (H & _). now elim H. }
  destruct (String.eqb_spec aggregateID "") as [->|H2].
  { split; [discriminate|]. intros (_ & H & _). now elim H. }
  destruct (String.eqb_spec aggregateType "") as [->|H3].
  { split; [discriminate|]. intros (_ & _ & H & _). now elim H. }
  destruct payload.
  - split; [discriminate|]. intros (_ & _ & _ & H). now elim H.
  - split; [intros _|reflexivity]. repeat split; auto; discriminate.
  - split; [intros _|reflexivity]. repeat split; auto; discriminate.
  - split; [intros _|reflexivity]. repeat split; auto; discriminate.
Qed.

Lemma X6_options_witness :
  Validate
    (fst (envelope_options.NewEventEnvelope "FabricCreated" "AB1" "Fabric" 1
            (PayloadEvent (FabricCreated "AB1" "Cotton" "m" "ON" 1))
            [envelope_options.WithUserID "u1";
             envelope_options.WithCorrelationID "c1"]
            (mkWorld [] [] [] 0 [] [])))
  = None.
Proof.
  apply (X6_options_keep_the_envelope_valid "FabricCreated" "AB1" "Fabric" 1
           (PayloadEvent (FabricCreated "AB1" "Cotton" "m" "ON" 1))
           [envelope_options.WithUserID "u1";
            envelope_options.WithCorrelationID "c1"]
           (mkWorld [] [] [] 0 [] [])).
  - repeat constructor.
  - repeat split; discriminate.
Defined.

End EnvelopeOptions.

(* ------------------------------------------------------------------ *)
(** ** The event store, continued *)

Section EventStoreInvariant.
Import messaging eventstore.

Lemma NoDup_map_snoc {A B : Type} (g : A -> B) (t : list A) (r : A) :
  NoDup (map g t) -> (forall x, In x t -> g x <> g r) ->
  NoDup (map g (t ++ [r])).
Proof.
  intros Hnd Hfresh. rewrite map_app. cbn [map].
  apply NoDup_app; [exact Hnd|constructor; [intros []|constructor]|].
  intros b Hb [<-|[]]. apply in_map_iff in Hb.
  destruct Hb as (x & Hx & Hin). exact (Hfresh x Hin Hx).
Qed.

Lemma insert_row_unique (r : EventRow) (t t' : list EventRow) :
  insert_row r t = Ok t' ->
  events_unique t -> Forall (fun x => col_payload x <> PayloadNil) t ->
  events_unique t' /\ Forall (fun x => col_payload x <> PayloadNil) t'.
Proof.
  intros Hins [Hid Hver] Hpay.
  pose proof (insert_row_cases r t) as Hc. rewrite Hins in Hc.
  destruct Hc as (-> & Hp & Hfid & Hfver). split; [split|].
  - now apply NoDup_map_snoc.
  - apply NoDup_map_snoc; [exact Hver|].
    intros x Hx Heq. apply (Hfver x Hx). now injection Heq.
  - apply Forall_app. split; [exact Hpay|]. now constructor.
Qed.

Lemma save_loop_unique (es : list EventEnvelope) : forall t t' w,
  fst (save_loop es t w) = Ok t' ->
  events_unique t -> Forall (fun x => col_payload x <> PayloadNil) t ->
  events_unique t' /\ Forall (fun x => col_payload x <> PayloadNil) t'.
Proof.
  induction es as [|e rest IH]; intros t t' w Hok Hu Hp.
  - cbn in Hok. injection Hok as <-. auto.
  - cbn [save_loop] in Hok. unfold bind in Hok. rewrite stmt_Exec_eq in Hok.
    destruct (next_outcome (driver w)) as [err|].
    + destruct (errors_As_PgError err) as [code|]; [|discriminate].
      destruct (code =? "23505")%string; discriminate.
    + destruct (insert_row (row_of e) t) as [t1|err] eqn:Hins.
      * destruct (insert_row_unique _ _ _ Hins Hu Hp) as [Hu1 Hp1].
        exact (IH _ _ _ Hok Hu1 Hp1).
      * destruct (errors_As_PgError err) as [code|]; [|discriminate].
        destruct (code =? "23505")%string; discriminate.
Qed.

Lemma save_loop_quiet (es : list EventEnvelope) : forall t w,
  quiet (driver w) ->
  Forall (fun e => Payload_ e <> PayloadNil) es ->
  (~ version_conflict t es /\ ~ id_conflict t es /\
   fst (save_loop es t w) = Ok (t ++ map row_of es) /\
   quiet (driver (snd (save_loop es t w)))) \/
  ((version_conflict t es \/ id_conflict t es) /\
   fst (save_loop es t w) = Err ErrConcurrencyConflict).
Proof.
  induction es as [|e rest IH]; intros t w Hq Hp.
  - left. cbn. rewrite app_nil_r. repeat split; auto.
    + intros (pre & e & post & x & Heq & _). now destruct pre.
    + intros (pre & e & post & x & Heq & _). now destruct pre.
  - cbn [save_loop]. unfold bind. rewrite stmt_Exec_eq.
    rewrite (next_outcome_quiet _ Hq).
    inversion Hp as [|? ? Hpe Hprest]; subst.
    pose proof (insert_row_cases (row_of e) t) as Hi.
    destruct (insert_row (row_of e) t) as [t1|err].
    + destruct Hi as (-> & _ & Hfid & Hfver).
      specialize (IH (t ++ [row_of e]) (with_driver (tl (driver w)) w)).
      destruct IH as [(Hnv & Hni & Hok & Hq')|(Hc & Herr)];
        [cbn; now apply quiet_tl|exact Hprest| |].
      * left. repeat split.
        -- intros Hc. destruct (version_conflict_inv _ _ _ Hc)
             as [(x & Hx & Ha & Hv)|H]; [|exact (Hnv H)].
           exact (Hfver x Hx (conj Ha Hv)).
        -- intros (pre & e' & post & x & Heq & Hx & Ha).
           destruct pre as [|p pre]; cbn in Heq; injection Heq as <- ->.
           ++ cbn in Hx. rewrite app_nil_r in Hx. exact (Hfid x Hx Ha).
           ++ apply Hni. exists pre, e', post, x. cbn [map] in Hx.
              rewrite <- app_assoc. cbn. auto.
        -- rewrite Hok, <- app_assoc. reflexivity.
        -- exact Hq'.
      * right. split; [|exact Herr].
        destruct Hc as [Hc|Hc];
          [left; now apply version_conflict_later
          |right; now apply id_conflict_later].
    + destruct Hi as [[_ Hnil]|(-> & _ & x & Hx & Hk)]; [now elim Hpe|].
      right. split; [|reflexivity].
      destruct Hk as [Hid|[Ha Hv]];
        [right; now apply (id_conflict_here t e rest x)
        |left; now apply (version_conflict_here t e rest x)].
Qed.

(** X7.  The events table is append-only under Save and keeps its
    constraints: whatever the batch, the driver and the outcome, the table
    after the call starts with the table before it, and if no two rows
    shared an event_id or an (aggregate_id, aggregate_version) pair and no
    payload was null before, the same holds after. *)
Theorem X7_Save_keeps_the_table_constraints (ctx : command.Context)
    (es : list EventEnvelope) (w : World) :
  (exists added,
     events_table (snd (PostgresStore_Save ctx es w))
       = events_table w ++ added) /\
  (events_unique (events_table w) ->
   Forall (fun x => col_payload x <> PayloadNil) (events_table w) ->
   events_unique (events_table (snd (PostgresStore_Save ctx es w))) /\
   Forall (fun x => col_payload x <> PayloadNil)
     (events_table (snd (PostgresStore_Save ctx es w)))).
Proof.
  assert (Hgen : events_table (snd (PostgresStore_Save ctx es w))
                   = events_table w \/
                 exists w1, fst (save_loop es (events_table w) w1)
                   = Ok (events_table (snd (PostgresStore_Save ctx es w))) /\
                   events_table (snd (PostgresStore_Save ctx es w))
                   = events_table w ++ map row_of es).
  { unfold PostgresStore_Save, bind, ret. rewrite driver_call_eq.
    destruct w as [fs et d tk pub lg]. norm_world.
    destruct (next_outcome d) as [err|]; [left; reflexivity|].
    rewrite driver_call_eq. norm_world.
    destruct (next_outcome (tl d)) as [err|]; [left; reflexivity|].
    pose proof (save_loop_spec es et (mkWorld fs et (tl (tl d)) tk pub lg))
      as [(d' & Hw & _) Hres].
    destruct (save_loop es et (mkWorld fs et (tl (tl d)) tk pub lg))
      as [[t'|err] w1] eqn:Hloop; cbn [fst snd] in *; norm_world; subst w1;
      rewrite ?Hloop.
    - rewrite driver_call_eq. norm_world.
      destruct (next_outcome d') as [err|]; [left; reflexivity|].
      right. exists (mkWorld fs et (tl (tl d)) tk pub lg).
      rewrite Hloop. cbn. auto.
    - left. reflexivity. }
  split.
  - destruct Hgen as [->|(_ & _ & ->)]; [exists []; now rewrite app_nil_r|eauto].
  - intros Hu Hp. destruct Hgen as [->|(w1 & Hok & _)]; [auto|].
    exact (save_loop_unique _ _ _ _ Hok Hu Hp).
Qed.

Lemma X7_Save_keeps_witness :
  events_unique
    (events_table
       (snd (PostgresStore_Save command.Background
               [mkEnvelope "e2" "FabricUpdated" "AB1" "Fabric" 2 1 0 "" "" ""
                  (PayloadEvent (FabricUpdated "AB1" "Linen" "m" "ON" 2))]
               (mkWorld []
                  [mkEventRow "e1" "AB1" "Fabric" "FabricCreated" 1
                     (PayloadEvent (FabricCreated "AB1" "Cotton" "m" "ON" 1))
                     0 "" ""]
                  [] 0 [] [])))).
Proof.
  apply (proj2 (X7_Save_keeps_the_table_constraints command.Background
    [mkEnvelope "e2" "FabricUpdated" "AB1" "Fabric" 2 1 0 "" "" ""
       (PayloadEvent (FabricUpdated "AB1" "Linen" "m" "ON" 2))]
    (mkWorld []
       [mkEventRow "e1" "AB1" "Fabric" "FabricCreated" 1
          (PayloadEvent (FabricCreated "AB1" "Cotton" "m" "ON" 1)) 0 "" ""]
       [] 0 [] []))).
  - split; cbn; repeat constructor; intros [].
  - cbn. repeat constructor. discriminate.
Defined.

(** X8.  With a driver that reports no failure and a batch without nil
    payloads, Save returns nil exactly when the batch meets no row with its
    (aggregate_id, aggregate_version) or its event_id, among the rows of
    the table and the earlier envelopes of the batch; then the whole batch
    is in the table, in order, and otherwise the error is the event
    store's ErrConcurrencyConflict and the table is as before. *)
Theorem X8_Save_succeeds_exactly_without_conflict (ctx : command.Context)
    (es : list EventEnvelope) (w : World) :
  quiet (driver w) ->
  Forall (fun e => Payload_ e <> PayloadNil) es ->
  (~ version_conflict (events_table w) es /\
   ~ id_conflict (events_table w) es /\
   fst (PostgresStore_Save ctx es w) = None /\
   events_table (snd (PostgresStore_Save ctx es w))
     = events_table w ++ map row_of es) \/
  ((version_conflict (events_table w) es \/
    id_conflict (events_table w) es) /\
   fst (PostgresStore_Save ctx es w) = Some ErrConcurrencyConflict /\
   events_table (snd (PostgresStore_Save ctx es w)) = events_table w).
Proof.
  intros Hq Hp.
  unfold PostgresStore_Save, bind, ret. rewrite driver_call_eq.
  destruct w as [fs et d tk pub lg]. norm_world.
  rewrite (next_outcome_quiet _ Hq).
  rewrite driver_call_eq. norm_world.
  rewrite (next_outcome_quiet _ (quiet_tl _ Hq)).
  pose proof (save_loop_quiet es et (mkWorld fs et (tl (tl d)) tk pub lg)
                (quiet_tl _ (quiet_tl _ Hq)) Hp) as H.
  pose proof (save_loop_spec es et (mkWorld fs et (tl (tl d)) tk pub lg))
    as [(d' & Hw & _) _].
  destruct (save_loop es et (mkWorld fs et (tl (tl d)) tk pub lg))
    as [r w1] eqn:Hloop.
  cbn [fst snd] in *. norm_world. subst w1. rewrite ?Hloop.
  destruct H as [(Hnv & Hni & -> & Hq')|(Hc & ->)].
  - left. rewrite driver_call_eq. norm_world.
    rewrite (next_outcome_quiet _ Hq'). cbn. auto.
  - right. cbn. auto.
Qed.

Lemma X8_Save_succeeds_witness :
  let es := [mkEnvelope "e2" "FabricUpdated" "AB1" "Fabric" 1 1 0 "" "" ""
               (PayloadEvent (FabricUpdated "AB1" "Linen" "m" "ON" 1))] in
  let w := mkWorld []
             [mkEventRow "e1" "AB1" "Fabric" "FabricCreated" 1
                (PayloadEvent (FabricCreated "AB1" "Cotton" "m" "ON" 1))
                0 "" ""]
             [None] 0 [] [] in
  (~ version_conflict (events_table w) es /\
   ~ id_conflict (events_table w) es /\
   fst (PostgresStore_Save command.Background es w) = None /\
   events_table (snd (PostgresStore_Save command.Background es w))
     = events_table w ++ map row_of es) \/
  ((version_conflict (events_table w) es \/
    id_conflict (events_table w) es) /\
   fst (PostgresStore_Save command.Background es w)
     = Some ErrConcurrencyConflict /\
   events_table (snd (PostgresStore_Save command.Background es w))
     = events_table w).
Proof.
  intros es w.
  apply (X8_Save_succeeds_exactly_without_conflict command.Background es w).
  - repeat constructor.
  - repeat constructor. discriminate.
Defined.

End EventStoreInvariant.

(* ------------------------------------------------------------------ *)
(** ** The append contract of the event store *)

Section EventStoreContract.
Import messaging eventstore.

(** With a driver that reports no failure and a batch without nil
    payloads, Save returns nil when the batch meets no row with its
    (aggregate_id, aggregate_version) or its event_id, and the event store's
    ErrConcurrencyConflict when it meets one. *)
Lemma PostgresStore_Save_quiet (ctx : command.Context)
    (es : list EventEnvelope) (w : World) :
  quiet (driver w) ->
  Forall (fun e => Payload_ e <> PayloadNil) es ->
  (~ version_conflict (events_table w) es /\
   ~ id_conflict (events_table w) es /\
   fst (PostgresStore_Save ctx es w) = None) \/
  ((version_conflict (events_table w) es \/
    id_conflict (events_table w) es) /\
   fst (PostgresStore_Save ctx es w) = Some ErrConcurrencyConflict).
Proof.
  intros Hq Hp.
  unfold PostgresStore_Save, bind, ret. rewrite driver_call_eq.
  destruct w as [fs et d tk pub lg]. norm_world.
  rewrite (next_outcome_quiet _ Hq).
  rewrite driver_call_eq. norm_world.
  rewrite (next_outcome_quiet _ (quiet_tl _ Hq)).
  pose proof (save_loop_quiet es et (mkWorld fs et (tl (tl d)) tk pub lg)
                (quiet_tl _ (quiet_tl _ Hq)) Hp) as H.
  pose proof (save_loop_spec es et (mkWorld fs et (tl (tl d)) tk pub lg))
    as [(d' & Hw & _) _].
  destruct (save_loop es et (mkWorld fs et (tl (tl d)) tk pub lg))
    as [r w1] eqn:Hloop.
  cbn [fst snd] in *. norm_world. subst w1. rewrite ?Hloop.
  destruct H as [(Hnv & Hni & -> & Hq')|(Hc & ->)].
  - left. rewrite driver_call_eq. norm_world.
    rewrite (next_outcome_quiet _ Hq'). cbn. auto.
  - right. cbn. auto.
Qed.

(** C5.  PostgresStore.Save records a batch all or nothing: when it
    returns nil the events table has grown by one row per envelope of the
    batch, in order, and when it returns an error the table is exactly as
    before (nothing else in the world but the driver's script moves).  With
    a driver that reports no failure, a batch without nil payloads that
    repeats no key is recorded: Save returns nil.  A batch that violates the uniqueness of (aggregate_id, aggregate_version),
    against the table or within itself, is answered with the event store's
    ErrConcurrencyConflict; so is a batch that violates the primary key on
    event_id, since Save tests the SQLSTATE 23505 and not the constraint.
    ErrConcurrencyConflict is returned for nothing else: it implies a
    unique violation on one of the two keys or a 23505 from the server, and
    any failure without one is a different error, also under errors.Is. *)
Theorem C5_append_all_or_nothing_and_unique_violation_surfaced
    (ctx : command.Context) (es : list EventEnvelope) (w : World) :
  let r := fst (PostgresStore_Save ctx es w) in
  let w' := snd (PostgresStore_Save ctx es w) in
  (fabrics w' = fabrics w /\ published w' = published w /\
   logs w' = logs w /\ ticks w' = ticks w) /\
  (r = None -> events_table w' = events_table w ++ map row_of es) /\
  (forall err, r = Some err -> events_table w' = events_table w) /\
  (quiet (driver w) ->
   Forall (fun e => Payload_ e <> PayloadNil) es ->
   ~ version_conflict (events_table w) es ->
   ~ id_conflict (events_table w) es ->
   r = None /\ events_table w' = events_table w ++ map row_of es) /\
  (quiet (driver w) ->
   Forall (fun e => Payload_ e <> PayloadNil) es ->
   version_conflict (events_table w) es \/ id_conflict (events_table w) es ->
   r = Some ErrConcurrencyConflict /\ events_table w' = events_table w) /\
  (forall err, r = Some err ->
     errors_Is err ErrConcurrencyConflict = true ->
     err = ErrConcurrencyConflict /\
     (version_conflict (events_table w) es \/
      id_conflict (events_table w) es \/
      In (Some (FaultPg "23505")) (driver w))) /\
  (forall err, r = Some err ->
     ~ version_conflict (events_table w) es ->
     ~ id_conflict (events_table w) es ->
     ~ In (Some (FaultPg "23505")) (driver w) ->
     err <> ErrConcurrencyConflict /\
     errors_Is err ErrConcurrencyConflict = false /\
     storage_failure err).
Proof.
  cbv zeta.
  destruct (PostgresStore_Save_spec ctx es w) as (d' & Hw & He).
  pose proof (PostgresStore_Save_quiet ctx es w) as Hc.
  destruct (PostgresStore_Save ctx es w) as [r w'].
  cbn [fst snd] in *. subst w'.
  split; [|split; [|split; [|split; [|split; [|split]]]]].
  - norm_world. auto.
  - intros ->. reflexivity.
  - intros err ->. reflexivity.
  - intros Hq Hp Hnv Hni.
    destruct (Hc Hq Hp) as [(_ & _ & ->)|([Hv|Hi] & _)]; [auto|tauto|tauto].
  - intros Hq Hp Hv.
    destruct (Hc Hq Hp) as [(Hnv & Hni & _)|(_ & ->)]; [tauto|auto].
  - intros err -> His.
    destruct He as [[-> H]|[_ Hi]]; [auto|congruence].
  - intros err -> Hnv Hni Hnf.
    destruct He as [[-> H]|[Hs Hi]]; [tauto|].
    split; [|auto]. intros ->. cbn in Hi. discriminate.
Qed.

Lemma C5_append_witness :
  let stored := mkEventRow "id-0" "FAB1" "Fabric" "app.fabric.created" 1
                  (PayloadEvent (FabricCreated "FAB1" "Cotton" "m" "new" 1))
                  0 "" "" in
  let e2 := mkEnvelope "id-1" "app.fabric.updated" "FAB1" "Fabric" 2 1 1
              "" "" "" (PayloadEvent (FabricUpdated "FAB1" "Silk" "m" "new" 2)) in
  let e1 := mkEnvelope "id-2" "app.fabric.updated" "FAB1" "Fabric" 1 1 2
              "" "" "" (PayloadEvent (FabricUpdated "FAB1" "Wool" "m" "new" 1)) in
  let w := mkWorld [] [stored] [] 0 [] [] in
  (fst (PostgresStore_Save command.Background [e2; e1] w)
     = Some ErrConcurrencyConflict /\
   events_table (snd (PostgresStore_Save command.Background [e2; e1] w))
     = [stored]) /\
  (fst (PostgresStore_Save command.Background [e2] w) = None /\
   events_table (snd (PostgresStore_Save command.Background [e2] w))
     = [stored; row_of e2]).
Proof.
  intros stored e2 e1 w. split.
  - apply (proj1 (proj2 (proj2 (proj2 (proj2
             (C5_append_all_or_nothing_and_unique_violation_surfaced
                command.Background [e2; e1] w)))))).
    + constructor.
    + repeat constructor; discriminate.
    + left. exists [e2], e1, [], stored. cbn. auto.
  - apply (proj1 (proj2 (proj2 (proj2
             (C5_append_all_or_nothing_and_unique_violation_surfaced
                command.Background [e2] w))))).
    + constructor.
    + repeat constructor; discriminate.
    + intros (pre & e' & post & x & Heq & Hx & Ha & Hv).
      destruct pre as [|p pre].
      * cbn in Heq. injection Heq as <- <-. cbn in Hx.
        destruct Hx as [<-|[]]. cbn in Hv. discriminate.
      * cbn in Heq. injection Heq as _ Heq. now destruct pre.
    + intros (pre & e' & post & x & Heq & Hx & Hi).
      destruct pre as [|p pre].
      * cbn in Heq. injection Heq as <- <-. cbn in Hx.
        destruct Hx as [<-|[]]. cbn in Hi. discriminate.
      * cbn in Heq. injection Heq as _ Heq. now destruct pre.
Defined.

(** The claim as written does not hold: ErrConcurrencyConflict is not kept
    for the (aggregate_id, aggregate_version) constraint.  The table holds
    one row (id-0, FAB1, version 1); an envelope for another aggregate,
    (id-0, FAB2, version 1), violates no version constraint, and the
    failure of the primary key on event_id comes back as
    ErrConcurrencyConflict all the same. *)
Lemma C5_duplicate_event_id_is_reported_as_conflict :
  let stored := mkEventRow "id-0" "FAB1" "Fabric" "app.fabric.created" 1
                  (PayloadEvent (FabricCreated "FAB1" "Cotton" "m" "new" 1))
                  0 "" "" in
  let e := mkEnvelope "id-0" "app.fabric.created" "FAB2" "fabric" 1 1 1
             "" "" "" (PayloadEvent (FabricCreated "FAB2" "Silk" "m" "new" 1)) in
  let w := mkWorld [] [stored] [] 0 [] [] in
  ~ version_conflict (events_table w) [e] /\
  quiet (driver w) /\
  fst (PostgresStore_Save command.Background [e] w)
    = Some ErrConcurrencyConflict /\
  events_table (snd (PostgresStore_Save command.Background [e] w)) = [stored].
Proof.
  cbv zeta. split; [|split; [constructor|split; reflexivity]].
  intros (pre & e' & post & x & Heq & Hx & Ha & Hv).
  destruct pre as [|p pre].
  - cbn in Heq. injection Heq as <- <-. cbn in Hx.
    destruct Hx as [<-|[]]. cbn in Ha. discriminate.
  - cbn in Heq. injection Heq as _ Heq. now destruct pre.
Qed.

End EventStoreContract.

(* ------------------------------------------------------------------ *)
(** ** The repository, continued: what the statements do to the table *)

Section RepositoryTables.
Import persistence.

Lemma updated_none (where_ : FabricRow -> bool) (set : FabricRow -> FabricRow)
    (t : list FabricRow) :
  filter where_ t = [] -> updated where_ set t = t.
Proof.
  unfold updated. induction t as [|r t IH]; [reflexivity|]. cbn.
  destruct (where_ r); [discriminate|]. intros H. now rewrite IH.
Qed.

Lemma filter_nonempty_existsb {A} (p : A -> bool) (l : list A) :
  (Z.of_nat (List.length (filter p l)) =? 0)%Z = negb (existsb p l).
Proof.
  induction l as [|x l IH]; [reflexivity|]. cbn.
  destruct (p x); [reflexivity|exact IH].
Qed.

Lemma existsb_false_filter {A} (p : A -> bool) (l : list A) :
  existsb p l = false -> filter p l = [].
Proof.
  induction l as [|x l IH]; [reflexivity|]. cbn.
  destruct (p x); [discriminate|exact IH].
Qed.

(** A conditional UPDATE run on the pool, as Update and Delete issue it:
    nil exactly when the statement went through and met a row. *)
Lemma conditional_write_table (msg : string) (where_ : FabricRow -> bool)
    (set : FabricRow -> FabricRow) (w : World) :
  let c := (r <- pool_Exec (sql_update where_ set) ;;
            match r with
            | Err err => ret (Some (Errorf msg err))
            | Ok rowsAffected =>
              if (rowsAffected =? 0)%Z then ret (Some ErrRecordNotFound)
              else ret None
            end) in
  c w =
  match next_outcome (driver w) with
  | Some err => (Some (Errorf msg err), with_driver (tl (driver w)) w)
  | None =>
    if fabrics_active_code_idx (updated where_ set (fabrics w))
    then if existsb where_ (fabrics w)
         then (None, with_fabrics (updated where_ set (fabrics w))
                       (with_driver (tl (driver w)) w))
         else (Some ErrRecordNotFound, with_driver (tl (driver w)) w)
    else (Some (Errorf msg (PgError "23505")),
          with_driver (tl (driver w)) w)
  end.
Proof.
  cbv zeta. unfold pool_Exec, Exec, sql_update, bind, ret.
  destruct w as [fs et d tk pub lg]. rewrite driver_call_eq. norm_world.
  destruct (next_outcome d) as [err|]; [reflexivity|].
  cbn [fst snd]. fold (updated where_ set fs).
  destruct (fabrics_active_code_idx (updated where_ set fs)); [|reflexivity].
  cbv beta iota. norm_world.
  rewrite filter_nonempty_existsb.
  destruct (existsb where_ fs) eqn:He; cbn [negb]; [reflexivity|].
  rewrite updated_none by now apply existsb_false_filter.
  reflexivity.
Qed.

Lemma Update_eq (ctx : command.Context) (f : Fabric) (w : World) :
  Update ctx f w =
  match next_outcome (driver w) with
  | Some err => (Some (Errorf "failed to update fabric" err),
                 with_driver (tl (driver w)) w)
  | None =>
    if fabrics_active_code_idx
         (updated (update_where f) (update_set f) (fabrics w))
    then if existsb (update_where f) (fabrics w)
         then (None, with_fabrics
                       (updated (update_where f) (update_set f) (fabrics w))
                       (with_driver (tl (driver w)) w))
         else (Some ErrRecordNotFound, with_driver (tl (driver w)) w)
    else (Some (Errorf "failed to update fabric" (PgError "23505")),
          with_driver (tl (driver w)) w)
  end.
Proof.
  exact (conditional_write_table "failed to update fabric" (update_where f)
           (update_set f) w).
Qed.

Lemma Delete_eq (ctx : command.Context) (f : Fabric) (w : World) :
  persistence.Delete ctx f w =
  match next_outcome (driver w) with
  | Some err => (Some (Errorf "failed to delete fabric" err),
                 with_driver (tl (driver w)) w)
  | None =>
    if fabrics_active_code_idx
         (updated (delete_where f) delete_set (fabrics w))
    then if existsb (delete_where f) (fabrics w)
         then (None, with_fabrics
                       (updated (delete_where f) delete_set (fabrics w))
                       (with_driver (tl (driver w)) w))
         else (Some ErrRecordNotFound, with_driver (tl (driver w)) w)
    else (Some (Errorf "failed to delete fabric" (PgError "23505")),
          with_driver (tl (driver w)) w)
  end.
Proof.
  exact (conditional_write_table "failed to delete fabric" (delete_where f)
           delete_set w).
Qed.

Lemma get_by_eq (where_ : FabricRow -> bool) (code : string) (w : World) :
  get_by where_ code w =
  (match next_outcome (driver w) with
   | Some err => Err (Errorf "failed to get fabric by code" err)
   | None =>
     match find where_ (fabrics w) with
     | Some r => Ok (scan r)
     | None => Err (Errorf ("fabric with code " ++ code ++ " not found")
                      ErrRecordNotFound)
     end
   end, with_driver (tl (driver w)) w).
Proof.
  unfold get_by, QueryRow_Scan, bind, ret.
  destruct w as [fs et d tk pub lg]. step_driver.
  - now rewrite fault_not_ErrNoRows.
  - destruct (find where_ fs); reflexivity.
Qed.

Lemma Save_insert_table (fabric : Fabric) (t : list FabricRow) (w : World) :
  match Save_insert fabric t w with
  | (Ok p, w') =>
      p = fabric /\ fabrics w' = t ++ [row_of_fabric fabric] /\
      fabrics_active_code_idx (t ++ [row_of_fabric fabric]) = true
  | (Err _, w') => fabrics w' = fabrics w
  end.
Proof.
  unfold Save_insert, Exec, Commit, bind, ret.
  fold (row_of_fabric fabric).
  destruct w as [fs et d tk pub lg]. step_driver.
  - destruct flt as [code|msg]; cbn [fault_error errors_As_PgError].
    + destruct (code =? "23505"); reflexivity.
    + reflexivity.
  - cbn [fst].
    destruct (fabrics_active_code_idx _) eqn:Hidx; cbn [errors_As_PgError].
    + step_driver; [reflexivity|]. cbn. auto.
    + reflexivity.
Qed.

Lemma Save_reactivate_table (fabric existingFabric : Fabric)
    (t : list FabricRow) (w : World) :
  Status existingFabric <> StatusActive ->
  match Save_reactivate fabric existingFabric t w with
  | (Ok p, w') =>
      validateName (Name fabric) = None /\
      p = mkFabric (Code existingFabric) (Name fabric) (MeasureUnit fabric)
            (OfferStatus fabric) StatusActive
            (GoInt.add (Version existingFabric) 1)
            (events existingFabric ++
             [FabricReactivated (Code existingFabric) (Name fabric)
                (MeasureUnit fabric) (OfferStatus fabric)
                (GoInt.add (Version existingFabric) 1)]) /\
      fabrics w' =
        updated (fun r => row_code r =? Code existingFabric)
                (reactivate_set p) t
  | (Err _, w') => fabrics w' = fabrics w
  end.
Proof.
  intros Hs. unfold Save_reactivate.
  rewrite (Reactivate_own_version _ _ _ _ Hs).
  destruct (validateName (Name fabric)) as [verr|] eqn:Hn; [reflexivity|].
  cbv beta iota. unfold Exec, Commit, sql_update, bind, ret.
  destruct w as [fs et d tk pub lg]. step_driver; [reflexivity|].
  cbn [fst].
  destruct (fabrics_active_code_idx _); [|reflexivity].
  step_driver; [reflexivity|]. cbn. auto.
Qed.

(** Save writes the table only when it returns a fabric: a new row at the
    end when the code has no row yet (or one that is neither ACTIVE nor
    DELETED), the rows of the code rewritten when the first of them is
    DELETED. *)
Lemma Save_table (ctx : command.Context) (fabric : Fabric) (w : World) :
  match Save ctx fabric w with
  | (Ok p, w') =>
      (p = fabric /\ fabrics w' = fabrics w ++ [row_of_fabric fabric] /\
       (find (fun r => row_code r =? Code fabric) (fabrics w) = None \/
        exists r, find (fun r => row_code r =? Code fabric) (fabrics w)
                    = Some r /\
                  row_status r <> StatusActive /\
                  row_status r <> StatusDeleted)) \/
      (exists r,
         find (fun r => row_code r =? Code fabric) (fabrics w) = Some r /\
         row_status r = StatusDeleted /\
         validateName (Name fabric) = None /\
         p = mkFabric (row_code r) (Name fabric) (MeasureUnit fabric)
               (OfferStatus fabric) StatusActive
               (GoInt.add (row_version r) 1)
               [FabricReactivated (row_code r) (Name fabric)
                  (MeasureUnit fabric) (OfferStatus fabric)
                  (GoInt.add (row_version r) 1)] /\
         fabrics w' =
           updated (fun x => row_code x =? row_code r) (reactivate_set p)
                   (fabrics w))
  | (Err _, w') => fabrics w' = fabrics w
  end.
Proof.
  unfold Save, QueryRow_Scan, bind, ret.
  destruct w as [fs et d tk pub lg]. step_driver; [reflexivity|].
  step_driver.
  { now rewrite fault_not_ErrNoRows. }
  destruct (find (fun r => row_code r =? Code fabric) fs) as [r|] eqn:Hf.
  - destruct (Status (scan r) =? StatusActive) eqn:Ha; [reflexivity|].
    apply String.eqb_neq in Ha.
    destruct (Status (scan r) =? StatusDeleted) eqn:Hd.
    + apply String.eqb_eq in Hd.
      match goal with
      | |- context [Save_reactivate fabric (scan r) ?t ?w] =>
          pose proof (Save_reactivate_table fabric (scan r) t w Ha) as Hr;
          destruct (Save_reactivate fabric (scan r) t w) as [[p|err] w1]
      end; norm_world; [|exact Hr].
      right. exists r. destruct Hr as (Hn & -> & Ht). cbn in *. auto.
    + apply String.eqb_neq in Hd.
      match goal with
      | |- context [Save_insert fabric ?t ?w] =>
          pose proof (Save_insert_table fabric t w) as Hr;
          destruct (Save_insert fabric t w) as [[p|err] w1]
      end; norm_world; [|exact Hr].
      left. destruct Hr as (-> & Ht & _). cbn in *.
      split; [reflexivity|]. split; [exact Ht|]. right. exists r. auto.
  - cbn [errors_Is error_eqb negb orb].
    match goal with
    | |- context [Save_insert fabric ?t ?w] =>
        pose proof (Save_insert_table fabric t w) as Hr;
        destruct (Save_insert fabric t w) as [[p|err] w1]
    end; norm_world; [|exact Hr].
    left. destruct Hr as (-> & Ht & _). auto.
Qed.

End RepositoryTables.

(* ------------------------------------------------------------------ *)
(** ** The service, continued: what a command does to the fabrics table *)

Section ServiceTables.
Import messaging envelope.

Variable outcome : string -> EventEnvelope -> option error.

(** CreateFabric changes the fabrics table only through a Save that
    returned a fabric; after that only the event store can fail. *)
Lemma CreateFabric_table (ctx : command.Context)
    (code name measureUnit offerStatus : string) (w : World) :
  match application.CreateFabric (wired outcome) ctx code name measureUnit
          offerStatus w with
  | (r, w') =>
      (fabrics w' = fabrics w /\
       exists err, r = Err err /\
         forall e, err <> Errorf "failed to save to event store" e) \/
      (exists fabric p w1,
         NewFabric code name measureUnit offerStatus = Ok fabric /\
         persistence.Save
           (command.tracer_Start ctx "fabric.service.create") fabric w
           = (Ok p, w1) /\
         fabrics w' = fabrics w1 /\
         (r = Ok p \/
          exists err, r = Err (Errorf "failed to save to event store" err) /\
                      storage_failure err))
  end.
Proof.
  rewrite CreateFabric_eq. cbv zeta.
  destruct (NewFabric code name measureUnit offerStatus) as [fabric|nerr] eqn:Hn.
  2:{ unfold bind, logger, ret. norm_world. left.
      split; [reflexivity|]. eexists. split; [reflexivity|]. discriminate. }
  pose proof Hn as Hn'.
  apply NewFabric_Ok_inv in Hn. destruct Hn as [Hf Hname].
  unfold bind at 1.
  cbn [application.commandRepo wired application.NewFabricCommandService
       repo_Save persistence.FabricPostgresRepository].
  set (ctx1 := command.tracer_Start ctx "fabric.service.create").
  pose proof (Save_spec ctx1 fabric w) as [_ Hr].
  pose proof (Save_table ctx1 fabric w) as Ht.
  destruct (persistence.Save ctx1 fabric w) as [[p|serr] w1] eqn:Hsave;
    cbn [fst snd] in *.
  2:{ unfold bind, logger, ret. norm_world. left.
      split; [exact Ht|]. eexists. split; [reflexivity|]. discriminate. }
  assert (Hev : exists ev, Events p = [ev] /\
            ((exists a b c d v, ev = FabricCreated a b c d v) \/
             (exists a b c d v, ev = FabricReactivated a b c d v))).
  { destruct Hr as [->|(r & _ & _ & _ & _ & ->)]; [subst fabric|];
      cbn; eexists; split; try reflexivity; [left|right]; eauto 10. }
  destruct Hev as (ev & -> & Hev).
  unfold bind.
  destruct (create_envelopes_one p ev w1 Hev) as (e & -> & _).
  match goal with
  | |- context [persist_and_forward _ ?c ?a1 ?a2 ?a3 ?a4 ?es ?ok ?fail ?w0] =>
      destruct (persist_and_forward_spec outcome c a1 a2 a3 a4 es ok fail w0)
        as [(err & w' & -> & Hs & Hfab & _)|(w' & -> & Hfab & _)]
  end.
  - right. exists fabric, p, w1. norm_world. cbn in Hfab. eauto 10.
  - right. exists fabric, p, w1. norm_world. cbn in Hfab. eauto 10.
Qed.

(** UpdateFabric changes the fabrics table only through an Update that met
    the row GetByCode returned. *)
Lemma UpdateFabric_table (ctx : command.Context)
    (code name measureUnit offerStatus : string) (version : Z) (w : World) :
  match application.UpdateFabric (wired outcome) ctx code name measureUnit
          offerStatus version w with
  | (r, w') =>
      (fabrics w' = fabrics w /\
       exists err, r = Err err /\
         forall e,
           err <> Errorf "failed to save update event to event store" e) \/
      (exists r0 f,
         find (fun x => (row_code x =? code) && (row_status x =? "ACTIVE"))
              (fabrics w) = Some r0 /\
         row_version r0 = version /\ validateName name = None /\
         f = mkFabric (row_code r0) name measureUnit offerStatus
               (row_status r0) (GoInt.add version 1)
               [FabricUpdated (row_code r0) name measureUnit offerStatus
                  (GoInt.add version 1)] /\
         existsb (update_where f) (fabrics w) = true /\
         fabrics w' = updated (update_where f) (update_set f) (fabrics w) /\
         (r = Ok f \/
          exists err,
            r = Err (Errorf "failed to save update event to event store" err)
            /\ storage_failure err))
  end.
Proof.
  rewrite UpdateFabric_eq. cbv zeta. unfold bind at 1.
  cbn [application.commandRepo wired application.NewFabricCommandService
       repo_GetByCode repo_Update persistence.FabricPostgresRepository].
  set (ctx1 := command.tracer_Start ctx "fabric.service.update").
  unfold persistence.GetByCode. rewrite get_by_eq.
  destruct (next_outcome (driver w)) as [gerr|].
  { unfold ret. norm_world. left. split; [reflexivity|].
      eexists. split; [reflexivity|]. cbn. discriminate. }
  destruct (find _ (fabrics w)) as [r0|] eqn:Hfind.
  2:{ unfold ret. norm_world. left. split; [reflexivity|].
      eexists. split; [reflexivity|]. cbn. discriminate. }
  pose proof (find_some_row _ _ _ Hfind) as [Hin Hwhere].
  apply Bool.andb_true_iff in Hwhere. destruct Hwhere as [Hc Hs].
  apply String.eqb_eq in Hc, Hs.
  assert (Hact : Status (persistence.scan r0) = StatusActive) by exact Hs.
  rewrite (UpdateFabric_of_active _ _ _ _ _ Hact).
  destruct (Z.eqb_spec (Version (persistence.scan r0)) version) as [Hv|Hv];
    cbn [negb].
  2:{ unfold ret. norm_world. left. split; [reflexivity|].
      eexists. split; [reflexivity|]. cbn. discriminate. }
  destruct (validateName name) as [verr|] eqn:Hn.
  { apply validateName_error in Hn. subst verr. unfold ret. norm_world.
    left. split; [reflexivity|]. eexists. split; [reflexivity|].
    discriminate. }
  unfold bind at 1. rewrite Update_eq. norm_world.
  cbn [persistence.scan Code Name MeasureUnit OfferStatus Status Version
       events app] in *.
  destruct (next_outcome (tl (driver w))) as [uerr|].
  { unfold bind, logger, ret. norm_world. left.
      split; [reflexivity|]. eexists. split; [reflexivity|]. discriminate. }
  match goal with
  | |- context [updated (update_where ?f0) _ _] => set (f := f0)
  end.
  destruct (persistence.fabrics_active_code_idx _).
  2:{ unfold bind, logger, ret. norm_world. left.
      split; [reflexivity|]. eexists. split; [reflexivity|]. discriminate. }
  destruct (existsb (update_where f) (fabrics w)) eqn:Hex.
  2:{ unfold bind, logger, ret. norm_world. left.
      split; [reflexivity|]. eexists. split; [reflexivity|]. discriminate. }
  unfold bind. cbn [Events events f].
  match goal with
  | |- context [application.update_envelopes ?p [FabricUpdated ?a ?b ?c ?d ?v] ?w0] =>
      destruct (update_envelopes_one p a b c d v w0) as (e & -> & _)
  end.
  match goal with
  | |- context [persist_and_forward _ ?c ?a1 ?a2 ?a3 ?a4 ?es ?ok ?fail ?w0] =>
      destruct (persist_and_forward_spec outcome c a1 a2 a3 a4 es ok fail w0)
        as [(err & w' & -> & Hsf & Hfab & _)|(w' & -> & Hfab & _)]
  end.
  - right. exists r0, f. norm_world. cbn in Hfab. subst version.
    unfold f. rewrite Hfab. eauto 12.
  - right. exists r0, f. norm_world. cbn in Hfab. subst version.
    unfold f. rewrite Hfab. eauto 12.
Qed.

(** DeleteFabric changes the fabrics table only through a Delete that met
    a row. *)
Lemma DeleteFabric_table (ctx : command.Context) (code : string)
    (version : Z) (w : World) :
  match application.DeleteFabric (wired outcome) ctx code version w with
  | (r, w') =>
      (fabrics w' = fabrics w /\ r <> None) \/
      (exists r0 f,
         find (fun x => (row_code x =? code) && (row_status x =? "ACTIVE"))
              (fabrics w) = Some r0 /\
         row_version r0 = version /\
         f = mkFabric (row_code r0) (row_name r0) (row_measure_unit r0)
               (row_offer_status r0) StatusDeleted (GoInt.add version 1)
               [FabricDeleted (row_code r0) (GoInt.add version 1)] /\
         existsb (delete_where f) (fabrics w) = true /\
         fabrics w' = updated (delete_where f) delete_set (fabrics w) /\
         (r = None \/
          exists err,
            r = Some (Errorf "failed to save delete event to event store"
                        err) /\
            storage_failure err))
  end.
Proof.
  rewrite DeleteFabric_eq. cbv zeta. unfold bind at 1.
  cbn [application.commandRepo wired application.NewFabricCommandService
       repo_GetByCode repo_Delete persistence.FabricPostgresRepository].
  set (ctx1 := command.tracer_Start ctx "fabric.service.delete").
  unfold persistence.GetByCode. rewrite get_by_eq.
  destruct (next_outcome (driver w)) as [gerr|].
  { unfold ret. norm_world. left. split; [reflexivity|discriminate]. }
  destruct (find _ (fabrics w)) as [r0|] eqn:Hfind.
  2:{ unfold ret. norm_world. left. split; [reflexivity|discriminate]. }
  pose proof (find_some_row _ _ _ Hfind) as [Hin Hwhere].
  apply Bool.andb_true_iff in Hwhere. destruct Hwhere as [Hc Hs].
  apply String.eqb_eq in Hc, Hs.
  assert (Hact : Status (persistence.scan r0) = StatusActive) by exact Hs.
  rewrite (Delete_of_active _ _ Hact).
  destruct (Z.eqb_spec (Version (persistence.scan r0)) version) as [Hv|Hv];
    cbn [negb].
  2:{ unfold ret. norm_world. left. split; [reflexivity|discriminate]. }
  unfold bind at 1. rewrite Delete_eq. norm_world.
  cbn [persistence.scan Code Name MeasureUnit OfferStatus Status Version
       events app] in *.
  destruct (next_outcome (tl (driver w))) as [uerr|].
  { unfold bind, logger, ret. norm_world. left.
    split; [reflexivity|discriminate]. }
  match goal with
  | |- context [updated (delete_where ?f0) _ _] => set (f := f0)
  end.
  destruct (persistence.fabrics_active_code_idx _).
  2:{ unfold bind, logger, ret. norm_world. left.
      split; [reflexivity|discriminate]. }
  destruct (existsb (delete_where f) (fabrics w)) eqn:Hex.
  2:{ unfold bind, logger, ret. norm_world. left.
      split; [reflexivity|discriminate]. }
  unfold bind. cbn [Events events f].
  match goal with
  | |- context [application.delete_envelopes ?p [FabricDeleted ?a ?v] ?w0] =>
      destruct (delete_envelopes_one p a v w0) as (e & -> & _)
  end.
  match goal with
  | |- context [persist_and_forward _ ?c ?a1 ?a2 ?a3 ?a4 ?es ?ok ?fail ?w0] =>
      destruct (persist_and_forward_spec outcome c a1 a2 a3 a4 es ok fail w0)
        as [(err & w' & -> & Hsf & Hfab & _)|(w' & -> & Hfab & _)]
  end.
  - right. exists r0, f. norm_world. cbn in Hfab. subst version.
    unfold f. rewrite Hfab. eauto 12.
  - right. exists r0, f. norm_world. cbn in Hfab. subst version.
    unfold f. rewrite Hfab. eauto 12.
Qed.

End ServiceTables.

(* ------------------------------------------------------------------ *)
(** ** The fabrics table the service maintains *)

Lemma NewFabric_row_ok (code name measureUnit offerStatus : string)
    (f : Fabric) :
  NewFabric code name measureUnit offerStatus = Ok f ->
  row_ok (row_of_fabric f) /\ Code f = code.
Proof.
  intros Hnew.
  pose proof (validateCode_spec code) as Hc.
  pose proof (validateName_spec name) as Hn.
  unfold NewFabric in Hnew.
  destruct (validateCode code); [discriminate|].
  destruct (validateName name); [discriminate|].
  injection Hnew as <-. unfold row_ok. cbn. tauto.
Qed.

Section TableInvariant.
Import messaging envelope.

Variable outcome : string -> EventEnvelope -> option error.

Lemma table_ok_updated (where_ : FabricRow -> bool)
    (set : FabricRow -> FabricRow) (t : list FabricRow) :
  table_ok t ->
  (forall r, In r t -> where_ r = true ->
             row_code (set r) = row_code r /\ row_ok (set r)) ->
  table_ok (updated where_ set t).
Proof.
  intros [Hnd Hok] Hset. unfold updated. split.
  - rewrite map_map.
    replace (map (fun r => row_code (if where_ r then set r else r)) t)
      with (map row_code t); [exact Hnd|].
    apply map_ext_in. intros r Hr.
    destruct (where_ r) eqn:Hw; [|reflexivity].
    symmetry. apply (Hset r Hr Hw).
  - apply Forall_forall. intros x Hx. apply in_map_iff in Hx.
    destruct Hx as (r & <- & Hr).
    destruct (where_ r) eqn:Hw; [apply (Hset r Hr Hw)|].
    rewrite Forall_forall in Hok. now apply Hok.
Qed.

Lemma table_ok_snoc (t : list FabricRow) (r : FabricRow) :
  table_ok t -> row_ok r ->
  find (fun x => row_code x =? row_code r) t = None ->
  table_ok (t ++ [r]).
Proof.
  intros [Hnd Hok] Hr Hfind. split.
  - apply NoDup_map_snoc; [exact Hnd|].
    intros x Hx Heq. apply (find_none _ _ Hfind) in Hx. cbn in Hx.
    apply String.eqb_neq in Hx. contradiction.
  - apply Forall_app. split; [exact Hok|]. now constructor.
Qed.

Lemma validateName_bounds (name : string) :
  validateName name = None -> name_in_bounds name.
Proof.
  intros H. pose proof (validateName_spec name) as Hn. now rewrite H in Hn.
Qed.

Lemma perform_table_ok (c : ServiceCall) (w : World) :
  table_ok (fabrics w) -> table_ok (fabrics (perform outcome c w)).
Proof.
  intros Hok. pose proof Hok as [Hnd Hrows]. rewrite Forall_forall in Hrows.
  destruct c as [ctx code name mu os|ctx code name mu os v|ctx code v];
    cbn [perform].
  - pose proof (CreateFabric_table outcome ctx code name mu os w) as H.
    destruct (application.CreateFabric _ _ _ _ _ _ _) as [r w'].
    cbn [snd].
    destruct H as [[-> _]|(fabric & p & w1 & Hnew & Hsave & -> & _)];
      [exact Hok|].
    pose proof (Save_table
      (command.tracer_Start ctx "fabric.service.create") fabric w) as Ht.
    rewrite Hsave in Ht.
    destruct (NewFabric_row_ok _ _ _ _ _ Hnew) as [Hrow Hcode].
    destruct Ht as [(_ & -> & Hfind)|(r0 & Hfind & Hdel & Hname & -> & ->)].
    + destruct Hfind as [Hnone|(r0 & Hsome & Hna & Hnd')].
      * now apply table_ok_snoc.
      * apply find_some_row in Hsome. destruct Hsome as [Hin _].
        destruct (Hrows r0 Hin) as (_ & _ & _ & [Ha|Hd]); contradiction.
    + apply table_ok_updated; [exact Hok|].
      intros x Hx _. split; [reflexivity|].
      destruct (Hrows x Hx) as (Hb & Hp & _ & _).
      unfold row_ok. cbn. split; [exact Hb|]. split; [exact Hp|].
      split; [now apply validateName_bounds|now left].
  - pose proof (UpdateFabric_table outcome ctx code name mu os v w) as H.
    destruct (application.UpdateFabric _ _ _ _ _ _ _ _) as [r w'].
    cbn [snd].
    destruct H as [[-> _]|(r0 & f & _ & _ & Hname & -> & _ & -> & _)];
      [exact Hok|].
    apply table_ok_updated; [exact Hok|].
    intros x Hx _. split; [reflexivity|].
    destruct (Hrows x Hx) as (Hb & Hp & _ & Hs).
    unfold row_ok. cbn. split; [exact Hb|]. split; [exact Hp|].
    split; [now apply validateName_bounds|exact Hs].
  - pose proof (DeleteFabric_table outcome ctx code v w) as H.
    destruct (application.DeleteFabric _ _ _ _ _) as [r w'].
    cbn [snd].
    destruct H as [[-> _]|(r0 & f & _ & _ & -> & _ & -> & _)]; [exact Hok|].
    apply table_ok_updated; [exact Hok|].
    intros x Hx _. split; [reflexivity|].
    destruct (Hrows x Hx) as (Hb & Hp & Hn & _).
    unfold row_ok. cbn. split; [exact Hb|]. split; [exact Hp|].
    split; [exact Hn|now right].
Qed.

(** X9.  The fabrics table the service maintains: starting from a table in
    which no code occurs twice and every row has a code of 2 to 30
    characters A-Z and 0-9, a name of 1 to 250 bytes and status ACTIVE or
    DELETED (the empty table is one), any run of CreateFabric, UpdateFabric
    and DeleteFabric calls, with any arguments, contexts, driver failures
    and publisher outcomes, leaves such a table.  The schema itself asks
    for unique codes among the ACTIVE rows only. *)
Theorem X9_service_keeps_the_fabrics_table_well_formed
    (cs : list ServiceCall) (w : World) :
  table_ok (fabrics w) ->
  table_ok (fabrics (perform_all outcome cs w)).
Proof.
  unfold perform_all. revert w.
  induction cs as [|c rest IH]; intros w Hok; [exact Hok|].
  cbn [fold_left]. apply IH. now apply perform_table_ok.
Qed.

End TableInvariant.

Lemma X9_service_keeps_witness :
  table_ok
    (fabrics
       (perform_all never_fails
          [DoCreateFabric command.Background "AB1" "Cotton" "m" "ON";
           DoCreateFabric command.Background "AB1" "Linen" "m" "ON";
           DoUpdateFabric command.Background "AB1" "Linen" "m" "OFF" 1]
          (mkWorld [] [] [] 0 [] []))).
Proof.
  apply (X9_service_keeps_the_fabrics_table_well_formed never_fails
    [DoCreateFabric command.Background "AB1" "Cotton" "m" "ON";
     DoCreateFabric command.Background "AB1" "Linen" "m" "ON";
     DoUpdateFabric command.Background "AB1" "Linen" "m" "OFF" 1]
    (mkWorld [] [] [] 0 [] [])).
  split; cbn; constructor.
Defined.

(* ------------------------------------------------------------------ *)
(** ** Reading back what a command wrote *)

Section ReadBack.
Import messaging envelope.

Variable outcome : string -> EventEnvelope -> option error.

Lemma find_snoc {A} (q : A -> bool) (t : list A) (r : A) :
  find q t = None -> find q (t ++ [r]) = if q r then Some r else None.
Proof.
  induction t as [|a t IH]; cbn; [reflexivity|].
  destruct (q a); [discriminate|exact IH].
Qed.

Lemma find_none_weaker {A} (q q' : A -> bool) (t : list A) :
  (forall x, q x = false -> q' x = false) ->
  find q t = None -> find q' t = None.
Proof.
  intros Hq. induction t as [|a t IH]; cbn; [reflexivity|].
  destruct (q a) eqn:Ha; [discriminate|]. now rewrite (Hq a Ha).
Qed.

Lemma find_updated_hit (q q' where_ : FabricRow -> bool)
    (set : FabricRow -> FabricRow) (t : list FabricRow) (r : FabricRow) :
  find q t = Some r ->
  (forall x, where_ x = q x) ->
  (forall x, q x = false -> q' x = false) ->
  (forall x, q x = true -> q' (set x) = true) ->
  find q' (updated where_ set t) = Some (set r).
Proof.
  intros Hf Hwh Hno Hyes. induction t as [|a t IH]; cbn in *; [discriminate|].
  rewrite Hwh. destruct (q a) eqn:Hq.
  - injection Hf as <-. now rewrite (Hyes a Hq).
  - rewrite (Hno a Hq). now apply IH.
Qed.

Lemma find_updated_same (q' where_ : FabricRow -> bool)
    (set : FabricRow -> FabricRow) (t : list FabricRow) :
  (forall x, q' (set x) = q' x) ->
  find q' (updated where_ set t)
  = option_map (fun x => if where_ x then set x else x) (find q' t).
Proof.
  intros Hset. induction t as [|a t IH]; cbn; [reflexivity|].
  assert (Hq : q' (if where_ a then set a else a) = q' a).
  { destruct (where_ a); [apply Hset|reflexivity]. }
  rewrite Hq. destruct (q' a); [reflexivity|exact IH].
Qed.

Lemma GetByCode_eq (ctx : command.Context) (code : string) (w : World) :
  application.GetByCode (wired outcome) ctx code w =
  (match next_outcome (driver w) with
   | Some err => Err (Errorf "failed to get fabric by code" err)
   | None =>
     match find (active_code code) (fabrics w) with
     | Some r => Ok (persistence.scan r)
     | None => Err (Errorf ("fabric with code " ++ code ++ " not found")
                      ErrRecordNotFound)
     end
   end, with_driver (tl (driver w)) w).
Proof.
  unfold application.GetByCode.
  cbn [application.commandRepo wired application.NewFabricCommandService
       repo_GetByCode persistence.FabricPostgresRepository].
  unfold persistence.GetByCode. now rewrite get_by_eq.
Qed.

Lemma no_active_row (t : list FabricRow) (code : string) (r0 : FabricRow) :
  NoDup (map row_code t) ->
  find (fun x => row_code x =? code) t = Some r0 ->
  row_status r0 = StatusDeleted ->
  find (active_code code) t = None.
Proof.
  intros Hnd Hfind Hdel.
  destruct (find (active_code code) t) as [r|] eqn:Hf; [|reflexivity].
  apply find_some_row in Hf. destruct Hf as [Hin Hq].
  apply find_some_row in Hfind. destruct Hfind as [Hin0 Hq0].
  apply Bool.andb_true_iff in Hq. destruct Hq as [Hc Hs].
  apply String.eqb_eq in Hc, Hs, Hq0.
  assert (r = r0) by (apply (unique_code_row t); congruence).
  subst r. rewrite Hdel in Hs. discriminate.
Qed.

(** After a Save that returned a fabric, the table holds the fabric's row
    as the ACTIVE row of its code, and held no such row before. *)
Lemma Save_readback (ctx : command.Context) (fabric p : Fabric)
    (w w1 : World) :
  table_ok (fabrics w) -> Status fabric = StatusActive ->
  persistence.Save ctx fabric w = (Ok p, w1) ->
  Code p = Code fabric /\ Name p = Name fabric /\
  MeasureUnit p = MeasureUnit fabric /\ OfferStatus p = OfferStatus fabric /\
  Status p = StatusActive /\
  find (active_code (Code fabric)) (fabrics w) = None /\
  find (active_code (Code fabric)) (fabrics w1) = Some (row_of_fabric p).
Proof.
  intros [Hnd Hrows] Hact Hsave. rewrite Forall_forall in Hrows.
  pose proof (Save_table ctx fabric w) as Ht. rewrite Hsave in Ht.
  assert (Hweak : forall x, (row_code x =? Code fabric) = false ->
                            active_code (Code fabric) x = false).
  { intros x Hx. unfold active_code. now rewrite Hx. }
  destruct Ht as [(-> & -> & Hfind)|(r0 & Hfind & Hdel & Hname & -> & ->)].
  - do 4 (split; [reflexivity|]). split; [exact Hact|].
    destruct Hfind as [Hnone|(r0 & Hsome & Hna & Hnd')].
    + pose proof (find_none_weaker _ _ _ Hweak Hnone) as Hn.
      split; [exact Hn|]. rewrite (find_snoc _ _ _ Hn).
      unfold active_code, row_of_fabric. cbn.
      rewrite String.eqb_refl, Hact. reflexivity.
    + apply find_some_row in Hsome. destruct Hsome as [Hin _].
      destruct (Hrows r0 Hin) as (_ & _ & _ & [Ha|Hd]); contradiction.
  - pose proof (find_some_row _ _ _ Hfind) as [Hin Hc].
    apply String.eqb_eq in Hc. cbn [Code Name MeasureUnit OfferStatus Status].
    split; [exact Hc|]. do 4 (split; [reflexivity|]).
    split; [exact (no_active_row _ _ _ Hnd Hfind Hdel)|].
    rewrite (find_updated_hit (fun x => row_code x =? Code fabric)
               (active_code (Code fabric)) _ _ _ r0 Hfind).
    + unfold reactivate_set, row_of_fabric. cbn. reflexivity.
    + intros x. now rewrite Hc.
    + exact Hweak.
    + intros x Hx. unfold active_code, reactivate_set. cbn. now rewrite Hx.
Qed.

(** After an UPDATE that met a row, the ACTIVE row of the code is the
    rewritten one. *)
Lemma Update_readback (code : string) (f : Fabric) (t : list FabricRow)
    (r0 : FabricRow) :
  NoDup (map row_code t) ->
  find (active_code code) t = Some r0 ->
  Code f = row_code r0 ->
  existsb (update_where f) t = true ->
  find (active_code code) (updated (update_where f) (update_set f) t)
  = Some (update_set f r0).
Proof.
  intros Hnd Hfind Hcode Hex.
  rewrite find_updated_same by reflexivity. rewrite Hfind. cbn [option_map].
  apply find_some_row in Hfind. destruct Hfind as [Hin0 _].
  apply existsb_exists in Hex. destruct Hex as (x & Hin & Hwh).
  assert (x = r0).
  { apply (unique_code_row t); auto. unfold update_where in Hwh.
    apply Bool.andb_true_iff in Hwh. destruct Hwh as [Hwh _].
    apply Bool.andb_true_iff in Hwh. destruct Hwh as [Hc _].
    apply String.eqb_eq in Hc. congruence. }
  subst x. now rewrite Hwh.
Qed.

(** X10.  Read your writes, CreateFabric: on a well-formed table, when
    CreateFabric returns a fabric, the fabric has the code, name, measure
    unit and offer status of the call and status ACTIVE; the events table
    has grown by one row that carries the code and the fabric's version; and
    GetByCode of the code (the driver not failing) returns that very fabric,
    without pending events. *)
Theorem X10_created_fabric_is_read_back (ctx ctx2 : command.Context)
    (code name measureUnit offerStatus : string) (w w' : World) (f : Fabric) :
  table_ok (fabrics w) ->
  application.CreateFabric (wired outcome) ctx code name measureUnit
    offerStatus w = (Ok f, w') ->
  next_outcome (driver w') = None ->
  Code f = code /\ Name f = name /\ MeasureUnit f = measureUnit /\
  OfferStatus f = offerStatus /\ Status f = StatusActive /\
  (exists e, events_table w' = events_table w ++ [eventstore.row_of e] /\
             AggregateID e = code /\ AggregateVersion e = Version f) /\
  fst (application.GetByCode (wired outcome) ctx2 code w')
  = Ok (mkFabric code name measureUnit offerStatus StatusActive
          (Version f) []).
Proof.
  intros Hok Hcreate Hquiet.
  pose proof (CreateFabric_table outcome ctx code name measureUnit
                offerStatus w) as Ht.
  pose proof (CreateFabric_spec outcome ctx code name measureUnit
                offerStatus w) as Hs.
  rewrite Hcreate in Ht, Hs.
  destruct Ht as [(_ & err & Herr & _)|(fabric & p & w1 & Hnew & Hsave & Hfab & Hr)];
    [discriminate|].
  destruct Hr as [Hr|(err & Hr & _)]; [|discriminate].
  injection Hr as ->.
  pose proof (NewFabric_Ok_inv _ _ _ _ _ Hnew) as [Hfabric _].
  assert (Hact : Status fabric = StatusActive) by now subst fabric.
  destruct (Save_readback _ _ _ _ _ Hok Hact Hsave)
    as (Hc & Hn & Hmu & Hos & Hst & _ & Hfind).
  subst fabric. cbn [Code Name MeasureUnit OfferStatus] in *.
  do 5 (split; [assumption|]). split.
  - destruct Hs as (e & He & Hid & Hv & _). exists e. rewrite Hid, Hc. auto.
  - rewrite GetByCode_eq, Hquiet, Hfab, Hfind. cbn [fst].
    unfold persistence.scan, row_of_fabric. cbn. congruence.
Qed.

(** What a successful UpdateFabric leaves in the table. *)
Lemma UpdateFabric_readback (ctx : command.Context)
    (code name measureUnit offerStatus : string) (version : Z)
    (w w' : World) (r : result Fabric) :
  NoDup (map row_code (fabrics w)) ->
  application.UpdateFabric (wired outcome) ctx code name measureUnit
    offerStatus version w = (r, w') ->
  (r = Ok (mkFabric code name measureUnit offerStatus StatusActive
             (GoInt.add version 1)
             [FabricUpdated code name measureUnit offerStatus
                (GoInt.add version 1)]) \/
   exists err,
     r = Err (Errorf "failed to save update event to event store" err)) ->
  (exists r0, In r0 (fabrics w) /\ row_code r0 = code /\
              row_version r0 = version /\ row_status r0 = "ACTIVE") /\
  find (active_code code) (fabrics w')
  = Some (mkFabricRow (GoInt.add version 1) code name measureUnit
            offerStatus "ACTIVE").
Proof.
  intros Hnd Hupd Hr.
  pose proof (UpdateFabric_table outcome ctx code name measureUnit
                offerStatus version w) as Ht.
  rewrite Hupd in Ht.
  destruct Ht as [(_ & err & -> & Hne)
                 |(r0 & f & Hfind & Hv & Hname & Hf & Hex & Hfab & _)].
  { destruct Hr as [Hr|(e & Hr)]; [discriminate|].
    injection Hr as ->. now elim (Hne e). }
  pose proof (find_some_row _ _ _ Hfind) as [Hin Hq].
  apply Bool.andb_true_iff in Hq. destruct Hq as [Hc Hs].
  apply String.eqb_eq in Hc, Hs.
  split; [exists r0; auto|].
  rewrite Hfab.
  rewrite (Update_readback code f (fabrics w) r0 Hnd Hfind);
    [|now subst f|exact Hex].
  subst f. unfold update_set. cbn. now rewrite Hc, Hs.
Qed.

(** X11.  Read your writes, UpdateFabric: on a table without duplicate
    codes, when UpdateFabric returns a fabric, it is the fabric of the code
    with the name, measure unit and offer status of the call, status ACTIVE
    and the version after the expected one; the events table has grown by
    one row carrying the code and that version; and GetByCode of the code
    (the driver not failing) returns that fabric, without pending events. *)
Theorem X11_updated_fabric_is_read_back (ctx ctx2 : command.Context)
    (code name measureUnit offerStatus : string) (version : Z)
    (w w' : World) (f : Fabric) :
  NoDup (map row_code (fabrics w)) ->
  application.UpdateFabric (wired outcome) ctx code name measureUnit
    offerStatus version w = (Ok f, w') ->
  next_outcome (driver w') = None ->
  f = mkFabric code name measureUnit offerStatus StatusActive
        (GoInt.add version 1)
        [FabricUpdated code name measureUnit offerStatus
           (GoInt.add version 1)] /\
  (exists e, events_table w' = events_table w ++ [eventstore.row_of e] /\
             AggregateID e = code /\
             AggregateVersion e = GoInt.add version 1) /\
  fst (application.GetByCode (wired outcome) ctx2 code w')
  = Ok (mkFabric code name measureUnit offerStatus StatusActive
          (GoInt.add version 1) []).
Proof.
  intros Hnd Hupd Hquiet.
  assert (Hf : f = mkFabric code name measureUnit offerStatus StatusActive
                 (GoInt.add version 1)
                 [FabricUpdated code name measureUnit offerStatus
                    (GoInt.add version 1)]).
  { pose proof (UpdateFabric_table outcome ctx code name measureUnit
                  offerStatus version w) as Ht.
    rewrite Hupd in Ht.
    destruct Ht as [(_ & err & Herr & _)
                   |(r0 & f0 & Hfind & Hv & _ & Hf0 & _ & _ & Hr)];
      [discriminate|].
    destruct Hr as [Hr|(err & Hr & _)]; [|discriminate].
    injection Hr as ->. subst f0.
    apply find_some_row in Hfind. destruct Hfind as [_ Hq].
    apply Bool.andb_true_iff in Hq. destruct Hq as [Hc Hs].
    apply String.eqb_eq in Hc, Hs. now rewrite Hc, Hs. }
  split; [exact Hf|].
  pose proof (UpdateFabric_spec outcome ctx code name measureUnit
                offerStatus version w) as Hs.
  rewrite Hupd in Hs. destruct Hs as (e & He & Hid & Hver & _).
  split.
  - exists e. rewrite Hid, Hver, Hf. auto.
  - destruct (UpdateFabric_readback ctx code name measureUnit offerStatus
                version w w' (Ok f) Hnd Hupd) as [_ Hfind];
      [left; now rewrite Hf|].
    rewrite GetByCode_eq, Hquiet, Hfind. reflexivity.
Qed.

(** X12.  A command that is rejected leaves no trace: when CreateFabric,
    UpdateFabric or DeleteFabric returns an error that is not a failure of
    the storage layer (a validation error, ErrDuplicateFabricCode,
    ErrRecordNotFound, ErrConcurrencyConflict, ErrFabricDeleted), the
    fabrics table, the events table and the publisher's record are as
    before the call. *)
Theorem X12_rejected_command_leaves_no_trace (c : ServiceCall) (w : World)
    (err : error) :
  failure_of outcome c w = Some err ->
  ~ storage_failure err ->
  fabrics (perform outcome c w) = fabrics w /\
  events_table (perform outcome c w) = events_table w /\
  published (perform outcome c w) = published w.
Proof.
  intros Hfail Hns.
  destruct c as [ctx code name mu os|ctx code name mu os v|ctx code v];
    cbn [perform failure_of] in *.
  - pose proof (CreateFabric_table outcome ctx code name mu os w) as Ht.
    pose proof (CreateFabric_spec outcome ctx code name mu os w) as Hs.
    destruct (application.CreateFabric _ _ _ _ _ _ _) as [[f|e] w'];
      cbn [fst snd] in *; [discriminate|].
    injection Hfail as ->. destruct Hs as (Hp & He & _).
    split; [|auto].
    destruct Ht as [[Hfab _]|(fabric & p & w1 & _ & _ & _ & Hr)];
      [exact Hfab|].
    destruct Hr as [Hr|(e & Hr & Hsf)]; [discriminate|].
    injection Hr as Heq. elim Hns. rewrite Heq. exact Hsf.
  - pose proof (UpdateFabric_table outcome ctx code name mu os v w) as Ht.
    pose proof (UpdateFabric_spec outcome ctx code name mu os v w) as Hs.
    destruct (application.UpdateFabric _ _ _ _ _ _ _ _) as [[f|e] w'];
      cbn [fst snd] in *; [discriminate|].
    injection Hfail as ->. destruct Hs as (Hp & He & _).
    split; [|auto].
    destruct Ht as [[Hfab _]|(r0 & f0 & _ & _ & _ & _ & _ & _ & Hr)];
      [exact Hfab|].
    destruct Hr as [Hr|(e & Hr & Hsf)]; [discriminate|].
    injection Hr as Heq. elim Hns. rewrite Heq. exact Hsf.
  - pose proof (DeleteFabric_table outcome ctx code v w) as Ht.
    pose proof (DeleteFabric_spec outcome ctx code v w) as Hs.
    destruct (application.DeleteFabric _ _ _ _ _) as [[e|] w'];
      cbn [fst snd] in *; [|discriminate].
    injection Hfail as ->. destruct Hs as (Hp & He & _).
    split; [|auto].
    destruct Ht as [[Hfab _]|(r0 & f0 & _ & _ & _ & _ & _ & Hr)];
      [exact Hfab|].
    destruct Hr as [Hr|(e & Hr & Hsf)]; [discriminate|].
    injection Hr as Heq. elim Hns. rewrite Heq. exact Hsf.
Qed.

(** X13.  Optimistic locking through the service: after UpdateFabric has
    returned a fabric for an expected version (a Go int), a second
    UpdateFabric and a DeleteFabric that still carry that expected version
    both return ErrConcurrencyConflict, unwrapped (the table holding no
    code twice and the driver not failing). *)
Theorem X13_service_refuses_the_stale_version (ctx ctx2 : command.Context)
    (code name measureUnit offerStatus name2 measureUnit2 offerStatus2 : string)
    (version : Z) (w w' : World) (f : Fabric) :
  NoDup (map row_code (fabrics w)) ->
  GoInt.in_range version ->
  application.UpdateFabric (wired outcome) ctx code name measureUnit
    offerStatus version w = (Ok f, w') ->
  next_outcome (driver w') = None ->
  fst (application.UpdateFabric (wired outcome) ctx2 code name2 measureUnit2
         offerStatus2 version w') = Err ErrConcurrencyConflict /\
  fst (application.DeleteFabric (wired outcome) ctx2 code version w')
  = Some ErrConcurrencyConflict.
Proof.
  intros Hnd Hrange Hupd Hquiet.
  assert (Hfind : find (active_code code) (fabrics w')
                  = Some (mkFabricRow (GoInt.add version 1) code name
                            measureUnit offerStatus "ACTIVE")).
  { assert (Hf : exists evs,
               f = mkFabric code name measureUnit offerStatus StatusActive
                     (GoInt.add version 1) evs).
    { pose proof (UpdateFabric_table outcome ctx code name measureUnit
                    offerStatus version w) as Ht.
      rewrite Hupd in Ht.
      destruct Ht as [(_ & err & Herr & _)
                     |(r0 & f0 & Hfind & Hv & _ & Hf0 & _ & _ & Hr)];
        [discriminate|].
      destruct Hr as [Hr|(err & Hr & _)]; [|discriminate].
      injection Hr as ->. subst f0.
      apply find_some_row in Hfind. destruct Hfind as [_ Hq].
      apply Bool.andb_true_iff in Hq. destruct Hq as [Hc Hs].
      apply String.eqb_eq in Hc, Hs. rewrite Hc, Hs. eauto. }
    pose proof (UpdateFabric_table outcome ctx code name measureUnit
                  offerStatus version w) as Ht.
    rewrite Hupd in Ht.
    destruct Ht as [(_ & err & Herr & _)
                   |(r0 & f0 & Hfind & Hv & _ & Hf0 & Hex & Hfab & _)];
      [discriminate|].
    pose proof (find_some_row _ _ _ Hfind) as [_ Hq].
    apply Bool.andb_true_iff in Hq. destruct Hq as [Hc Hs].
    apply String.eqb_eq in Hc, Hs.
    rewrite Hfab.
    rewrite (Update_readback code f0 (fabrics w) r0 Hnd Hfind);
      [|now subst f0|exact Hex].
    subst f0. unfold update_set. cbn. now rewrite Hc, Hs. }
  assert (Hne : (GoInt.add version 1 =? version)%Z = false).
  { apply Z.eqb_neq. now apply add_neq. }
  unfold active_code in Hfind. split.
  - rewrite UpdateFabric_eq. cbv zeta. unfold bind at 1.
    cbn [application.commandRepo wired application.NewFabricCommandService
         repo_GetByCode persistence.FabricPostgresRepository].
    unfold persistence.GetByCode. rewrite get_by_eq, Hquiet, Hfind.
    rewrite UpdateFabric_of_active by reflexivity.
    cbn [persistence.scan Version row_version]. rewrite Hne. reflexivity.
  - rewrite DeleteFabric_eq. cbv zeta. unfold bind at 1.
    cbn [application.commandRepo wired application.NewFabricCommandService
         repo_GetByCode persistence.FabricPostgresRepository].
    unfold persistence.GetByCode. rewrite get_by_eq, Hquiet, Hfind.
    rewrite Delete_of_active by reflexivity.
    cbn [persistence.scan Version row_version]. rewrite Hne. reflexivity.
Qed.

(** X14.  The fabrics table and the event store are written one after the
    other, and the first write is not taken back: when UpdateFabric returns
    the error of a failed event store append, the events table and the
    publisher's record are as before, but the fabrics table already holds
    the row with the new values and the next version; when CreateFabric
    does, the table already holds an ACTIVE row of the code, which it did
    not hold before. *)
Theorem X14_table_write_survives_event_store_failure (w : World) :
  table_ok (fabrics w) ->
  (forall ctx code name measureUnit offerStatus version err w',
     application.UpdateFabric (wired outcome) ctx code name measureUnit
       offerStatus version w
     = (Err (Errorf "failed to save update event to event store" err), w') ->
     (exists r0, In r0 (fabrics w) /\ row_code r0 = code /\
                 row_version r0 = version /\ row_status r0 = "ACTIVE") /\
     find (active_code code) (fabrics w')
     = Some (mkFabricRow (GoInt.add version 1) code name measureUnit
               offerStatus "ACTIVE") /\
     events_table w' = events_table w /\ published w' = published w) /\
  (forall ctx code name measureUnit offerStatus err w',
     application.CreateFabric (wired outcome) ctx code name measureUnit
       offerStatus w
     = (Err (Errorf "failed to save to event store" err), w') ->
     find (active_code code) (fabrics w) = None /\
     (exists v, find (active_code code) (fabrics w')
                = Some (mkFabricRow v code name measureUnit offerStatus
                          "ACTIVE")) /\
     events_table w' = events_table w /\ published w' = published w).
Proof.
  intros Hok. pose proof Hok as [Hnd _]. split.
  - intros ctx code name mu os v err w' Hupd.
    destruct (UpdateFabric_readback ctx code name mu os v w w' _ Hnd Hupd)
      as [Hold Hnew]; [right; eauto|].
    pose proof (UpdateFabric_spec outcome ctx code name mu os v w) as Hs.
    rewrite Hupd in Hs. destruct Hs as (Hp & He & _). auto.
  - intros ctx code name mu os err w' Hcreate.
    pose proof (CreateFabric_table outcome ctx code name mu os w) as Ht.
    pose proof (CreateFabric_spec outcome ctx code name mu os w) as Hs.
    rewrite Hcreate in Ht, Hs. destruct Hs as (Hp & He & _).
    destruct Ht as [(_ & e & He' & Hne)
                   |(fabric & p & w1 & Hnew & Hsave & Hfab & _)].
    { injection He' as <-. now elim (Hne err). }
    pose proof (NewFabric_Ok_inv _ _ _ _ _ Hnew) as [Hfabric _].
    assert (Hact : Status fabric = StatusActive) by now subst fabric.
    destruct (Save_readback _ _ _ _ _ Hok Hact Hsave)
      as (Hc & Hn & Hmu & Hos & Hst & Hnone & Hfind).
    subst fabric. cbn [Code Name MeasureUnit OfferStatus] in *.
    split; [exact Hnone|]. split; [|auto].
    exists (Version p). rewrite Hfab, Hfind. unfold row_of_fabric.
    now rewrite Hc, Hn, Hmu, Hos, Hst.
Qed.

(** X15.  DeleteFabric never takes effect: on a table that holds no code
    twice and whose versions are Go ints, it returns an error whatever the
    code, the version, the context and the driver do, and the fabrics
    table, the events table and the publisher's record are as before.  (The
    aggregate's Delete moves the version on, and the repository's Delete
    then looks for the row by the new version.) *)
Theorem X15_DeleteFabric_never_takes_effect (ctx : command.Context)
    (code : string) (version : Z) (w : World) :
  NoDup (map row_code (fabrics w)) ->
  (forall r, In r (fabrics w) -> GoInt.in_range (row_version r)) ->
  fst (application.DeleteFabric (wired outcome) ctx code version w) <> None /\
  perform outcome (DoDeleteFabric ctx code version) w
  = snd (application.DeleteFabric (wired outcome) ctx code version w) /\
  fabrics (perform outcome (DoDeleteFabric ctx code version) w) = fabrics w /\
  events_table (perform outcome (DoDeleteFabric ctx code version) w)
  = events_table w /\
  published (perform outcome (DoDeleteFabric ctx code version) w)
  = published w.
Proof.
  intros Hnd Hrange. cbn [perform].
  pose proof (DeleteFabric_cannot_succeed outcome ctx code version w
                Hnd Hrange) as Hc.
  pose proof (DeleteFabric_spec outcome ctx code version w) as Hs.
  destruct (application.DeleteFabric _ _ _ _ _) as [[e|] w'];
    cbn [fst snd] in *.
  - destruct Hc as [Hfab _]. destruct Hs as (Hp & He & _).
    repeat split; auto. discriminate.
  - destruct Hc as [_ Hne]. now elim Hne.
Qed.

End ReadBack.

Lemma X12_rejected_command_witness :
  fabrics (perform never_fails
             (DoCreateFabric command.Background "AB1" "Linen" "m" "ON")
             (mkWorld [mkFabricRow 1 "AB1" "Cotton" "m" "ON" "ACTIVE"]
                [] [] 0 [] []))
  = [mkFabricRow 1 "AB1" "Cotton" "m" "ON" "ACTIVE"].
Proof.
  apply (X12_rejected_command_leaves_no_trace never_fails
           (DoCreateFabric command.Background "AB1" "Linen" "m" "ON")
           (mkWorld [mkFabricRow 1 "AB1" "Cotton" "m" "ON" "ACTIVE"]
              [] [] 0 [] [])
           (Errorf "failed to save fabric" ErrDuplicateFabricCode)).
  - vm_compute. reflexivity.
  - intros H. exact H.
Defined.

Lemma X13_service_refuses_witness :
  fst (application.DeleteFabric (wired never_fails) command.Background
         "AB1" 1
         (snd (application.UpdateFabric (wired never_fails)
                 command.Background "AB1" "Linen" "cm" "OFF" 1
                 (mkWorld [mkFabricRow 1 "AB1" "Cotton" "m" "ON" "ACTIVE"]
                    [] [] 0 [] []))))
  = Some ErrConcurrencyConflict.
Proof.
  apply (X13_service_refuses_the_stale_version never_fails
           command.Background command.Background
           "AB1" "Linen" "cm" "OFF" "Silk" "m" "ON" 1
           (mkWorld [mkFabricRow 1 "AB1" "Cotton" "m" "ON" "ACTIVE"]
              [] [] 0 [] [])
           (snd (application.UpdateFabric (wired never_fails)
                   command.Background "AB1" "Linen" "cm" "OFF" 1
                   (mkWorld [mkFabricRow 1 "AB1" "Cotton" "m" "ON" "ACTIVE"]
                      [] [] 0 [] [])))
           (mkFabric "AB1" "Linen" "cm" "OFF" StatusActive 2
              [FabricUpdated "AB1" "Linen" "cm" "OFF" 2])).
  - cbn. repeat constructor. intros [].
  - unfold GoInt.in_range, GoInt.min_int, GoInt.max_int. lia.
  - vm_compute. reflexivity.
  - reflexivity.
Defined.

Lemma X14_table_write_witness :
  let w := mkWorld [mkFabricRow 1 "AB1" "Cotton" "m" "ON" "ACTIVE"] []
             [None; None; Some (FaultConn "connection refused")] 0 [] [] in
  find (active_code "AB1")
    (fabrics (snd (application.UpdateFabric (wired never_fails)
                     command.Background "AB1" "Linen" "cm" "OFF" 1 w)))
  = Some (mkFabricRow 2 "AB1" "Linen" "cm" "OFF" "ACTIVE").
Proof.
  intros w.
  assert (Hok : table_ok (fabrics w)).
  { split; [cbn; repeat constructor; intros []|].
    constructor; [|constructor].
    unfold row_ok, code_in_bounds, code_in_pattern, name_in_bounds. cbn.
    split; [lia|]. split; [|split; [lia|now left]].
    repeat (constructor; [unfold uppercase_alphanumeric; cbn; lia|]).
    constructor. }
  apply (proj1 (X14_table_write_survives_event_store_failure never_fails w
                  Hok)
           command.Background "AB1" "Linen" "cm" "OFF" 1
           (Errorf "could not begin transaction"
              (DriverError "connection refused"))
           (snd (application.UpdateFabric (wired never_fails)
                   command.Background "AB1" "Linen" "cm" "OFF" 1 w))).
  vm_compute. reflexivity.
Defined.

Lemma X15_DeleteFabric_witness :
  fst (application.DeleteFabric (wired never_fails) command.Background
         "AB1" 1
         (mkWorld [mkFabricRow 1 "AB1" "Cotton" "m" "ON" "ACTIVE"]
            [] [] 0 [] [])) <> None.
Proof.
  apply (X15_DeleteFabric_never_takes_effect never_fails command.Background
           "AB1" 1
           (mkWorld [mkFabricRow 1 "AB1" "Cotton" "m" "ON" "ACTIVE"]
              [] [] 0 [] [])).
  - cbn. repeat constructor. intros [].
  - cbn. intros r [<-|[]]. unfold GoInt.in_range, GoInt.min_int,
      GoInt.max_int. cbn. lia.
Defined.

Lemma X10_created_fabric_witness :
  fst (application.GetByCode (wired never_fails) command.Background "AB1"
         (snd (application.CreateFabric (wired never_fails)
                 command.Background "AB1" "Cotton" "m" "ON"
                 (mkWorld [] [] [] 0 [] []))))
  = Ok (mkFabric "AB1" "Cotton" "m" "ON" StatusActive 1 []).
Proof.
  apply (X10_created_fabric_is_read_back never_fails command.Background
           command.Background "AB1" "Cotton" "m" "ON"
           (mkWorld [] [] [] 0 [] [])
           (snd (application.CreateFabric (wired never_fails)
                   command.Background "AB1" "Cotton" "m" "ON"
                   (mkWorld [] [] [] 0 [] [])))
           (mkFabric "AB1" "Cotton" "m" "ON" StatusActive 1
              [FabricCreated "AB1" "Cotton" "m" "ON" 1])).
  - split; cbn; constructor.
  - vm_compute. reflexivity.
  - reflexivity.
Defined.

Lemma X11_updated_fabric_witness :
  fst (application.GetByCode (wired never_fails) command.Background "AB1"
         (snd (application.UpdateFabric (wired never_fails)
                 command.Background "AB1" "Linen" "cm" "OFF" 1
                 (mkWorld [mkFabricRow 1 "AB1" "Cotton" "m" "ON" "ACTIVE"]
                    [] [] 0 [] []))))
  = Ok (mkFabric "AB1" "Linen" "cm" "OFF" StatusActive 2 []).
Proof.
  apply (X11_updated_fabric_is_read_back never_fails command.Background
           command.Background "AB1" "Linen" "cm" "OFF" 1
           (mkWorld [mkFabricRow 1 "AB1" "Cotton" "m" "ON" "ACTIVE"]
              [] [] 0 [] [])
           (snd (application.UpdateFabric (wired never_fails)
                   command.Background "AB1" "Linen" "cm" "OFF" 1
                   (mkWorld [mkFabricRow 1 "AB1" "Cotton" "m" "ON" "ACTIVE"]
                      [] [] 0 [] [])))
           (mkFabric "AB1" "Linen" "cm" "OFF" StatusActive 2
              [FabricUpdated "AB1" "Linen" "cm" "OFF" 2])).
  - cbn. repeat constructor. intros [].
  - vm_compute. reflexivity.
  - reflexivity.
Defined.

(* ------------------------------------------------------------------ *)
(** ** The event adapter, continued *)

Section AdapterWorld.
Import messaging handler.

Variable outcome : string -> EventEnvelope -> option error.

(** The world a message leaves behind: the world of at most one command of
    the service, made in a context marked as coming from an event, plus one
    line in the log. *)
Lemma HandleMessage_world (ctx : command.Context) (subject : string)
    (payload : option EventEnvelope) (w : World) :
  exists line w0,
    snd (HandleMessage (wired_adapter outcome) ctx subject payload w)
      = with_logs (logs w0 ++ [line]) w0 /\
    (w0 = w \/
     exists c, w0 = perform outcome c w /\
       match c with
       | DoCreateFabric c' _ _ _ _ | DoUpdateFabric c' _ _ _ _ _
       | DoDeleteFabric c' _ _ =>
           c' = command.WithCommandSource ctx command.CommandSourceEvent
       end).
Proof.
  unfold HandleMessage.
  destruct payload as [envelope|]; [|eexists _, w; split; [reflexivity|auto]].
  destruct (Validate envelope);
    [eexists _, w; split; [reflexivity|auto]|].
  unfold adaptEventToCommand.
  destruct (decode_payload (Payload_ envelope)) as [ev|];
    [|eexists _, w; split; [reflexivity|auto]].
  destruct (EventType envelope =? "erp.fabric.created").
  { unfold handleCreateEvent. cbv zeta.
    destruct (negb (Valid _));
      [eexists _, w; split; [reflexivity|auto]|].
    unfold bind.
    cbn [service wired_adapter of_FabricService CreateFabric].
    match goal with
    | |- context [application.CreateFabric _ ?c ?a1 ?a2 ?a3 ?a4 w] =>
        assert (Hw : perform outcome (DoCreateFabric c a1 a2 a3 a4) w
                     = snd (application.CreateFabric (wired outcome) c a1 a2
                              a3 a4 w)) by reflexivity;
        destruct (application.CreateFabric (wired outcome) c a1 a2 a3 a4 w)
          as [[f|e] w1]
    end; cbn [snd] in *.
    - eexists _, w1. split; [reflexivity|]. right. eexists.
      split; [symmetry; exact Hw|reflexivity].
    - destruct (errors_Is e ErrDuplicateFabricCode);
        [eexists _, w1; split; [reflexivity|]; right; eexists;
         split; [symmetry; exact Hw|reflexivity]|].
      destruct (_ || _)%bool;
        (eexists _, w1; split; [reflexivity|]; right; eexists;
         split; [symmetry; exact Hw|reflexivity]). }
  destruct (EventType envelope =? "erp.fabric.updated").
  { unfold handleUpdateEvent. cbv zeta.
    destruct (negb (Valid _));
      [eexists _, w; split; [reflexivity|auto]|].
    unfold bind.
    cbn [service wired_adapter of_FabricService UpdateFabric].
    match goal with
    | |- context [application.UpdateFabric _ ?c ?a1 ?a2 ?a3 ?a4 ?v w] =>
        assert (Hw : perform outcome (DoUpdateFabric c a1 a2 a3 a4 v) w
                     = snd (application.UpdateFabric (wired outcome) c a1 a2
                              a3 a4 v w)) by reflexivity;
        destruct (application.UpdateFabric (wired outcome) c a1 a2 a3 a4 v w)
          as [[f|e] w1]
    end; cbn [snd] in *.
    - eexists _, w1. split; [reflexivity|]. right. eexists.
      split; [symmetry; exact Hw|reflexivity].
    - destruct (errors_Is e ErrRecordNotFound);
        [eexists _, w1; split; [reflexivity|]; right; eexists;
         split; [symmetry; exact Hw|reflexivity]|].
      destruct (errors_Is e ErrConcurrencyConflict);
        [eexists _, w1; split; [reflexivity|]; right; eexists;
         split; [symmetry; exact Hw|reflexivity]|].
      destruct (errors_Is e ErrInvalidFabricNameLength);
        (eexists _, w1; split; [reflexivity|]; right; eexists;
         split; [symmetry; exact Hw|reflexivity]). }
  destruct (EventType envelope =? "erp.fabric.deleted").
  { unfold handleDeleteEvent. cbv zeta. unfold bind.
    cbn [service wired_adapter of_FabricService DeleteFabric].
    match goal with
    | |- context [application.DeleteFabric _ ?c ?a1 ?v w] =>
        assert (Hw : perform outcome (DoDeleteFabric c a1 v) w
                     = snd (application.DeleteFabric (wired outcome) c a1 v
                              w)) by reflexivity;
        destruct (application.DeleteFabric (wired outcome) c a1 v w)
          as [[e|] w1]
    end; cbn [snd] in *.
    - destruct (errors_Is e ErrRecordNotFound);
        [eexists _, w1; split; [reflexivity|]; right; eexists;
         split; [symmetry; exact Hw|reflexivity]|].
      destruct (errors_Is e ErrConcurrencyConflict);
        (eexists _, w1; split; [reflexivity|]; right; eexists;
         split; [symmetry; exact Hw|reflexivity]).
    - eexists _, w1. split; [reflexivity|]. right. eexists.
      split; [symmetry; exact Hw|reflexivity]. }
  eexists _, w; split; [reflexivity|auto].
Qed.

(** A command made in a context that is not from REST publishes nothing
    and adds at most one row to the events table. *)
Lemma perform_from_event (c : ServiceCall) (w : World) :
  command.IsFromREST (call_context c) = false ->
  published (perform outcome c w) = published w /\
  exists added, events_table (perform outcome c w) = events_table w ++ added
                /\ (List.length added <= 1)%nat.
Proof.
  intros Hrest.
  destruct c as [c code name mu os|c code name mu os v|c code v];
    cbn [perform call_context] in *.
  - pose proof (CreateFabric_spec outcome c code name mu os w) as Hs.
    destruct (application.CreateFabric _ _ _ _ _ _ _) as [[f|e] w'];
      cbn [snd].
    + destruct Hs as (e & He & _ & _ & Hp & _). rewrite Hrest in Hp.
      rewrite app_nil_r in Hp. split; [exact Hp|]. eexists. split; [exact He|].
      cbn. lia.
    + destruct Hs as (Hp & He & _). split; [exact Hp|]. exists [].
      rewrite app_nil_r. split; [exact He|]. cbn. lia.
  - pose proof (UpdateFabric_spec outcome c code name mu os v w) as Hs.
    destruct (application.UpdateFabric _ _ _ _ _ _ _ _) as [[f|e] w'];
      cbn [snd].
    + destruct Hs as (e & He & _ & _ & Hp & _). rewrite Hrest in Hp.
      rewrite app_nil_r in Hp. split; [exact Hp|]. eexists. split; [exact He|].
      cbn. lia.
    + destruct Hs as (Hp & He & _). split; [exact Hp|]. exists [].
      rewrite app_nil_r. split; [exact He|]. cbn. lia.
  - pose proof (DeleteFabric_spec outcome c code v w) as Hs.
    destruct (application.DeleteFabric _ _ _ _ _) as [[e|] w']; cbn [snd].
    + destruct Hs as (Hp & He & _). split; [exact Hp|]. exists [].
      rewrite app_nil_r. split; [exact He|]. cbn. lia.
    + destruct Hs as (e & He & _ & Hp & _). rewrite Hrest in Hp.
      rewrite app_nil_r in Hp. split; [exact Hp|]. eexists. split; [exact He|].
      cbn. lia.
Qed.

(** X16.  Inbound events are never published: whatever message the event
    adapter is given, in whatever context (also one marked as coming from
    REST), whatever the driver does, the publisher receives nothing; the
    events table grows by at most one row; and a well-formed fabrics table
    stays well-formed. *)
Theorem X16_inbound_events_are_never_published (ctx : command.Context)
    (subject : string) (payload : option EventEnvelope) (w : World) :
  published (snd (HandleMessage (wired_adapter outcome) ctx subject payload w)) = published w /\
  (exists added,
     events_table (snd (HandleMessage (wired_adapter outcome) ctx subject payload w))
       = events_table w ++ added /\ (List.length added <= 1)%nat) /\
  (table_ok (fabrics w) ->
   table_ok (fabrics (snd (HandleMessage (wired_adapter outcome) ctx subject payload w)))).
Proof.
  destruct (HandleMessage_world ctx subject payload w)
    as (line & w0 & -> & [->|(c & -> & Hc)]).
  - cbn. split; [reflexivity|]. split; [|auto].
    exists []. rewrite app_nil_r. split; [reflexivity|cbn; lia].
  - assert (Hrest : command.IsFromREST (call_context c) = false).
    { destruct c; cbn [call_context]; subst; reflexivity. }
    destruct (perform_from_event c w Hrest) as [Hp He].
    cbn [published events_table fabrics with_logs].
    split; [exact Hp|]. split; [exact He|].
    intros Hok. now apply perform_table_ok.
Qed.

End AdapterWorld.

Lemma X16_inbound_events_witness :
  table_ok
    (fabrics
       (snd (handler.HandleMessage (wired_adapter never_fails)
               (command.WithCommandSource command.Background
                  command.CommandSourceREST)
               "erp.fabric"
               (Some (messaging.mkEnvelope "e1" "erp.fabric.created" "AB1"
                        "fabric" 1 1 0 "" "" ""
                        (messaging.PayloadErp
                           (messaging.mkErp "AB1" "Cotton" "" ""))))
               (mkWorld [] [] [] 0 [] [])))).
Proof.
  apply (X16_inbound_events_are_never_published never_fails
           (command.WithCommandSource command.Background
              command.CommandSourceREST)
           "erp.fabric"
           (Some (messaging.mkEnvelope "e1" "erp.fabric.created" "AB1"
                    "fabric" 1 1 0 "" "" ""
                    (messaging.PayloadErp
                       (messaging.mkErp "AB1" "Cotton" "" ""))))
           (mkWorld [] [] [] 0 [] [])).
  split; cbn; constructor.
Defined.

(* ------------------------------------------------------------------ *)
(** ** Creating a code that is already active *)

Section DuplicateCreate.
Import messaging handler.

Variable outcome : string -> EventEnvelope -> option error.

Lemma find_by_code (t : list FabricRow) (r : FabricRow) :
  NoDup (map row_code t) -> In r t ->
  find (fun x => row_code x =? row_code r) t = Some r.
Proof.
  intros Hnd Hin.
  destruct (find (fun x => row_code x =? row_code r) t) as [r'|] eqn:Hf.
  - apply find_some_row in Hf. destruct Hf as [Hin' Hc].
    apply String.eqb_eq in Hc. f_equal. now apply (unique_code_row t).
  - apply (find_none _ _ Hf) in Hin. cbn in Hin.
    now rewrite String.eqb_refl in Hin.
Qed.

Lemma Save_duplicate (ctx : command.Context) (fabric : Fabric) (w : World)
    (r : FabricRow) :
  next_outcome (driver w) = None ->
  next_outcome (tl (driver w)) = None ->
  find (fun x => row_code x =? Code fabric) (fabrics w) = Some r ->
  row_status r = StatusActive ->
  persistence.Save ctx fabric w
  = (Err ErrDuplicateFabricCode, with_driver (tl (tl (driver w))) w).
Proof.
  intros H1 H2 Hf Hs.
  unfold persistence.Save, persistence.QueryRow_Scan, bind, ret.
  destruct w as [fs et d tk pub lg]. cbn [driver fabrics] in *.
  rewrite driver_call_eq. norm_world. rewrite H1.
  rewrite driver_call_eq. norm_world. rewrite H2, Hf.
  cbn [persistence.scan Status]. rewrite Hs. reflexivity.
Qed.

Lemma CreateFabric_duplicate (ctx : command.Context)
    (code name measureUnit offerStatus : string) (w : World)
    (r : FabricRow) :
  NoDup (map row_code (fabrics w)) -> In r (fabrics w) ->
  row_code r = code -> row_status r = StatusActive ->
  quiet (driver w) ->
  exists err w',
    application.CreateFabric (wired outcome) ctx code name measureUnit
      offerStatus w = (Err err, w') /\
    (errors_Is err ErrDuplicateFabricCode = true \/
     is_validation_error err = true) /\
    fabrics w' = fabrics w /\ events_table w' = events_table w /\
    published w' = published w.
Proof.
  intros Hnd Hin Hcode Hact Hq.
  rewrite CreateFabric_eq. cbv zeta.
  destruct (NewFabric code name measureUnit offerStatus) as [fabric|nerr] eqn:Hn.
  2:{ apply NewFabric_Err_inv in Hn. unfold bind, logger, ret.
      do 2 eexists. split; [reflexivity|]. norm_world.
      split; [right; exact Hn|auto]. }
  apply NewFabric_Ok_inv in Hn. destruct Hn as [-> _].
  unfold bind at 1.
  cbn [application.commandRepo wired application.NewFabricCommandService
       repo_Save persistence.FabricPostgresRepository].
  rewrite (Save_duplicate _ _ w r);
    [|now apply next_outcome_quiet
     |apply next_outcome_quiet; now apply quiet_tl
     |cbn [Code]; rewrite <- Hcode; now apply find_by_code
     |exact Hact].
  unfold bind, logger, ret. do 2 eexists. split; [reflexivity|].
  norm_world. split; [left; reflexivity|auto].
Qed.

Lemma withDefaults_keeps (event : erpFabricEvent) :
  erp_Code (withDefaults event) = erp_Code event /\
  erp_Name (withDefaults event) = erp_Name event.
Proof.
  unfold withDefaults.
  destruct (erp_MeasureUnit event =? ""); cbn;
    destruct (erp_OfferStatus event =? ""); cbn; auto.
Qed.

(** X17.  Creating a code that is already active has no effect: on a table
    without duplicate codes that holds an ACTIVE row of the code, with a
    driver that reports no failure, CreateFabric returns
    ErrDuplicateFabricCode (or the aggregate's validation error, for an
    invalid code or name) and the fabrics table, the events table and the publisher's record are
    as before; the event adapter acknowledges an erp.fabric.created message
    for that code with nil, so that a redelivered message is dropped
    instead of being retried. *)
Theorem X17_create_of_an_active_code_has_no_effect (w : World)
    (r : FabricRow) :
  NoDup (map row_code (fabrics w)) -> In r (fabrics w) ->
  row_status r = StatusActive ->
  quiet (driver w) ->
  (forall ctx name measureUnit offerStatus,
   exists err w',
     application.CreateFabric (wired outcome) ctx (row_code r) name
       measureUnit offerStatus w = (Err err, w') /\
     (errors_Is err ErrDuplicateFabricCode = true \/
      is_validation_error err = true) /\
     fabrics w' = fabrics w /\ events_table w' = events_table w /\
     published w' = published w) /\
  (forall ctx subject envelope event,
     Validate envelope = None ->
     EventType envelope = "erp.fabric.created" ->
     Payload_ envelope = PayloadErp event ->
     erp_Code event = row_code r ->
     exists w',
       HandleMessage (wired_adapter outcome) ctx subject (Some envelope) w
         = (None, w') /\
       fabrics w' = fabrics w /\ events_table w' = events_table w /\
       published w' = published w).
Proof.
  intros Hnd Hin Hact Hq. split.
  - intros ctx name mu os.
    now apply (CreateFabric_duplicate ctx (row_code r) name mu os w r).
  - intros ctx subject envelope event Hval Htype Hpay Hcode.
    unfold HandleMessage. rewrite Hval.
    unfold adaptEventToCommand. rewrite Hpay. cbn [decode_payload].
    rewrite Htype. cbn [String.eqb Ascii.eqb Bool.eqb].
    unfold handleCreateEvent. cbv zeta.
    destruct (negb (Valid _)).
    { unfold bind, logger, ret. eexists. split; [reflexivity|].
      norm_world. auto. }
    unfold bind.
    cbn [service wired_adapter of_FabricService CreateFabric].
    destruct (withDefaults_keeps event) as [Hc _]. rewrite Hc, Hcode.
    match goal with
    | |- context [application.CreateFabric _ ?c _ ?a2 ?a3 ?a4 w] =>
        destruct (CreateFabric_duplicate c (row_code r) a2 a3 a4 w r
                    Hnd Hin eq_refl Hact Hq)
          as (err & w1 & -> & Herr & Hf & He & Hp)
    end.
    destruct Herr as [Hd|Hv].
    + rewrite Hd. unfold logger, ret. eexists. split; [reflexivity|].
      norm_world. auto.
    + destruct (errors_Is err ErrDuplicateFabricCode).
      * unfold logger, ret. eexists. split; [reflexivity|].
        norm_world. auto.
      * unfold is_validation_error in Hv. rewrite Hv.
        unfold logger, ret. eexists. split; [reflexivity|].
        norm_world. auto.
Qed.

End DuplicateCreate.

Lemma X17_create_of_an_active_code_witness :
  exists w',
    handler.HandleMessage (wired_adapter never_fails) command.Background
      "erp.fabric"
      (Some (messaging.mkEnvelope "e2" "erp.fabric.created" "AB1" "fabric"
               1 1 0 "" "" ""
               (messaging.PayloadErp
                  (messaging.mkErp "AB1" "Linen" "m" "ON"))))
      (mkWorld [mkFabricRow 1 "AB1" "Cotton" "m" "ON" "ACTIVE"] [] [] 0 [] [])
    = (None, w') /\
    fabrics w' = [mkFabricRow 1 "AB1" "Cotton" "m" "ON" "ACTIVE"] /\
    events_table w' = [] /\ published w' = [].
Proof.
  apply (proj2 (X17_create_of_an_active_code_has_no_effect never_fails
                  (mkWorld [mkFabricRow 1 "AB1" "Cotton" "m" "ON" "ACTIVE"]
                     [] [] 0 [] [])
                  (mkFabricRow 1 "AB1" "Cotton" "m" "ON" "ACTIVE")
                  (NoDup_cons _ (fun H : In "AB1" [] => H) (NoDup_nil _))
                  (or_introl eq_refl) eq_refl (Forall_nil _))
           command.Background "erp.fabric"
           (messaging.mkEnvelope "e2" "erp.fabric.created" "AB1" "fabric"
              1 1 0 "" "" ""
              (messaging.PayloadErp (messaging.mkErp "AB1" "Linen" "m" "ON")))
           (messaging.mkErp "AB1" "Linen" "m" "ON")
           eq_refl eq_refl eq_refl eq_refl).
Defined.

(* ------------------------------------------------------------------ *)
(** ** The validation of the handlers and of the aggregate *)

Section Validation.
Import messaging handler.

Lemma Valid_Check (v : Validator) (ok : bool) (key message : string) :
  Valid (Check v ok key message) = Valid v && ok.
Proof.
  unfold Check. destruct ok; [now rewrite Bool.andb_true_r|].
  rewrite Bool.andb_false_r.
  destruct v as [|kv v]; [reflexivity|].
  destruct (existsb _ _); reflexivity.
Qed.

Lemma eqb_empty (s : string) : (s =? "") = (String.length s =? 0)%nat.
Proof. destruct s; reflexivity. Qed.

Lemma name_checks (name : string) :
  negb (name =? "") && (String.length name <=? 250)%nat = true <->
  validateName name = None.
Proof.
  unfold validateName. rewrite eqb_empty.
  destruct (Nat.eqb_spec (String.length name) 0);
    destruct (Nat.leb_spec (String.length name) 250);
    destruct (Nat.ltb_spec (String.length name) 1);
    destruct (Nat.ltb_spec 250 (String.length name));
    cbn; split; intros; try discriminate; try reflexivity; lia.
Qed.

Lemma code_checks (code : string) :
  negb (code =? "") && (2 <=? String.length code)%nat
  && (String.length code <=? 30)%nat && pattern_MatchString code = true <->
  validateCode code = None.
Proof.
  unfold validateCode. rewrite eqb_empty.
  destruct (pattern_MatchString code);
    destruct (Nat.eqb_spec (String.length code) 0);
    destruct (Nat.leb_spec 2 (String.length code));
    destruct (Nat.leb_spec (String.length code) 30);
    destruct (Nat.ltb_spec (String.length code) 2);
    destruct (Nat.ltb_spec 30 (String.length code));
    cbn; split; intros; try discriminate; try reflexivity; lia.
Qed.

Lemma NewFabric_succeeds (code name measureUnit offerStatus : string) :
  (exists f, NewFabric code name measureUnit offerStatus = Ok f) <->
  validateCode code = None /\ validateName name = None.
Proof.
  unfold NewFabric. split.
  - intros [f H]. destruct (validateCode code); [discriminate|].
    destruct (validateName name); [discriminate|]. auto.
  - intros [-> ->]. eauto.
Qed.

(** X18.  The handlers and the aggregate validate alike: the checks of the
    REST handler on a create request and those of the event adapter on a
    created event pass exactly when NewFabric accepts the code and the
    name, and the checks on an update request or an updated event pass
    exactly when the version is positive and the aggregate accepts the
    name.  So a command that passed the handler is never refused by the
    aggregate for its code or name. *)
Theorem X18_handlers_validate_as_the_aggregate_does :
  (forall req,
     Valid (commandhandler.validateCreateFabricRequest validator_New req)
       = true <->
     exists f, NewFabric (commandhandler.create_Code req)
                 (commandhandler.create_Name req)
                 (commandhandler.create_MeasureUnit req)
                 (commandhandler.create_OfferStatus req) = Ok f) /\
  (forall event,
     Valid (validateCreateFabricEvent validator_New event) = true <->
     exists f, NewFabric (erp_Code event) (erp_Name event)
                 (erp_MeasureUnit event) (erp_OfferStatus event) = Ok f) /\
  (forall req,
     Valid (commandhandler.validateUpdateFabricRequest validator_New req)
       = true <->
     0 < commandhandler.update_Version req /\
     validateName (commandhandler.update_Name req) = None) /\
  (forall version event,
     Valid (validateUpdateFabricEvent validator_New version event) = true <->
     0 < version /\ validateName (erp_Name event) = None).
Proof.
  repeat split.
  - unfold commandhandler.validateCreateFabricRequest. cbv zeta.
    rewrite !Valid_Check. cbn [Valid validator_New andb]. unfold Matches.
    intros H. apply NewFabric_succeeds.
    rewrite <- !Bool.andb_assoc in H.
    split; [apply code_checks|apply name_checks];
      repeat (apply Bool.andb_true_iff in H; destruct H as [? H]);
      repeat (apply Bool.andb_true_iff; split); assumption.
  - unfold commandhandler.validateCreateFabricRequest. cbv zeta.
    rewrite !Valid_Check. cbn [Valid validator_New andb]. unfold Matches.
    intros H. apply NewFabric_succeeds in H. destruct H as [Hc Hn].
    apply code_checks in Hc. apply name_checks in Hn.
    rewrite <- !Bool.andb_assoc in *.
    repeat (apply Bool.andb_true_iff in Hc; destruct Hc as [? Hc]).
    repeat (apply Bool.andb_true_iff in Hn; destruct Hn as [? Hn]).
    repeat (apply Bool.andb_true_iff; split); assumption.
  - unfold validateCreateFabricEvent. cbv zeta.
    rewrite !Valid_Check. cbn [Valid validator_New andb]. unfold Matches.
    intros H. apply NewFabric_succeeds.
    rewrite <- !Bool.andb_assoc in H.
    split; [apply code_checks|apply name_checks];
      repeat (apply Bool.andb_true_iff in H; destruct H as [? H]);
      repeat (apply Bool.andb_true_iff; split); assumption.
  - unfold validateCreateFabricEvent. cbv zeta.
    rewrite !Valid_Check. cbn [Valid validator_New andb]. unfold Matches.
    intros H. apply NewFabric_succeeds in H. destruct H as [Hc Hn].
    apply code_checks in Hc. apply name_checks in Hn.
    rewrite <- !Bool.andb_assoc in *.
    repeat (apply Bool.andb_true_iff in Hc; destruct Hc as [? Hc]).
    repeat (apply Bool.andb_true_iff in Hn; destruct Hn as [? Hn]).
    repeat (apply Bool.andb_true_iff; split); assumption.
  - unfold commandhandler.validateUpdateFabricRequest in *. cbv zeta in *.
    rewrite !Valid_Check in H. cbn [Valid validator_New andb] in H.
    rewrite <- !Bool.andb_assoc in H.
    apply Bool.andb_true_iff in H. destruct H as [H _].
    now apply Z.ltb_lt.
  - unfold commandhandler.validateUpdateFabricRequest in *. cbv zeta in *.
    rewrite !Valid_Check in H. cbn [Valid validator_New andb] in H.
    rewrite <- !Bool.andb_assoc in H.
    apply Bool.andb_true_iff in H. destruct H as [_ H].
    now apply name_checks.
  - intros [Hv Hn]. unfold commandhandler.validateUpdateFabricRequest.
    cbv zeta. rewrite !Valid_Check. cbn [Valid validator_New andb].
    apply Z.ltb_lt in Hv. apply name_checks in Hn.
    rewrite <- !Bool.andb_assoc. now rewrite Hv, Hn.
  - unfold validateUpdateFabricEvent in *. cbv zeta in *.
    rewrite !Valid_Check in H. cbn [Valid validator_New andb] in H.
    rewrite <- !Bool.andb_assoc in H.
    apply Bool.andb_true_iff in H. destruct H as [H _].
    now apply Z.ltb_lt.
  - unfold validateUpdateFabricEvent in *. cbv zeta in *.
    rewrite !Valid_Check in H. cbn [Valid validator_New andb] in H.
    rewrite <- !Bool.andb_assoc in H.
    apply Bool.andb_true_iff in H. destruct H as [_ H].
    now apply name_checks.
  - intros [Hv Hn]. unfold validateUpdateFabricEvent.
    cbv zeta. rewrite !Valid_Check. cbn [Valid validator_New andb].
    apply Z.ltb_lt in Hv. apply name_checks in Hn.
    rewrite <- !Bool.andb_assoc. now rewrite Hv, Hn.
Qed.

End Validation.

(* ------------------------------------------------------------------ *)
(** ** The message router *)

Section Router.
Import messaging router.

Variable EqualFold : string -> string -> bool.

Lemma map_get_set_same (key : string) (v : MessageHandler)
    (m : list (string * MessageHandler)) :
  map_get key (map_set key v m) = Some v.
Proof.
  induction m as [|[k v'] m IH]; cbn.
  - now rewrite String.eqb_refl.
  - destruct (String.eqb_spec k key) as [->|Hne]; cbn.
    + now rewrite String.eqb_refl.
    + apply String.eqb_neq in Hne. now rewrite Hne.
Qed.

Lemma map_get_set_other (key k : string) (v : MessageHandler)
    (m : list (string * MessageHandler)) :
  k <> key -> map_get k (map_set key v m) = map_get k m.
Proof.
  intros Hk. induction m as [|[k' v'] m IH]; cbn.
  - apply not_eq_sym in Hk. apply String.eqb_neq in Hk. now rewrite Hk.
  - destruct (String.eqb_spec k' key) as [->|Hne]; cbn.
    + apply not_eq_sym in Hk. apply String.eqb_neq in Hk. now rewrite Hk.
    + now rewrite IH.
Qed.

Lemma map_get_absent (subject : string)
    (m : list (string * MessageHandler)) :
  (forall k h, In (k, h) m -> k <> subject) -> map_get subject m = None.
Proof.
  induction m as [|[k v] m IH]; intros H; [reflexivity|]. cbn.
  destruct (String.eqb_spec k subject) as [->|Hne].
  - now elim (H subject v (or_introl eq_refl)).
  - apply IH. intros k' h' Hin. apply (H k' h'). now right.
Qed.

(** X19.  The router delivers by exact subject first: after
    RegisterHandler(pattern, h), a message whose subject is the pattern
    goes to h, with the context, subject and payload unchanged, whatever
    was registered before, in whatever order the map is visited and
    whatever strings.EqualFold answers; a subject that had an exact entry
    of its own keeps its handler; and a message whose subject no entry
    equals or matches is dropped: HandleMessage returns nil, so the
    message is acknowledged, and only a warning is logged. *)
Theorem X19_router_delivers_to_the_registered_handler (r : MessageRouter)
    (pattern : string) (h : MessageHandler) (w : World) :
  let r' := fst (RegisterHandler pattern h r w) in
  let w1 := snd (RegisterHandler pattern h r w) in
  (forall ctx payload,
     HandleMessage EqualFold r' ctx pattern payload w1
     = HandleMessage_ h ctx pattern payload
         (with_logs (logs w1 ++ [Log "DEBUG" "Routing message" None]) w1)) /\
  (forall subject h', subject <> pattern ->
     map_get subject (handlers r) = Some h' ->
     findHandler EqualFold r' subject = Some h') /\
  (forall subject ctx payload,
     (forall k h', In (k, h') (handlers r') ->
                   k <> subject /\ EqualFold subject k = false) ->
     HandleMessage EqualFold r' ctx subject payload w1
     = (None,
        with_logs (logs w1 ++ [Log "WARN" "No handler found for subject" None])
          w1)).
Proof.
  cbv zeta. unfold RegisterHandler, bind, logger, ret. cbn [fst snd].
  split; [|split].
  - intros ctx payload. unfold HandleMessage, findHandler. cbn [handlers].
    rewrite map_get_set_same. reflexivity.
  - intros subject h' Hne Hget. unfold findHandler. cbn [handlers].
    rewrite (map_get_set_other _ _ _ _ Hne), Hget. reflexivity.
  - intros subject ctx payload Hnone.
    unfold HandleMessage, findHandler. cbn [handlers] in *.
    rewrite map_get_absent by (intros k h' Hin; apply (Hnone k h' Hin)).
    destruct (find _ _) as [[k h']|] eqn:Hf; [|reflexivity].
    apply find_some_row in Hf. destruct Hf as [Hin Hm].
    destruct (Hnone k h' Hin) as [_ Hfalse]. unfold matchesPattern in Hm.
    cbn [fst] in Hm. congruence.
Qed.

End Router.

(* ------------------------------------------------------------------ *)
(** ** The REST handlers on the wired service *)

Section Rest.
Import messaging httpx commandhandler.

Variable outcome : string -> EventEnvelope -> option error.

Lemma domain_error_not_storage (err target : error) :
  errors_Is err target = true ->
  In target [ErrInvalidFabricCodeLength; ErrInvalidFabricCodePattern;
             ErrInvalidFabricNameLength; ErrRecordNotFound;
             ErrDuplicateFabricCode; ErrConcurrencyConflict;
             ErrFabricDeleted] ->
  ~ storage_failure err.
Proof.
  intros His Hin Hsf.
  destruct (storage_failure_not_domain err Hsf)
    as (H1 & H2 & H3 & H4 & H5 & H6 & H7).
  cbn in Hin.
  destruct Hin as [<-|[<-|[<-|[<-|[<-|[<-|[<-|[]]]]]]]]; congruence.
Qed.

Lemma validation_error_not_storage (err : error) :
  is_validation_error err = true -> ~ storage_failure err.
Proof.
  unfold is_validation_error. intros H.
  apply Bool.orb_true_iff in H. destruct H as [H|H];
    [apply Bool.orb_true_iff in H; destruct H as [H|H]|];
    apply (domain_error_not_storage _ _ H); cbn; auto.
Qed.

(** What a command of the service leaves behind, by its result. *)
Lemma CreateFabric_effect (ctx : command.Context)
    (code name measureUnit offerStatus : string) (w : World) :
  match application.CreateFabric (wired outcome) ctx code name measureUnit
          offerStatus w with
  | (Ok _, w') =>
      exists e,
        events_table w' = events_table w ++ [eventstore.row_of e] /\
        published w' = published w ++ (if command.IsFromREST ctx
                                       then [("app.fabric", e)] else [])
  | (Err err, w') =>
      (storage_failure err /\ events_table w' = events_table w /\
       published w' = published w) \/
      ((errors_Is err ErrDuplicateFabricCode = true \/
        is_validation_error err = true) /\ untouched w w')
  end.
Proof.
  pose proof (CreateFabric_table outcome ctx code name measureUnit
                offerStatus w) as Ht.
  pose proof (CreateFabric_spec outcome ctx code name measureUnit
                offerStatus w) as Hs.
  destruct (application.CreateFabric _ _ _ _ _ _ _) as [[f|err] w'].
  - destruct Hs as (e & He & _ & _ & Hp & _). eauto.
  - destruct Hs as (Hp & He & Hkind).
    assert (Hframe : ~ storage_failure err -> untouched w w').
    { intros Hns. split; [|auto].
      destruct Ht as [[Hfab _]|(fabric & p & w1 & _ & _ & _ & Hr)];
        [exact Hfab|].
      destruct Hr as [Hr|(e & Hr & Hsf)]; [discriminate|].
      injection Hr as Heq. elim Hns. rewrite Heq. exact Hsf. }
    destruct Hkind as [Hd|[Hv|Hsf]].
    + right. split; [auto|]. apply Hframe.
      apply (domain_error_not_storage _ _ Hd). cbn. auto 10.
    + right. split; [auto|]. apply Hframe.
      now apply validation_error_not_storage.
    + left. auto.
Qed.

Lemma UpdateFabric_effect (ctx : command.Context)
    (code name measureUnit offerStatus : string) (version : Z) (w : World) :
  match application.UpdateFabric (wired outcome) ctx code name measureUnit
          offerStatus version w with
  | (Ok _, w') =>
      exists e,
        events_table w' = events_table w ++ [eventstore.row_of e] /\
        published w' = published w ++ (if command.IsFromREST ctx
                                       then [("app.fabric", e)] else [])
  | (Err err, w') =>
      (storage_failure err /\ events_table w' = events_table w /\
       published w' = published w) \/
      ((errors_Is err ErrRecordNotFound = true \/
        errors_Is err ErrConcurrencyConflict = true \/
        errors_Is err ErrInvalidFabricNameLength = true) /\ untouched w w')
  end.
Proof.
  pose proof (UpdateFabric_table outcome ctx code name measureUnit
                offerStatus version w) as Ht.
  pose proof (UpdateFabric_spec outcome ctx code name measureUnit
                offerStatus version w) as Hs.
  destruct (application.UpdateFabric _ _ _ _ _ _ _ _) as [[f|err] w'].
  - destruct Hs as (e & He & _ & _ & Hp & _). eauto.
  - destruct Hs as (Hp & He & Hkind).
    assert (Hframe : ~ storage_failure err -> untouched w w').
    { intros Hns. split; [|auto].
      destruct Ht as [[Hfab _]|(r0 & f0 & _ & _ & _ & _ & _ & _ & Hr)];
        [exact Hfab|].
      destruct Hr as [Hr|(e & Hr & Hsf)]; [discriminate|].
      injection Hr as Heq. elim Hns. rewrite Heq. exact Hsf. }
    destruct Hkind as [Hd|[Hd|[Hd|Hsf]]]; [| | |left; auto].
    all: right; split; [auto|]; apply Hframe;
      apply (domain_error_not_storage _ _ Hd); cbn; auto 10.
Qed.

Lemma DeleteFabric_effect (ctx : command.Context) (code : string)
    (version : Z) (w : World) :
  match application.DeleteFabric (wired outcome) ctx code version w with
  | (None, w') =>
      exists e,
        events_table w' = events_table w ++ [eventstore.row_of e] /\
        published w' = published w ++ (if command.IsFromREST ctx
                                       then [("app.fabric", e)] else [])
  | (Some err, w') =>
      (storage_failure err /\ events_table w' = events_table w /\
       published w' = published w) \/
      ((errors_Is err ErrRecordNotFound = true \/
        errors_Is err ErrConcurrencyConflict = true) /\ untouched w w')
  end.
Proof.
  pose proof (DeleteFabric_table outcome ctx code version w) as Ht.
  pose proof (DeleteFabric_spec outcome ctx code version w) as Hs.
  destruct (application.DeleteFabric _ _ _ _ _) as [[err|] w'].
  - destruct Hs as (Hp & He & Hkind).
    assert (Hframe : ~ storage_failure err -> untouched w w').
    { intros Hns. split; [|auto].
      destruct Ht as [[Hfab _]|(r0 & f0 & _ & _ & _ & _ & _ & Hr)];
        [exact Hfab|].
      destruct Hr as [Hr|(e & Hr & Hsf)]; [discriminate|].
      injection Hr as Heq. elim Hns. rewrite Heq. exact Hsf. }
    destruct Hkind as [Hd|[Hd|Hsf]]; [| |left; auto].
    all: right; split; [auto|]; apply Hframe;
      apply (domain_error_not_storage _ _ Hd); cbn; auto 10.
  - destruct Hs as (e & He & _ & Hp & _). eauto.
Qed.

Ltac rest_untouched :=
  right; right; split;
  [ cbv; auto 10
  | first [ assumption | repeat split; reflexivity ] ].

Ltac rest_internal Hsf He Hp :=
  right; left; unfold InternalError, bind, logger, ret; cbn [fst snd];
  norm_world; split; [reflexivity|]; split;
  [ eexists; split; [exact Hsf|]; apply in_or_app; right; left; reflexivity
  | split; [exact He|exact Hp] ].

(** X20.  What the status of a REST command tells: for every request and
    whatever the driver and the publisher do, either the status is the
    success status of the method (202 for POST, 200 for PUT, 204 for
    DELETE), and then one row was added to the events table and its
    envelope was handed to the publisher, whatever mark the request's
    context carried; or the status is 500, and then the error that was
    logged is a failure of the storage layer, never a domain error; or the
    status is 400, 404, 405, 409 or 422, and then the fabrics table, the
    events table and the publisher's record are as before. *)
Theorem X20_REST_status_tells_what_happened (r : Request) (w : World) :
  let resp := fst (ServeHTTP (wired_rest outcome) r w) in
  let w' := snd (ServeHTTP (wired_rest outcome) r w) in
  (In (Method r, StatusCode resp) [("POST", 202); ("PUT", 200);
                                    ("DELETE", 204)] /\
   recorded_and_published w w') \/
  (StatusCode resp = 500 /\
   (exists err, storage_failure err /\
      In (Log "ERROR" "internal server error" (Some err)) (logs w')) /\
   events_table w' = events_table w /\ published w' = published w) \/
  (In (StatusCode resp) [400; 404; 405; 409; 422] /\ untouched w w').
Proof.
  cbv zeta. unfold ServeHTTP.
  destruct (String.eqb_spec (Method r) "POST") as [Hm|_].
  { unfold createFabric. cbv zeta.
    destruct (ReadJSON_create r) as [message|req]; [rest_untouched|].
    destruct (negb (handler.Valid _)); [rest_untouched|].
    unfold bind.
    cbn [service wired_rest NewFabricCommandHandler handler.of_FabricService
         handler.CreateFabric].
    match goal with
    | |- context [application.CreateFabric _ ?c ?a1 ?a2 ?a3 ?a4 w] =>
        pose proof (CreateFabric_effect c a1 a2 a3 a4 w) as H;
        destruct (application.CreateFabric (wired outcome) c a1 a2 a3 a4 w)
          as [[f|err] w1]
    end.
    - left. unfold ret. cbn [fst snd]. rewrite Hm.
      split; [cbn; auto|]. destruct H as (e & He & Hp). exists e. auto.
    - destruct H as [(Hsf & He & Hp)|(Hkind & Hunt)].
      + destruct (storage_failure_not_domain err Hsf)
          as (H1 & H2 & H3 & _ & H5 & _). rewrite H5, H1, H2, H3.
        cbn [orb]. rest_internal Hsf He Hp.
      + destruct (errors_Is err ErrDuplicateFabricCode) eqn:Hd;
          [rest_untouched|].
        destruct Hkind as [Hk|Hk]; [discriminate|].
        unfold is_validation_error in Hk. rewrite Hk. rest_untouched. }
  destruct (String.eqb_spec (Method r) "PUT") as [Hm|_].
  { unfold updateFabric. cbv zeta.
    destruct (ReadJSON_update r) as [message|req]; [rest_untouched|].
    destruct (negb (handler.Valid _)); [rest_untouched|].
    unfold bind.
    cbn [service wired_rest NewFabricCommandHandler handler.of_FabricService
         handler.UpdateFabric].
    match goal with
    | |- context [application.UpdateFabric _ ?c ?a1 ?a2 ?a3 ?a4 ?v w] =>
        pose proof (UpdateFabric_effect c a1 a2 a3 a4 v w) as H;
        destruct (application.UpdateFabric (wired outcome) c a1 a2 a3 a4 v w)
          as [[f|err] w1]
    end.
    - left. unfold ret. cbn [fst snd]. rewrite Hm.
      split; [cbn; auto|]. destruct H as (e & He & Hp). exists e. auto.
    - destruct H as [(Hsf & He & Hp)|(Hkind & Hunt)].
      + destruct (storage_failure_not_domain err Hsf)
          as (_ & _ & H3 & H4 & _ & H6 & _). rewrite H4, H6, H3.
        rest_internal Hsf He Hp.
      + destruct (errors_Is err ErrRecordNotFound) eqn:Hn;
          [rest_untouched|].
        destruct (errors_Is err ErrConcurrencyConflict) eqn:Hc;
          [rest_untouched|].
        destruct Hkind as [Hk|[Hk|Hk]]; [discriminate|discriminate|].
        rewrite Hk. rest_untouched. }
  destruct (String.eqb_spec (Method r) "DELETE") as [Hm|_].
  { unfold deleteFabric. cbv zeta.
    destruct (ReadJSON_delete r) as [message|req]; [rest_untouched|].
    destruct (negb (handler.Valid _)); [rest_untouched|].
    unfold bind.
    cbn [service wired_rest NewFabricCommandHandler handler.of_FabricService
         handler.DeleteFabric].
    match goal with
    | |- context [application.DeleteFabric _ ?c ?a1 ?v w] =>
        pose proof (DeleteFabric_effect c a1 v w) as H;
        destruct (application.DeleteFabric (wired outcome) c a1 v w)
          as [[err|] w1]
    end.
    - destruct H as [(Hsf & He & Hp)|(Hkind & Hunt)].
      + destruct (storage_failure_not_domain err Hsf)
          as (_ & _ & _ & H4 & _ & H6 & _). rewrite H4, H6.
        rest_internal Hsf He Hp.
      + destruct (errors_Is err ErrRecordNotFound) eqn:Hn;
          [rest_untouched|].
        destruct Hkind as [Hk|Hk]; [discriminate|].
        rewrite Hk. rest_untouched.
    - left. unfold ret. cbn [fst snd]. rewrite Hm.
      split; [cbn; auto|]. destruct H as (e & He & Hp). exists e. auto. }
  rest_untouched.
Qed.

Lemma NoDup_filter_code (t : list FabricRow) (c : string)
    (q : FabricRow -> bool) :
  NoDup (map row_code t) ->
  (List.length (filter (fun r => (row_code r =? c)%string && q r) t)
   <= 1)%nat.
Proof.
  induction t as [|a t IH]; intros Hnd; [cbn; lia|].
  cbn [map] in Hnd. inversion Hnd as [|? ? Hnotin Hnd']; subst.
  cbn [filter].
  destruct (String.eqb_spec (row_code a) c) as [Hc|Hc]; cbn [andb].
  - assert (Hnone : filter (fun r => (row_code r =? c) && q r) t = []).
    { apply filter_none. intros x Hx.
      destruct (String.eqb_spec (row_code x) c) as [Hxc|]; [|reflexivity].
      elim Hnotin. rewrite Hc, <- Hxc. now apply in_map. }
    destruct (q a); rewrite Hnone; cbn; lia.
  - now apply IH.
Qed.

Lemma NoDup_idx (t : list FabricRow) :
  NoDup (map row_code t) -> persistence.fabrics_active_code_idx t = true.
Proof.
  intros Hnd. unfold persistence.fabrics_active_code_idx.
  apply forallb_forall. intros r _. apply Bool.orb_true_iff. right.
  apply Nat.leb_le. unfold persistence.active_with_code.
  now apply NoDup_filter_code.
Qed.

Lemma find_active (t : list FabricRow) (r0 : FabricRow) :
  NoDup (map row_code t) -> In r0 t -> row_status r0 = StatusActive ->
  find (active_code (row_code r0)) t = Some r0.
Proof.
  intros Hnd Hin Hact.
  destruct (find (active_code (row_code r0)) t) as [r'|] eqn:Hf.
  - apply find_some_row in Hf. destruct Hf as [Hin' Hq].
    apply Bool.andb_true_iff in Hq. destruct Hq as [Hc _].
    apply String.eqb_eq in Hc. f_equal. now apply (unique_code_row t).
  - apply (find_none _ _ Hf) in Hin. unfold active_code in Hin.
    rewrite String.eqb_refl, Hact in Hin. discriminate.
Qed.

(** DeleteFabric of a stored fabric at its own version. *)
Lemma DeleteFabric_of_current_version (ctx : command.Context) (w : World)
    (r0 : FabricRow) :
  NoDup (map row_code (fabrics w)) -> In r0 (fabrics w) ->
  row_status r0 = StatusActive -> GoInt.in_range (row_version r0) ->
  quiet (driver w) ->
  fst (application.DeleteFabric (wired outcome) ctx (row_code r0)
         (row_version r0) w)
  = Some (Errorf "failed to delete fabric in repo" ErrRecordNotFound) /\
  untouched w (snd (application.DeleteFabric (wired outcome) ctx
                      (row_code r0) (row_version r0) w)).
Proof.
  intros Hnd Hin Hact Hrange Hq.
  pose proof (DeleteFabric_spec outcome ctx (row_code r0) (row_version r0) w)
    as Hs.
  assert (Hres : match application.DeleteFabric (wired outcome) ctx
                         (row_code r0) (row_version r0) w with
                 | (res, w') =>
                     res = Some (Errorf "failed to delete fabric in repo"
                                   ErrRecordNotFound) /\
                     fabrics w' = fabrics w
                 end).
  { rewrite DeleteFabric_eq. cbv zeta. unfold bind at 1.
    cbn [application.commandRepo wired application.NewFabricCommandService
         repo_GetByCode repo_Delete persistence.FabricPostgresRepository].
    unfold persistence.GetByCode. rewrite get_by_eq.
    rewrite (next_outcome_quiet _ Hq).
    pose proof (find_active _ _ Hnd Hin Hact) as Hfind.
    unfold active_code in Hfind. rewrite Hfind.
    rewrite Delete_of_active by exact Hact.
    cbn [persistence.scan Version]. rewrite Z.eqb_refl. cbn [negb].
    unfold bind at 1.
    match goal with
    | |- context [persistence.Delete ?c ?f ?w0] =>
        destruct (persistence_Delete_without_match c f w0)
          as [Hsame (err & Herr & Hnf)]
    end.
    { cbn. intros r' Hr' Hc Hv.
      assert (r' = r0) by (now apply (unique_code_row (fabrics w))).
      subst r'. now apply (add_neq (row_version r0) Hrange). }
    cbn [driver fabrics with_driver] in Hnf.
    specialize (Hnf (next_outcome_quiet _ (quiet_tl _ Hq)) (NoDup_idx _ Hnd)).
    subst err.
    destruct (persistence.Delete _ _ _) as [[derr|] w1];
      cbn [fst snd] in *; [|discriminate].
    injection Herr as ->. unfold bind, logger, ret. cbn. auto. }
  destruct (application.DeleteFabric _ _ _ _ _) as [res w'].
  cbn [fst snd]. destruct Hres as [-> Hfab]. split; [reflexivity|].
  destruct Hs as (Hp & He & _). repeat split; auto.
Qed.

(** X21.  Over REST a stored fabric cannot be deleted: on a table that
    holds no code twice, with a driver that reports no failure, a DELETE
    request for an ACTIVE fabric that carries the fabric's current version
    (positive, a Go int) is answered with 404 Not Found, and the fabrics
    table, the events table and the publisher's record are as before: the
    row is still ACTIVE. *)
Theorem X21_REST_delete_of_a_stored_fabric_answers_404 (r : Request)
    (w : World) (r0 : FabricRow) :
  NoDup (map row_code (fabrics w)) -> quiet (driver w) ->
  In r0 (fabrics w) -> row_status r0 = StatusActive ->
  GoInt.in_range (row_version r0) -> 0 < row_version r0 ->
  Method r = "DELETE" -> URLParam_code r = row_code r0 ->
  ReadJSON_delete r = Accepted (mkDeleteRequest (row_version r0)) ->
  fst (ServeHTTP (wired_rest outcome) r w) = NotFound /\
  untouched w (snd (ServeHTTP (wired_rest outcome) r w)).
Proof.
  intros Hnd Hq Hin Hact Hrange Hpos Hm Hcode Hbody.
  unfold ServeHTTP. rewrite Hm. cbn [String.eqb Ascii.eqb Bool.eqb].
  unfold deleteFabric. cbv zeta. rewrite Hbody, Hcode.
  cbn [delete_Version]. apply Z.ltb_lt in Hpos. rewrite Hpos.
  cbn [handler.Check handler.Valid handler.validator_New negb].
  unfold bind.
  cbn [service wired_rest NewFabricCommandHandler handler.of_FabricService
       handler.DeleteFabric].
  match goal with
  | |- context [application.DeleteFabric _ ?c _ _ w] =>
      destruct (DeleteFabric_of_current_version c w r0 Hnd Hin Hact Hrange Hq)
        as [Hfst Hunt]
  end.
  destruct (application.DeleteFabric _ _ _ _ _) as [res w1].
  cbn [fst snd] in *. subst res. cbn. auto.
Qed.

End Rest.

Lemma X21_REST_delete_witness :
  let r := commandhandler.mkRequest "DELETE" command.Background "AB1"
             (httpx.Rejected "body contains unknown key")
             (httpx.Rejected "body contains unknown key")
             (httpx.Accepted (commandhandler.mkDeleteRequest 1)) in
  let w := mkWorld [mkFabricRow 1 "AB1" "Cotton" "m" "ON" "ACTIVE"]
             [] [] 0 [] [] in
  fst (commandhandler.ServeHTTP (wired_rest never_fails) r w)
  = httpx.NotFound /\
  untouched w (snd (commandhandler.ServeHTTP (wired_rest never_fails) r w)).
Proof.
  intros r w.
  apply (X21_REST_delete_of_a_stored_fabric_answers_404 never_fails r w
           (mkFabricRow 1 "AB1" "Cotton" "m" "ON" "ACTIVE")).
  - cbn. repeat constructor. intros [].
  - constructor.
  - left. reflexivity.
  - reflexivity.
  - unfold GoInt.in_range, GoInt.min_int, GoInt.max_int. cbn. lia.
  - cbn. lia.
  - reflexivity.
  - reflexivity.
  - reflexivity.
Defined.

(* ------------------------------------------------------------------ *)
(** ** The query handler on the repository *)

Section Query.
Import httpx queryhandler.

(** X22.  What GET answers: the query handler on the Postgres repository
    never touches the fabrics table, the events table or the publisher.
    When the driver fails it answers 500 and logs the wrapped driver
    error.  Otherwise it answers 200 with a stored ACTIVE row of the
    requested code, as a fabric without pending events, if there is one,
    and 404 Not Found if the code has no ACTIVE row: a DELETED fabric is
    not shown. *)
Theorem X22_query_answers_the_stored_active_fabric (ctx : command.Context)
    (code : string) (w : World) :
  let resp := fst (ServeHTTP wired_query ctx code w) in
  let w' := snd (ServeHTTP wired_query ctx code w) in
  untouched w w' /\
  match next_outcome (driver w) with
  | Some err =>
      StatusCode resp = 500 /\
      storage_failure err /\
      In (Log "ERROR" "internal server error"
            (Some (Errorf "failed to get fabric by code" err))) (logs w')
  | None =>
      (exists r, In r (fabrics w) /\ row_code r = code /\
                 row_status r = "ACTIVE" /\
                 resp = mkResponse 200
                          (FabricEnvelope
                             (mkFabric code (row_name r) (row_measure_unit r)
                                (row_offer_status r) StatusActive
                                (row_version r) []))) \/
      ((forall r, In r (fabrics w) -> row_code r = code ->
                  row_status r <> "ACTIVE") /\
       resp = NotFound)
  end.
Proof.
  cbv zeta. unfold ServeHTTP, bind.
  cbn [repo wired_query NewFabricQueryHandler of_FabricPostgresRepository
       GetByCode].
  unfold persistence.GetByCode. rewrite get_by_eq.
  destruct (next_outcome (driver w)) as [err|] eqn:Hn.
  - apply next_outcome_err in Hn. destruct Hn as (f & -> & _).
    cbn [errors_Is error_eqb orb].
    assert (Hnf : errors_Is (fault_error f) ErrRecordNotFound = false)
      by now destruct f.
    rewrite Hnf. unfold InternalError, bind, logger, ret. cbn [fst snd].
    norm_world. split; [repeat split|]. split; [reflexivity|].
    split; [apply storage_failure_fault|].
    apply in_or_app. right. now left.
  - destruct (find _ (fabrics w)) as [r|] eqn:Hf.
    + apply find_some_row in Hf. destruct Hf as [Hin Hq].
      apply Bool.andb_true_iff in Hq. destruct Hq as [Hc Hs].
      apply String.eqb_eq in Hc, Hs.
      unfold ret. cbn [fst snd]. norm_world. split; [repeat split|].
      left. exists r. unfold persistence.scan. rewrite Hc, Hs. auto.
    + cbn. norm_world. split; [repeat split|]. right. split; [|reflexivity].
      intros r Hin Hc Hs. apply (find_none _ _ Hf) in Hin. cbn in Hin.
      rewrite Hc, Hs, String.eqb_refl in Hin. discriminate.
Qed.

End Query.

(* ------------------------------------------------------------------ *)
(** ** Update events that arrive out of order *)

Section OutOfOrder.
Import messaging handler.

Variable outcome : string -> EventEnvelope -> option error.

(** UpdateFabric against a version no ACTIVE row of the code has. *)
Lemma UpdateFabric_off_version (ctx : command.Context)
    (code name measureUnit offerStatus : string) (version : Z) (w : World) :
  next_outcome (driver w) = None ->
  (forall r, In r (fabrics w) -> row_code r = code ->
             row_status r = "ACTIVE" -> row_version r <> version) ->
  exists err w',
    application.UpdateFabric (wired outcome) ctx code name measureUnit
      offerStatus version w = (Err err, w') /\
    (errors_Is err ErrRecordNotFound = true \/
     errors_Is err ErrRecordNotFound = false /\
     errors_Is err ErrConcurrencyConflict = true) /\
    untouched w w'.
Proof.
  intros Hq Hoff.
  rewrite UpdateFabric_eq. cbv zeta. unfold bind at 1.
  cbn [application.commandRepo wired application.NewFabricCommandService
       repo_GetByCode persistence.FabricPostgresRepository].
  unfold persistence.GetByCode. rewrite get_by_eq, Hq.
  destruct (find _ (fabrics w)) as [r1|] eqn:Hfind.
  - pose proof (find_some_row _ _ _ Hfind) as [Hin Hwhere].
    apply Bool.andb_true_iff in Hwhere. destruct Hwhere as [Hc Hs].
    apply String.eqb_eq in Hc, Hs.
    rewrite UpdateFabric_of_active by exact Hs.
    cbn [persistence.scan Version].
    destruct (Z.eqb_spec (row_version r1) version) as [Hv|Hv];
      [now elim (Hoff r1 Hin Hc Hs)|].
    cbn [negb]. unfold ret. do 2 eexists. split; [reflexivity|].
    split; [right; split; reflexivity|]. norm_world. repeat split.
  - unfold ret. do 2 eexists. split; [reflexivity|].
    split; [left; reflexivity|]. norm_world. repeat split.
Qed.

(** X23.  Update events that are late, early or repeated have no effect:
    through the router as Subscribers.Start sets it up, an
    erp.fabric.updated message on subject erp.fabric whose version (a Go
    int) is not the one following the version of the stored ACTIVE fabric
    of its code is acknowledged with nil, and the fabrics table, the events
    table and the publisher's record are as before (the driver not failing
    on the read).  So an event is applied at most once, and only in its
    turn. *)
Theorem X23_update_events_out_of_turn_have_no_effect
    (EqualFold : string -> string -> bool) (w0 : World)
    (ctx : command.Context) (envelope : EventEnvelope)
    (event : erpFabricEvent) :
  next_outcome (driver w0) = None ->
  Validate envelope = None ->
  EventType envelope = "erp.fabric.updated" ->
  Payload_ envelope = PayloadErp event ->
  GoInt.in_range (AggregateVersion envelope) ->
  (forall r, In r (fabrics w0) -> row_code r = erp_Code event ->
             row_status r = "ACTIVE" ->
             row_version r + 1 <> AggregateVersion envelope) ->
  exists w',
    router.HandleMessage EqualFold (fst (Start_router outcome w0)) ctx
      "erp.fabric" (Some envelope) (snd (Start_router outcome w0))
    = (None, w') /\
    untouched w0 w'.
Proof.
  intros Hq Hval Htype Hpay Hrange Hoff.
  unfold Start_router, router.RegisterHandler, bind, logger, ret.
  cbn [fst snd].
  unfold router.HandleMessage, router.findHandler. cbn [router.handlers].
  cbn [router.map_set router.NewMessageRouter router.handlers router.map_get
       String.eqb Ascii.eqb Bool.eqb].
  unfold bind, logger.
  cbn [router.HandleMessage_ router.of_FabricEventHandler].
  unfold HandleMessage. rewrite Hval.
  unfold adaptEventToCommand. rewrite Hpay. cbn [decode_payload].
  rewrite Htype. cbn [String.eqb Ascii.eqb Bool.eqb].
  unfold handleUpdateEvent. cbv zeta.
  destruct (Valid (validateUpdateFabricEvent validator_New
                     (AggregateVersion envelope) (withDefaults event)))
    eqn:Hvalid; cbn [negb].
  2:{ unfold bind, logger, ret. eexists. split; [reflexivity|].
      norm_world. repeat split. }
  assert (Hpos : 0 < AggregateVersion envelope).
  { unfold validateUpdateFabricEvent in Hvalid. cbv zeta in Hvalid.
    rewrite !Valid_Check in Hvalid.
    cbn [Valid validator_New andb] in Hvalid.
    rewrite <- !Bool.andb_assoc in Hvalid.
    apply Bool.andb_true_iff in Hvalid. destruct Hvalid as [Hv _].
    now apply Z.ltb_lt. }
  assert (Hsub : GoInt.sub (AggregateVersion envelope) 1
                 = AggregateVersion envelope - 1).
  { apply sub_pred. unfold GoInt.in_range, GoInt.min_int in *. lia. }
  unfold bind.
  cbn [service wired_adapter of_FabricService UpdateFabric].
  destruct (withDefaults_keeps event) as [Hc _]. rewrite Hc, Hsub.
  match goal with
  | |- context [application.UpdateFabric _ ?c ?a1 ?a2 ?a3 ?a4 ?v ?w1] =>
      destruct (UpdateFabric_off_version c a1 a2 a3 a4 v w1)
        as (err & w2 & -> & Herr & Hunt)
  end.
  - norm_world. exact Hq.
  - norm_world. intros r Hin Hcode Hact Hv.
    apply (Hoff r Hin Hcode Hact). lia.
  - destruct Hunt as (Hf & He & Hp). norm_world.
    destruct Herr as [Hn|[Hn Hcf]].
    + rewrite Hn. unfold logger, ret. eexists. split; [reflexivity|].
      norm_world. repeat split; assumption.
    + rewrite Hn, Hcf. unfold logger, ret. eexists. split; [reflexivity|].
      norm_world. repeat split; assumption.
Qed.

End OutOfOrder.

Lemma X23_update_events_witness :
  let w0 := mkWorld [mkFabricRow 2 "AB1" "Linen" "m" "ON" "ACTIVE"]
              [] [] 0 [] [] in
  let envelope :=
    messaging.mkEnvelope "e7" "erp.fabric.updated" "AB1" "fabric" 2 1 0
      "" "" "" (messaging.PayloadErp (messaging.mkErp "AB1" "Linen" "m" "ON")) in
  exists w',
    router.HandleMessage String.eqb (fst (Start_router never_fails w0))
      command.Background "erp.fabric" (Some envelope)
      (snd (Start_router never_fails w0))
    = (None, w') /\
    untouched w0 w'.
Proof.
  intros w0 envelope.
  apply (X23_update_events_out_of_turn_have_no_effect never_fails String.eqb
           w0 command.Background envelope
           (messaging.mkErp "AB1" "Linen" "m" "ON")).
  - reflexivity.
  - reflexivity.
  - reflexivity.
  - reflexivity.
  - unfold GoInt.in_range, GoInt.min_int, GoInt.max_int. cbn. lia.
  - cbn. intros r [<-|[]] _ _. cbn. lia.
Defined.

(* ------------------------------------------------------------------ *)
(** ** What the service hands to the publisher *)

Section Publications.
Import messaging envelope.

Variable outcome : string -> EventEnvelope -> option error.

Lemma envelope_well_formed (eventType aggregateID aggregateType : string)
    (ev : Event) (w : World) :
  eventType <> "" -> aggregateID <> "" -> aggregateType <> "" ->
  event_code ev = aggregateID ->
  well_formed_publication
    ("app.fabric",
     fst (NewEventEnvelope eventType aggregateID aggregateType
            (event_version ev) (PayloadEvent ev) w)).
Proof.
  intros Ht Ha Hat Hc.
  unfold NewEventEnvelope, bind, ret, tick, well_formed_publication.
  cbn [fst snd EventType AggregateID AggregateType Payload_ EventVersion
       AggregateVersion].
  split; [reflexivity|]. split; [|split; [reflexivity|eauto]].
  unfold Validate.
  cbn [EventType AggregateID AggregateType Payload_].
  apply String.eqb_neq in Ht, Ha, Hat. now rewrite Ht, Ha, Hat.
Qed.

Lemma code_in_bounds_nonempty (code : string) :
  code_in_bounds code -> code <> "".
Proof.
  unfold code_in_bounds. intros H ->. cbn in H. lia.
Qed.

Lemma persist_and_forward_published {A : Type} (ctx : command.Context)
    (m1 m2 m3 m4 : string) (es : list EventEnvelope) (ok : A)
    (fail : error -> A) (w : World) :
  Forall (fun e => well_formed_publication ("app.fabric", e)) es ->
  exists added,
    published (snd (persist_and_forward (wired outcome) ctx m1 m2 m3 m4 es
                      ok fail w)) = published w ++ added /\
    Forall well_formed_publication added.
Proof.
  intros Hes.
  destruct (persist_and_forward_spec outcome ctx m1 m2 m3 m4 es ok fail w)
    as [(err & w' & -> & _ & _ & _ & Hp)|(w' & -> & _ & _ & Hp & _)];
    cbn [snd].
  - exists []. rewrite app_nil_r. auto.
  - eexists. split; [exact Hp|].
    destruct (command.IsFromREST ctx); [|constructor].
    apply Forall_forall. intros se Hin. apply in_map_iff in Hin.
    destruct Hin as (e & <- & He). rewrite Forall_forall in Hes. auto.
Qed.

Lemma perform_publications (c : ServiceCall) (w : World) :
  table_ok (fabrics w) ->
  exists added,
    published (perform outcome c w) = published w ++ added /\
    Forall well_formed_publication added.
Proof.
  intros [_ Hrows]. rewrite Forall_forall in Hrows.
  assert (Hnone : forall w1 : World, published w1 = published w ->
            exists added, published w1 = published w ++ added /\
                          Forall well_formed_publication added).
  { intros w1 H. exists []. rewrite app_nil_r. auto. }
  destruct c as [ctx code name mu os|ctx code name mu os v|ctx code v];
    cbn [perform].
  - rewrite CreateFabric_eq. cbv zeta.
    destruct (NewFabric code name mu os) as [fabric|nerr] eqn:Hn.
    2:{ unfold bind, logger, ret. apply Hnone. reflexivity. }
    destruct (NewFabric_row_ok _ _ _ _ _ Hn) as [(Hb & _) Hcode].
    cbn [row_of_fabric row_code] in Hb.
    apply NewFabric_Ok_inv in Hn. destruct Hn as [Hf _].
    unfold bind at 1.
    cbn [application.commandRepo wired application.NewFabricCommandService
         repo_Save persistence.FabricPostgresRepository].
    set (ctx1 := command.tracer_Start ctx "fabric.service.create").
    destruct (Save_spec ctx1 fabric w) as [(t' & d' & Hw) Hr].
    destruct (persistence.Save ctx1 fabric w) as [[p|serr] w1];
      cbn [fst snd] in *; subst w1.
    2:{ unfold bind, logger, ret. apply Hnone. reflexivity. }
    assert (Hp : Code p = Code fabric /\
                 exists ev, Events p = [ev] /\ event_code ev = Code p /\
                   event_version ev = Version p /\
                   ((exists a b c d v, ev = FabricCreated a b c d v) \/
                    (exists a b c d v, ev = FabricReactivated a b c d v))).
    { destruct Hr as [->|(r & _ & Hrc & _ & _ & ->)].
      - split; [reflexivity|]. subst fabric. cbn. eauto 15.
      - split; [exact Hrc|]. cbn. eauto 15. }
    destruct Hp as (Hcp & ev & -> & Hec & Hev & Hkind).
    assert (Hne : Code p <> "").
    { rewrite Hcp. now apply code_in_bounds_nonempty. }
    unfold bind.
    assert (Hes : exists e w2,
              application.create_envelopes p [ev]
                (with_fabrics t' (with_driver d' w)) = ([e], w2) /\
              published w2 = published w /\
              well_formed_publication ("app.fabric", e)).
    { destruct Hkind as [(a & b & c0 & d0 & v0 & ->)
                        |(a & b & c0 & d0 & v0 & ->)];
        cbn [application.create_envelopes]; unfold bind, ret;
        cbn [event_version event_code] in *; subst v0;
        match goal with
        | |- context [NewEventEnvelope ?t ?id ?at_ (Version p) (PayloadEvent ?e0) ?w0] =>
            pose proof (envelope_well_formed t id at_ e0 w0) as Hwf;
            cbn [event_version event_code] in Hwf;
            destruct (NewEventEnvelope t id at_ (Version p) (PayloadEvent e0)
                        w0) as [e w2] eqn:Henv
        end;
        (exists e, w2; split; [reflexivity|]; split;
         [ unfold NewEventEnvelope, bind, ret, tick in Henv;
           injection Henv as _ <-; reflexivity
         | apply Hwf; [discriminate|exact Hne|discriminate|exact Hec] ]). }
    destruct Hes as (e & w2 & -> & Hpub & Hwf).
    match goal with
    | |- context [persist_and_forward _ ?c ?a1 ?a2 ?a3 ?a4 ?es ?ok ?fail ?w0] =>
        destruct (persist_and_forward_published c a1 a2 a3 a4 es ok fail w0)
          as (added & Hadd & Hall)
    end; [now constructor|].
    exists added. rewrite Hadd, Hpub. auto.
  - rewrite UpdateFabric_eq. cbv zeta. unfold bind at 1.
    cbn [application.commandRepo wired application.NewFabricCommandService
         repo_GetByCode repo_Update persistence.FabricPostgresRepository].
    unfold persistence.GetByCode. rewrite get_by_eq.
    destruct (next_outcome (driver w)) as [gerr|].
    { unfold ret. apply Hnone. reflexivity. }
    destruct (find _ (fabrics w)) as [r0|] eqn:Hfind.
    2:{ unfold ret. apply Hnone. reflexivity. }
    pose proof (find_some_row _ _ _ Hfind) as [Hin Hwhere].
    apply Bool.andb_true_iff in Hwhere. destruct Hwhere as [Hc Hs].
    apply String.eqb_eq in Hc, Hs.
    destruct (Hrows r0 Hin) as (Hb & _).
    rewrite UpdateFabric_of_active by exact Hs.
    destruct (negb (Version (persistence.scan r0) =? v)%Z).
    { unfold ret. apply Hnone. reflexivity. }
    destruct (validateName name) as [verr|].
    { unfold ret. apply Hnone. reflexivity. }
    unfold bind at 1.
    match goal with
    | |- context [persistence.Update ?c ?f ?w0] =>
        destruct (Update_spec c f w0) as [(t' & Hw) _];
        destruct (persistence.Update c f w0) as [[uerr|] w1]
    end; cbn [fst snd] in *; subst w1.
    { unfold bind, logger, ret. apply Hnone. reflexivity. }
    unfold bind.
    cbn [Events events persistence.scan Code Version app
         application.update_envelopes].
    unfold bind, ret.
    match goal with
    | |- context [NewEventEnvelope ?t ?id ?at_ ?ver (PayloadEvent ?e0) ?w0] =>
        pose proof (envelope_well_formed t id at_ e0 w0) as Hwf;
        cbn [event_version event_code] in Hwf;
        destruct (NewEventEnvelope t id at_ ver (PayloadEvent e0) w0)
          as [e w2] eqn:Henv
    end.
    assert (Hpub : published w2 = published w).
    { unfold NewEventEnvelope, bind, ret, tick in Henv.
      injection Henv as _ <-. reflexivity. }
    match goal with
    | |- context [persist_and_forward _ ?c ?a1 ?a2 ?a3 ?a4 ?es ?ok ?fail ?w0] =>
        destruct (persist_and_forward_published c a1 a2 a3 a4 es ok fail w0)
          as (added & Hadd & Hall)
    end.
    { constructor; [|constructor].
      apply Hwf; [discriminate| |discriminate|reflexivity].
      now apply code_in_bounds_nonempty. }
    exists added. rewrite Hadd, Hpub. auto.
  - rewrite DeleteFabric_eq. cbv zeta. unfold bind at 1.
    cbn [application.commandRepo wired application.NewFabricCommandService
         repo_GetByCode repo_Delete persistence.FabricPostgresRepository].
    unfold persistence.GetByCode. rewrite get_by_eq.
    destruct (next_outcome (driver w)) as [gerr|].
    { unfold ret. apply Hnone. reflexivity. }
    destruct (find _ (fabrics w)) as [r0|] eqn:Hfind.
    2:{ unfold ret. apply Hnone. reflexivity. }
    pose proof (find_some_row _ _ _ Hfind) as [Hin Hwhere].
    apply Bool.andb_true_iff in Hwhere. destruct Hwhere as [Hc Hs].
    apply String.eqb_eq in Hc, Hs.
    destruct (Hrows r0 Hin) as (Hb & _).
    rewrite Delete_of_active by exact Hs.
    destruct (negb (Version (persistence.scan r0) =? v)%Z).
    { unfold ret. apply Hnone. reflexivity. }
    unfold bind at 1.
    match goal with
    | |- context [persistence.Delete ?c ?f ?w0] =>
        destruct (Delete_spec c f w0) as [(t' & Hw) _];
        destruct (persistence.Delete c f w0) as [[uerr|] w1]
    end; cbn [fst snd] in *; subst w1.
    { unfold bind, logger, ret. apply Hnone. reflexivity. }
    unfold bind.
    cbn [Events events persistence.scan Code Version app
         application.delete_envelopes].
    unfold bind, ret.
    match goal with
    | |- context [NewEventEnvelope ?t ?id ?at_ ?ver (PayloadEvent ?e0) ?w0] =>
        pose proof (envelope_well_formed t id at_ e0 w0) as Hwf;
        cbn [event_version event_code] in Hwf;
        destruct (NewEventEnvelope t id at_ ver (PayloadEvent e0) w0)
          as [e w2] eqn:Henv
    end.
    assert (Hpub : published w2 = published w).
    { unfold NewEventEnvelope, bind, ret, tick in Henv.
      injection Henv as _ <-. reflexivity. }
    match goal with
    | |- context [persist_and_forward _ ?c ?a1 ?a2 ?a3 ?a4 ?es ?ok ?fail ?w0] =>
        destruct (persist_and_forward_published c a1 a2 a3 a4 es ok fail w0)
          as (added & Hadd & Hall)
    end.
    { constructor; [|constructor].
      apply Hwf; [discriminate| |discriminate|reflexivity].
      now apply code_in_bounds_nonempty. }
    exists added. rewrite Hadd, Hpub. auto.
Qed.

Lemma perform_all_publications (cs : list ServiceCall) : forall w,
  table_ok (fabrics w) ->
  exists added,
    published (perform_all outcome cs w) = published w ++ added /\
    Forall well_formed_publication added.
Proof.
  unfold perform_all.
  induction cs as [|c rest IH]; intros w Hok; cbn [fold_left].
  - exists []. rewrite app_nil_r. auto.
  - destruct (perform_publications c w Hok) as (a1 & H1 & Hwf1).
    destruct (IH (perform outcome c w) (perform_table_ok outcome c w Hok))
      as (a2 & H2 & Hwf2).
    exists (a1 ++ a2). rewrite H2, H1, app_assoc.
    split; [reflexivity|]. apply Forall_app. auto.
Qed.

(** X24.  What the service publishes is well formed: starting from a
    well-formed fabrics table, every envelope that any run of CreateFabric,
    UpdateFabric and DeleteFabric calls hands to the publisher goes to the
    subject app.fabric, passes Validate, has event version 1 and carries a
    domain event whose code and version are the envelope's aggregate ID and
    aggregate version.  NatsPublisher.Publish therefore never refuses such
    an envelope as invalid: what it returns is decided by the connection
    alone. *)
Theorem X24_published_envelopes_are_well_formed
    (conn : string -> EventEnvelope -> option error)
    (cs : list ServiceCall) (w : World) :
  table_ok (fabrics w) ->
  exists added,
    published (perform_all outcome cs w) = published w ++ added /\
    Forall well_formed_publication added /\
    Forall (fun se =>
              forall ctx w1,
                fst (nats.Publish conn ctx (fst se) (snd se) w1)
                = option_map
                    (Errorf "failed to publish message to subject 'app.fabric'")
                    (conn "app.fabric" (snd se))) added.
Proof.
  intros Hok.
  destruct (perform_all_publications cs w Hok) as (added & Hp & Hwf).
  exists added. split; [exact Hp|]. split; [exact Hwf|].
  apply Forall_forall. intros [subject e] Hin.
  rewrite Forall_forall in Hwf. destruct (Hwf _ Hin) as (Hs & Hv & _).
  cbn [fst snd] in *. subst subject. intros ctx w1.
  unfold nats.Publish. rewrite Hv.
  destruct (conn "app.fabric" e); reflexivity.
Qed.

End Publications.

Lemma X24_published_envelopes_witness :
  let rest := command.WithCommandSource command.Background
                command.CommandSourceREST in
  exists added,
    published
      (perform_all never_fails
         [DoCreateFabric rest "AB1" "Cotton" "m" "ON";
          DoUpdateFabric rest "AB1" "Linen" "m" "ON" 1]
         (mkWorld [] [] [] 0 [] [])) = [] ++ added /\
    Forall well_formed_publication added /\
    Forall (fun se =>
              forall ctx w1,
                fst (nats.Publish always_fails ctx (fst se) (snd se) w1)
                = option_map
                    (Errorf "failed to publish message to subject 'app.fabric'")
                    (always_fails "app.fabric" (snd se))) added.
Proof.
  intros rest.
  apply (X24_published_envelopes_are_well_formed never_fails always_fails
           [DoCreateFabric rest "AB1" "Cotton" "m" "ON";
            DoUpdateFabric rest "AB1" "Linen" "m" "ON" 1]
           (mkWorld [] [] [] 0 [] [])).
  split; cbn; constructor.
Defined.

(* ------------------------------------------------------------------ *)
(** ** The two reads of the repository *)

Section Reads.
Import persistence.

(** X25.  GetByCode is GetByCodeIncludingDeleted restricted to ACTIVE: on
    a table that holds no code twice, with the driver answering both
    queries, if GetByCodeIncludingDeleted returns a fabric whose status is
    ACTIVE then GetByCode returns the same fabric; if it returns a fabric
    of another status, or reports the code as not found, then GetByCode
    reports the code as not found, with the same error; and whatever
    GetByCode returns, GetByCodeIncludingDeleted returns too. *)
Theorem X25_GetByCode_is_the_active_part_of_GetByCodeIncludingDeleted
    (ctx ctx2 : command.Context) (code : string) (w : World) :
  NoDup (map row_code (fabrics w)) ->
  next_outcome (driver w) = None ->
  let not_found :=
    Err (Errorf ("fabric with code " ++ code ++ " not found")
           ErrRecordNotFound) in
  match fst (GetByCodeIncludingDeleted ctx code w) with
  | Ok f =>
      Code f = code /\ events f = [] /\
      fst (GetByCode ctx2 code w)
      = (if Status f =? StatusActive then Ok f else not_found)
  | Err err =>
      err = Errorf ("fabric with code " ++ code ++ " not found")
              ErrRecordNotFound /\
      fst (GetByCode ctx2 code w) = not_found
  end.
Proof.
  intros Hnd Hq. cbv zeta.
  unfold GetByCodeIncludingDeleted, GetByCode. rewrite !get_by_eq, Hq.
  cbn [fst].
  destruct (find (fun r => row_code r =? code) (fabrics w)) as [r|] eqn:Hf.
  - pose proof (find_some_row _ _ _ Hf) as [Hin Hc].
    apply String.eqb_eq in Hc.
    split; [exact Hc|]. split; [reflexivity|].
    cbn [scan Status]. unfold StatusActive.
    destruct (String.eqb_spec (row_status r) "ACTIVE") as [Hs|Hs].
    + subst code. fold (active_code (row_code r)).
      now rewrite (find_active _ _ Hnd Hin Hs).
    + destruct (find (fun x => (row_code x =? code)
                                 && (row_status x =? "ACTIVE")) (fabrics w))
        as [r'|] eqn:Hf'; [|reflexivity].
      apply find_some_row in Hf'. destruct Hf' as [Hin' Hq'].
      apply Bool.andb_true_iff in Hq'. destruct Hq' as [Hc' Hs'].
      apply String.eqb_eq in Hc', Hs'.
      assert (r' = r) by (apply (unique_code_row (fabrics w)); congruence).
      subst r'. contradiction.
  - split; [reflexivity|].
    rewrite (find_none_weaker (fun r => row_code r =? code) _ (fabrics w));
      [reflexivity| |exact Hf].
    intros x Hx. now rewrite Hx.
Qed.

End Reads.

Lemma X25_GetByCode_witness :
  fst (persistence.GetByCode command.Background "AB1"
         (mkWorld [mkFabricRow 3 "AB1" "Cotton" "m" "ON" "DELETED"]
            [] [] 0 [] []))
  = Err (Errorf "fabric with code AB1 not found" ErrRecordNotFound).
Proof.
  apply (X25_GetByCode_is_the_active_part_of_GetByCodeIncludingDeleted
           command.Background command.Background "AB1"
           (mkWorld [mkFabricRow 3 "AB1" "Cotton" "m" "ON" "DELETED"]
              [] [] 0 [] [])).
  - cbn. repeat constructor. intros [].
  - reflexivity.
Defined.
